(** * AmiFi transaction service: extraction, classification and goal impact

    A shallow embedding of [src/parsers.py], [src/classifier.py],
    [src/goal_impact.py] and the request handlers of [src/main.py], and the
    properties of the three-stage pipeline
    (raw text -> fact -> classification -> goal impacts).

    Conventions of the embedding.
    - A Python [str] holding a raw message is a [string] whose characters are
      the code points 0..255 (Latin-1); the tables for [\d], [\w], [.],
      [str.lower], [str.strip] and case-insensitive matching below are
      Python's, restricted to that range.  Generated messages hold their
      non-Latin-1 symbols in UTF-8.
    - A Python [float] is a [PrimFloat.float] (IEEE 754 binary64, round to
      nearest even), so arithmetic and comparisons are Python's bit for bit.
    - An exception is an explicit [Raise] in the [result] monad.
    - [datetime.now()] is an explicit argument [now]; the loops over the
      lines of a file and over the goals of the summary take one reading per
      turn, [now n].
    - The database layer ([src/database.py], SQLite), the file system and
      logging are outside the embedding: the handlers take the database
      operations, the existence of a path and the lines of a file as
      parameters.                                                          *)

From Stdlib Require Import ZArith NArith List String Ascii Bool Lia.
From Stdlib Require Import PrimFloat SpecFloat FloatOps.
From Stdlib Require DecimalString.
From Stdlib Require FloatAxioms FloatLemmas Uint63.
Import ListNotations.

Set Warnings "-inexact-float".
Set Implicit Arguments.

Open Scope string_scope.

(* ================================================================= *)
(** * Python values and built-ins *)

Module Py.

(** ** Exceptions *)

Inductive exn : Set :=
| ValueError
| IndexError
| AttributeError
| TypeError
| ZeroDivisionError.

Inductive result (A : Type) : Type :=
| Ok (a : A)
| Raise (e : exn).

Arguments Ok {A} a.
Arguments Raise {A} e.

Definition bind {A B : Type} (m : result A) (f : A -> result B) : result B :=
  match m with
  | Ok a => f a
  | Raise e => Raise e
  end.

(** [try: m  except (ValueError, IndexError): h] *)
Definition try_except_value_index {A : Type} (m : result A) (h : result A) : result A :=
  match m with
  | Raise ValueError | Raise IndexError => h
  | other => other
  end.

(** ** Characters (code points 0..255) *)

Definition code (c : ascii) : N := N_of_ascii c.

Definition in_range (lo hi : N) (c : ascii) : bool :=
  (lo <=? code c)%N && (code c <=? hi)%N.

(** [\d]: the decimal digits; below 256 these are [0-9]. *)
Definition isdigit (c : ascii) : bool := in_range 48 57 c.

(** [str.isalnum] below 256: ASCII letters and digits, the Latin-1 letters,
    and the superscripts and fractions Python counts as numeric. *)
Definition isalnum (c : ascii) : bool :=
  isdigit c || in_range 65 90 c || in_range 97 122 c
  || (code c =? 170)%N || in_range 178 179 c || (code c =? 181)%N
  || in_range 185 186 c || in_range 188 190 c
  || in_range 192 214 c || in_range 216 246 c || in_range 248 255 c.

(** [\w]: alphanumeric or underscore. *)
Definition isword (c : ascii) : bool := isalnum c || (code c =? 95)%N.

(** [str.isspace] below 256. *)
Definition isspace (c : ascii) : bool :=
  in_range 9 13 c || in_range 28 32 c || (code c =? 133)%N || (code c =? 160)%N.

(** [str.lower] on one character: A-Z and the Latin-1 capitals (not the
    multiplication sign) move up by 32. *)
Definition lower_char (c : ascii) : ascii :=
  if in_range 65 90 c || (in_range 192 222 c && negb (code c =? 215)%N)
  then ascii_of_N (code c + 32) else c.

(** [str.upper] on one character, where the capital is below 256. *)
Definition upper_char (c : ascii) : ascii :=
  if in_range 97 122 c || (in_range 224 254 c && negb (code c =? 247)%N)
  then ascii_of_N (code c - 32) else c.

(** ** Strings *)

Fixpoint lower (s : string) : string :=
  match s with
  | EmptyString => EmptyString
  | String c s' => String (lower_char c) (lower s')
  end.

(** [sub in s] *)
Fixpoint contains (sub s : string) : bool :=
  String.prefix sub s ||
  match s with
  | EmptyString => false
  | String _ s' => contains sub s'
  end.

(** [x in xs] for a list of strings *)
Definition str_in (x : string) (xs : list string) : bool :=
  existsb (String.eqb x) xs.

(** [any(k in s for k in keys)] *)
Definition any_in (keys : list string) (s : string) : bool :=
  existsb (fun k => contains k s) keys.

Fixpoint lstrip (s : string) : string :=
  match s with
  | String c s' => if isspace c then lstrip s' else s
  | EmptyString => EmptyString
  end.

Fixpoint rev_string (acc s : string) : string :=
  match s with
  | EmptyString => acc
  | String c s' => rev_string (String c acc) s'
  end.

Definition rstrip (s : string) : string :=
  rev_string EmptyString (lstrip (rev_string EmptyString s)).

(** [s.strip()] *)
Definition strip (s : string) : string := rstrip (lstrip s).

(** [s.replace(c, '')] for a one-character [c] *)
Fixpoint remove_char (c : ascii) (s : string) : string :=
  match s with
  | EmptyString => EmptyString
  | String x s' => if Ascii.eqb x c then remove_char c s' else String x (remove_char c s')
  end.

(** [s.split(c)] for a one-character separator *)
Fixpoint split_on (c : ascii) (s : string) : list string :=
  match s with
  | EmptyString => [EmptyString]
  | String x s' =>
      if Ascii.eqb x c then EmptyString :: split_on c s'
      else match split_on c s' with
           | w :: ws => String x w :: ws
           | [] => [String x EmptyString]
           end
  end.

(** [s[:n]] and [s[n:]] for [n >= 0] *)
Definition slice_to (n : nat) (s : string) : string := substring 0 n s.
Definition slice_from (n : nat) (s : string) : string := substring n (length s - n) s.

(** [next((i for i, x in enumerate(xs) if p x), None)] *)
Fixpoint find_index {A : Type} (p : A -> bool) (xs : list A) : option nat :=
  match xs with
  | [] => None
  | x :: xs' => if p x then Some 0%nat else option_map S (find_index p xs')
  end.

(** ** Floats *)

(** [a > b] and [a >= b] *)
Definition gt (a b : float) : bool := PrimFloat.ltb b a.
Definition ge (a b : float) : bool := PrimFloat.leb b a.

(** [min(a, b)]: [b] when [b < a], else [a]; [max(a, b)]: [b] when [b > a]. *)
Definition min (a b : float) : float := if PrimFloat.ltb b a then b else a.
Definition max (a b : float) : float := if PrimFloat.ltb a b then b else a.

(** [a / b]: division by a zero of either sign raises. *)
Definition truediv (a b : float) : result float :=
  if PrimFloat.eqb b 0 then Raise ZeroDivisionError else Ok (a / b)%float.

(** The binary64 nearest to [n / d], ties to even ([n >= 0], [d > 0]). *)
Definition nearest_ratio (n d : Z) : float :=
  match n, d with
  | Zpos pn, Zpos pd =>
      SF2Prim (SFdiv prec emax (S754_finite false pn 0) (S754_finite false pd 0))
  | _, _ => 0%float
  end.

Fixpoint take_digits (s : string) : string * string :=
  match s with
  | String c s' =>
      if isdigit c then let (d, r) := take_digits s' in (String c d, r)
      else (EmptyString, s)
  | EmptyString => (EmptyString, EmptyString)
  end.

Fixpoint digits_value (acc : Z) (s : string) : Z :=
  match s with
  | String c s' => digits_value (10 * acc + Z.of_N (code c - 48)) s'
  | EmptyString => acc
  end.

Definition is_empty (s : string) : bool :=
  match s with EmptyString => true | _ => false end.

(** [float(s)] on the strings an amount group can hold once its commas are
    removed: digits with at most one dot.  Such a string is a float literal
    exactly when it has a digit; the value is the correctly rounded decimal.
    (Signs, exponents, [inf]/[nan], underscores and surrounding blanks, which
    [float] also reads, cannot occur in an amount group and raise here.) *)
Definition py_float (s : string) : result float :=
  let (ip, r) := take_digits s in
  let (fp, r') :=
    match r with
    | String "."%char r1 => take_digits r1
    | _ => (EmptyString, r)
    end in
  if is_empty r' && negb (is_empty (ip ++ fp))
  then Ok (nearest_ratio (digits_value 0 (ip ++ fp)) (10 ^ Z.of_nat (length fp)))
  else Raise ValueError.

(** [int(s)] on strings of decimal digits (all that the date and time groups
    can hold); anything else raises. *)
Definition py_int (s : string) : result Z :=
  let (d, r) := take_digits s in
  if is_empty r && negb (is_empty d) then Ok (digits_value 0 d) else Raise ValueError.

(** ** Fixed-point formatting: [f"{x:.2f}"] and [f"{x:.0%}"] *)

Definition round_half_even_div (n d : Z) : Z :=
  let q := (n / d)%Z in
  match (2 * (n mod d) ?= d)%Z with
  | Lt => q
  | Gt => (q + 1)%Z
  | Eq => if Z.even q then q else (q + 1)%Z
  end.

(** The integer nearest to [m * 2^e * 10^p], ties to even. *)
Definition scaled (p : nat) (m : positive) (e : Z) : Z :=
  if (0 <=? e)%Z then (Zpos m * 2 ^ e * 10 ^ Z.of_nat p)%Z
  else round_half_even_div (Zpos m * 10 ^ Z.of_nat p) (2 ^ (- e)).

Definition dec (n : Z) : string :=
  DecimalString.NilZero.string_of_uint (N.to_uint (Z.to_N n)).

Fixpoint zeros (n : nat) : string :=
  match n with
  | O => EmptyString
  | S n' => String "0"%char (zeros n')
  end.

Definition fixed_digits (p : nat) (n : Z) : string :=
  let ip := dec (n / 10 ^ Z.of_nat p) in
  match p with
  | O => ip
  | _ =>
      let fp := dec (n mod 10 ^ Z.of_nat p) in
      ip ++ "." ++ zeros (p - length fp) ++ fp
  end.

Definition sign_str (s : bool) : string := if s then "-" else EmptyString.

(** [format(x, ".pf")] *)
Definition format_f (p : nat) (x : float) : string :=
  match Prim2SF x with
  | S754_nan => "nan"
  | S754_infinity s => sign_str s ++ "inf"
  | S754_zero s => sign_str s ++ fixed_digits p 0
  | S754_finite s m e => sign_str s ++ fixed_digits p (scaled p m e)
  end.

(** [format(x, ".p%")]: the value times 100 (a float product), then [f]. *)
Definition format_pct (p : nat) (x : float) : string :=
  format_f p (x * 100)%float ++ "%".

(** ** [datetime] *)

Record datetime : Set := {
  year : Z; month : Z; day : Z;
  hour : Z; minute : Z; second : Z; microsecond : Z
}.

Definition is_leap (y : Z) : bool :=
  ((y mod 4 =? 0) && (negb (y mod 100 =? 0) || (y mod 400 =? 0)))%Z.

Definition days_in_month (y m : Z) : Z :=
  if (m =? 2)%Z then (if is_leap y then 29 else 28)
  else if ((m =? 4) || (m =? 6) || (m =? 9) || (m =? 11))%Z then 30 else 31.

Definition days_before_month (y m : Z) : Z :=
  nth (Z.to_nat m) [0; 0; 31; 59; 90; 120; 151; 181; 212; 243; 273; 304; 334]%Z 0%Z
  + (if (2 <? m)%Z && is_leap y then 1 else 0).

Definition days_before_year (y : Z) : Z :=
  let y' := (y - 1)%Z in (y' * 365 + y' / 4 - y' / 100 + y' / 400)%Z.

Definition toordinal (d : datetime) : Z :=
  (days_before_year (year d) + days_before_month (year d) (month d) + day d)%Z.

(** Monday is 0. *)
Definition weekday (d : datetime) : Z := ((toordinal d + 6) mod 7)%Z.

(** [datetime(y, m, d, h, mi)]; a field out of range raises [ValueError]. *)
Definition mk_datetime (y m d h mi : Z) : result datetime :=
  if ((1 <=? y) && (y <=? 9999) && (1 <=? m) && (m <=? 12)
      && (1 <=? d) && (d <=? days_in_month y m)
      && (0 <=? h) && (h <=? 23) && (0 <=? mi) && (mi <=? 59))%Z
  then Ok {| year := y; month := m; day := d; hour := h; minute := mi;
             second := 0; microsecond := 0 |}
  else Raise ValueError.

Definition total_microseconds (d : datetime) : Z :=
  ((((toordinal d * 24 + hour d) * 60 + minute d) * 60 + second d) * 1000000
   + microsecond d)%Z.

(** [(a - b).days]: a timedelta keeps its seconds and microseconds
    non-negative, so the days are the floor. *)
Definition days_between (a b : datetime) : Z :=
  ((total_microseconds a - total_microseconds b) / 86400000000)%Z.


End Py.

(* ================================================================= *)
(** * Regular expressions ([re.search] with backtracking and groups) *)

Module Re.

(** One-character items. *)
Inductive cset : Set :=
| Lit (c : ascii)            (* a literal character *)
| Digit                      (* \d *)
| Word                       (* \w *)
| Dot                        (* .  (no DOTALL: anything but a newline) *)
| Range (lo hi : ascii)      (* lo-hi inside [...] *)
| Union (a b : cset).        (* [ab] *)

(** The patterns of the source: literals, quantified one-character items,
    concatenation and numbered groups. *)
Inductive regex : Set :=
| Chr (c : cset)
| Str (s : string)                                         (* literal text *)
| Rep (greedy : bool) (lo : nat) (hi : option nat) (c : cset)  (* c{lo,hi} *)
| Cat (r1 r2 : regex)
| Grp (i : nat) (r : regex).                               (* i-th ( ... ) *)

Declare Scope re_scope.
Delimit Scope re_scope with re.
Bind Scope re_scope with regex.
Infix "++" := Cat (right associativity, at level 60) : re_scope.

Definition plus (c : cset) : regex := Rep true 1 None c.        (* c+  *)
Definition star (c : cset) : regex := Rep true 0 None c.        (* c*  *)
Definition opt (c : cset) : regex := Rep true 0 (Some 1%nat) c. (* c?  *)
Definition lazy_star (c : cset) : regex := Rep false 0 None c.  (* c*? *)
Definition times (n : nat) (c : cset) : regex := Rep true n (Some n) c. (* c{n} *)

(** Does character [x] match item [c]?  Under IGNORECASE ([ic]) a literal is
    compared after lowering and a range also accepts a character whose lower
    or upper case falls in it; the categories are unaffected.  This is
    Python's rule on the code points 0..255.  Beyond them IGNORECASE also lets
    the letter i match U+0130 and U+0131 and the letter s match U+017F, which
    [str.lower] does not map to i and s: no statement below concludes, from a
    match, that the lowered text contains a literal with one of these two
    letters. *)
Fixpoint cmatch (ic : bool) (c : cset) (x : ascii) : bool :=
  match c with
  | Lit l => if ic then Ascii.eqb (Py.lower_char x) (Py.lower_char l) else Ascii.eqb x l
  | Digit => Py.isdigit x
  | Word => Py.isword x
  | Dot => negb (Py.code x =? 10)%N
  | Range lo hi =>
      let inr y := Py.in_range (Py.code lo) (Py.code hi) y in
      inr x || (ic && (inr (Py.lower_char x) || inr (Py.upper_char x)))
  | Union a b => cmatch ic a x || cmatch ic b x
  end.

(** Group contents, newest first. *)
Definition caps : Set := list (nat * string).

Fixpoint get_group (i : nat) (c : caps) : option string :=
  match c with
  | [] => None
  | (j, s) :: c' => if Nat.eqb i j then Some s else get_group i c'
  end.

Section Matcher.

Variable ic : bool.

(** A quantified item against [s], then the continuation [k] on the rest.
    Greedy: one more repetition is tried before stopping; lazy: stopping is
    tried first. *)
Fixpoint rep (greedy : bool) (p : ascii -> bool) (lo : nat) (hi : option nat)
         (s : string) (k : string -> option caps) {struct s} : option caps :=
  let more :=
    match hi with
    | Some O => None
    | _ =>
        match s with
        | String x s' =>
            if p x then rep greedy p (Nat.pred lo) (option_map Nat.pred hi) s' k else None
        | EmptyString => None
        end
    end in
  match lo with
  | S _ => more
  | O =>
      if greedy
      then match more with Some r => Some r | None => k s end
      else match k s with Some r => Some r | None => more end
  end.

(** Literal text against a prefix of [s]. *)
Fixpoint lit (l s : string) : option string :=
  match l, s with
  | EmptyString, _ => Some s
  | String a l', String x s' => if cmatch ic (Lit a) x then lit l' s' else None
  | String _ _, EmptyString => None
  end.

(** The backtracking matcher, in continuation-passing style: [run r s c k]
    matches [r] at the start of [s] with the groups [c] set so far; the first
    way of matching [r] on which [k] succeeds decides. *)
Fixpoint run (r : regex) (s : string) (c : caps)
         (k : string -> caps -> option caps) {struct r} : option caps :=
  match r with
  | Chr cs =>
      match s with
      | String x s' => if cmatch ic cs x then k s' c else None
      | EmptyString => None
      end
  | Str l =>
      match lit l s with
      | Some s' => k s' c
      | None => None
      end
  | Rep g lo hi cs => rep g (cmatch ic cs) lo hi s (fun s' => k s' c)
  | Cat r1 r2 => run r1 s c (fun s' c' => run r2 s' c' k)
  | Grp i r1 =>
      run r1 s c (fun s' c' => k s' ((i, substring 0 (length s - length s') s) :: c'))
  end.

(** The leftmost position at which the pattern matches. *)
Fixpoint search_from (r : regex) (s : string) : option caps :=
  match run r s [] (fun _ c => Some c) with
  | Some c => Some c
  | None =>
      match s with
      | EmptyString => None
      | String _ s' => search_from r s'
      end
  end.

End Matcher.

(** Number of groups of a pattern. *)
Fixpoint ngroups (r : regex) : nat :=
  match r with
  | Cat r1 r2 => ngroups r1 + ngroups r2
  | Grp _ r1 => S (ngroups r1)
  | _ => 0
  end.

(** A match object: [m.groups()] is the tuple of all groups, [None] for one
    that took no part in the match. *)
Record match_obj : Set := { groups : list (option string) }.

(** [re.search(pattern, text, flags)] *)
Definition search (ignorecase : bool) (r : regex) (text : string) : option match_obj :=
  match search_from ignorecase r text with
  | Some c => Some {| groups := map (fun i => get_group i c) (seq 1 (ngroups r)) |}
  | None => None
  end.

End Re.

(* ================================================================= *)
(** * [src/parsers.py] *)

Module Parsers.

Import Py.
Import Re.

Notation "x <- m ;; k" := (bind m (fun x => k))
  (at level 61, m at next level, right associativity).

(** A value of the open [meta] dictionary. *)
Inductive meta_value : Set :=
| MetaStr (s : string)
| MetaList (l : list string).

(** The structured transaction data a parser returns. *)
Record ParsedTransaction : Set := {
  amount : float;
  currency : string;
  transaction_type : string;      (* credit, debit, bill, fee, other *)
  timestamp : datetime;
  account_ref : option string;
  merchant : option string;
  reference : option string;
  confidence : float;
  raw_message : string;
  channel : string;               (* sms or email *)
  meta : list (string * meta_value)
}.

(** One entry of a pattern table: the dictionary with keys ['regex'],
    ['type'], ['confidence'] and ['fields']. *)
Record pattern_info : Set := {
  p_regex : regex;
  p_type : string;
  p_confidence : float;
  p_fields : list string
}.

(** [[\d,]+\.?\d*] *)
Definition amount_re : regex :=
  (plus (Union Digit (Lit ",")) ++ opt (Lit ".") ++ star Digit)%re.

(** [\d{2}-\d{2}-\d{4}] *)
Definition date_re : regex :=
  (times 2 Digit ++ Str "-" ++ times 2 Digit ++ Str "-" ++ times 4 Digit)%re.

(** [[A-Z0-9]+] *)
Definition ref_re : regex := plus (Union (Range "A" "Z") (Range "0" "9")).

(** [xs[i]] *)
Definition index {A : Type} (xs : list A) (i : nat) : result A :=
  match nth_error xs i with
  | Some x => Ok x
  | None => Raise IndexError
  end.

(** A method call on a group that may be [None]. *)
Definition attr_of (g : option string) : result string :=
  match g with
  | Some s => Ok s
  | None => Raise AttributeError
  end.

(** Subscripting a group that may be [None]. *)
Definition subscript_of (g : option string) : result string :=
  match g with
  | Some s => Ok s
  | None => Raise TypeError
  end.

Module SMSParser.

(** HDFC Credit Card spending:
    INR (AMOUNT) spent on.*?(\w+ Credit Card) (XX\d+) at (.*?) on (DATE) (\d{4}),
    where AMOUNT is [amount_re] and DATE is [date_re]. *)
Definition hdfc_credit_card_spending : pattern_info :=
  {| p_regex :=
       (Str "INR " ++ Grp 1 amount_re ++ Str " spent on" ++ lazy_star Dot
        ++ Grp 2 (plus Word ++ Str " Credit Card") ++ Str " "
        ++ Grp 3 (Str "XX" ++ plus Digit) ++ Str " at " ++ Grp 4 (lazy_star Dot)
        ++ Str " on " ++ Grp 5 date_re ++ Str " " ++ Grp 6 (times 4 Digit))%re;
     p_type := "debit";
     p_confidence := 0.95;
     p_fields := ["amount"; "account_type"; "account_ref"; "merchant"; "date"; "time"] |}.

(** NEFT Credit:
    INR (AMOUNT) credited to AC (\d+) (\w+) via NEFT on (DATE) (\d{4})\. Ref ([A-Z0-9]+) *)
Definition neft_credit : pattern_info :=
  {| p_regex :=
       (Str "INR " ++ Grp 1 amount_re ++ Str " credited to AC " ++ Grp 2 (plus Digit)
        ++ Str " " ++ Grp 3 (plus Word) ++ Str " via NEFT on " ++ Grp 4 date_re
        ++ Str " " ++ Grp 5 (times 4 Digit) ++ Str ". Ref " ++ Grp 6 ref_re)%re;
     p_type := "credit";
     p_confidence := 0.95;
     p_fields := ["amount"; "account_ref"; "bank"; "date"; "time"; "reference"] |}.

(** UPI Payment:
    INR (AMOUNT) paid to (.*?) via UPI Ref ([A-Z0-9]+) on (DATE) (\d{4}) *)
Definition upi_payment : pattern_info :=
  {| p_regex :=
       (Str "INR " ++ Grp 1 amount_re ++ Str " paid to " ++ Grp 2 (lazy_star Dot)
        ++ Str " via UPI Ref " ++ Grp 3 ref_re ++ Str " on " ++ Grp 4 date_re
        ++ Str " " ++ Grp 5 (times 4 Digit))%re;
     p_type := "debit";
     p_confidence := 0.90;
     p_fields := ["amount"; "merchant"; "reference"; "date"; "time"] |}.

(** Bill Payment Reminder:
    Reminder.*?payment of INR ([\d,]+) due on (DATE) for (\w+) (XX\d+) *)
Definition bill_payment_reminder : pattern_info :=
  {| p_regex :=
       (Str "Reminder" ++ lazy_star Dot ++ Str "payment of INR "
        ++ Grp 1 (plus (Union Digit (Lit ","))) ++ Str " due on " ++ Grp 2 date_re
        ++ Str " for " ++ Grp 3 (plus Word) ++ Str " "
        ++ Grp 4 (Str "XX" ++ plus Digit))%re;
     p_type := "bill";
     p_confidence := 0.85;
     p_fields := ["amount"; "due_date"; "bank"; "account_ref"] |}.

(** [self.patterns]: common Indian bank SMS patterns, in declared order. *)
Definition patterns : list pattern_info :=
  [ hdfc_credit_card_spending; neft_credit; upi_payment; bill_payment_reminder ].

(** The generic fallback pattern: [INR ] and the amount group, matched
    case-sensitively. *)
Definition fallback_re : regex := (Str "INR " ++ Grp 1 amount_re)%re.

(** Parse timestamp from matched groups. *)
Definition _parse_timestamp (now : datetime) (groups : list (option string))
           (fields : list string) : result datetime :=
  let date_idx := find_index (contains "date") fields in
  let time_idx := find_index (contains "time") fields in
  match date_idx, time_idx with
  | Some date_idx, Some time_idx =>
      date_str <- index groups date_idx ;;      (* DD-MM-YYYY *)
      time_str <- index groups time_idx ;;      (* HHMM *)
      try_except_value_index
        (d <- attr_of date_str ;;
         match split_on "-" d with
         | [day; month; year] =>
             t <- subscript_of time_str ;;
             hour <- py_int (slice_to 2 t) ;;
             minute <- py_int (slice_from 2 t) ;;
             y <- py_int year ;;
             mo <- py_int month ;;
             dd <- py_int day ;;
             mk_datetime y mo dd hour minute
         | _ => Raise ValueError
         end)
        (* Fallback to current time *)
        (Ok now)
  | _, _ => Ok now
  end.

(** Extract specific field from groups. *)
Fixpoint _extract_field (groups : list (option string)) (fields target_fields : list string)
  : option string :=
  match target_fields with
  | [] => None
  | target :: rest =>
      match find_index (String.eqb target) fields with
      | Some idx =>
          match nth_error groups idx with
          | Some g => g
          | None => _extract_field groups fields rest
          end
      | None => _extract_field groups fields rest
      end
  end.

(** Extract structured data from regex match. *)
Definition _extract_transaction_data (now : datetime) (m : match_obj)
           (pattern_info : pattern_info) (raw_message : string)
  : result ParsedTransaction :=
  let groups := Re.groups m in
  let fields := p_fields pattern_info in
  (* Parse amount (always first field) *)
  g0 <- index groups 0 ;;
  g0 <- attr_of g0 ;;
  let amount_str := remove_char "," g0 in
  amount <- py_float amount_str ;;
  (* Parse timestamp *)
  timestamp <- _parse_timestamp now groups fields ;;
  (* Extract other fields *)
  let account_ref := _extract_field groups fields ["account_ref"] in
  let merchant := _extract_field groups fields ["merchant"] in
  let reference := _extract_field groups fields ["reference"] in
  Ok {| amount := amount;
        currency := "INR";
        transaction_type := p_type pattern_info;
        timestamp := timestamp;
        account_ref := account_ref;
        merchant := merchant;
        reference := reference;
        confidence := p_confidence pattern_info;
        raw_message := raw_message;
        channel := "sms";
        meta := [("parser", MetaStr "regex_pattern");
                 ("pattern_matched", MetaList (p_fields pattern_info))] |}.

(** The [for pattern_info in self.patterns] loop: the first pattern that
    matches, with its match object. *)
Fixpoint first_match (ps : list pattern_info) (sms_text : string)
  : option (match_obj * pattern_info) :=
  match ps with
  | [] => None
  | pattern_info :: rest =>
      match search true (p_regex pattern_info) sms_text with
      | Some m => Some (m, pattern_info)
      | None => first_match rest sms_text
      end
  end.

(** Parse single SMS message. *)
Definition parse_message (now : datetime) (sms_text : string)
  : result (option ParsedTransaction) :=
  let sms_text := strip sms_text in
  match first_match patterns sms_text with
  | Some (m, pattern_info) =>
      t <- _extract_transaction_data now m pattern_info sms_text ;;
      Ok (Some t)
  | None =>
      (* Generic fallback for unmatched messages *)
      match search false fallback_re sms_text with
      | Some amount_match =>
          g1 <- index (Re.groups amount_match) 0 ;;
          g1 <- attr_of g1 ;;
          let amount_str := remove_char "," g1 in
          amount <- py_float amount_str ;;
          Ok (Some {| amount := amount;
                      currency := "INR";
                      transaction_type := "other";
                      timestamp := now;           (* Fallback timestamp *)
                      account_ref := None;
                      merchant := None;
                      reference := None;
                      confidence := 0.3;          (* Low confidence for generic parse *)
                      raw_message := sms_text;
                      channel := "sms";
                      meta := [("parser", MetaStr "generic_fallback")] |})
      | None => Ok None
      end
  end.

End SMSParser.

Module EmailParser.

(** Interest credit:
    interest INR (AMOUNT) has been credited on (\d+ \w+) *)
Definition interest_credit : pattern_info :=
  {| p_regex :=
       (Str "interest INR " ++ Grp 1 amount_re ++ Str " has been credited on "
        ++ Grp 2 (plus Digit ++ Str " " ++ plus Word))%re;
     p_type := "credit";
     p_confidence := 0.90;
     p_fields := ["amount"; "date"] |}.

(** Bill payment:
    INR (AMOUNT) paid to (\w+)\. Txn ([A-Z0-9]+) on (\d+ \w+ \d+) *)
Definition bill_payment : pattern_info :=
  {| p_regex :=
       (Str "INR " ++ Grp 1 amount_re ++ Str " paid to " ++ Grp 2 (plus Word)
        ++ Str ". Txn " ++ Grp 3 ref_re ++ Str " on "
        ++ Grp 4 (plus Digit ++ Str " " ++ plus Word ++ Str " " ++ plus Digit))%re;
     p_type := "debit";
     p_confidence := 0.85;
     p_fields := ["amount"; "merchant"; "reference"; "date"] |}.

(** [self.patterns]: email-specific patterns. *)
Definition patterns : list pattern_info := [ interest_credit; bill_payment ].

(** Extract transaction from email match. *)
Definition _extract_email_transaction (now : datetime) (m : match_obj)
           (pattern_info : pattern_info) (raw_message : string)
  : result ParsedTransaction :=
  let groups := Re.groups m in
  g0 <- index groups 0 ;;
  g0 <- attr_of g0 ;;
  let amount_str := remove_char "," g0 in
  amount <- py_float amount_str ;;
  Ok {| amount := amount;
        currency := "INR";
        transaction_type := p_type pattern_info;
        timestamp := now;                          (* Simplified for now *)
        account_ref := None;
        merchant := match nth_error groups 1 with Some g => g | None => None end;
        reference := match nth_error groups 2 with Some g => g | None => None end;
        confidence := p_confidence pattern_info;
        raw_message := raw_message;
        channel := "email";
        meta := [("parser", MetaStr "email_regex")] |}.

(** Parse email message. *)
Definition parse_message (now : datetime) (email_text : string)
  : result (option ParsedTransaction) :=
  let email_text := strip email_text in
  match SMSParser.first_match patterns email_text with
  | Some (m, pattern_info) =>
      t <- _extract_email_transaction now m pattern_info email_text ;;
      Ok (Some t)
  | None => Ok None
  end.

End EmailParser.

(** Main parser coordinator. *)
Module TransactionParser.

(** A fact read from a file.  [parsed.meta['line_number'] = line_num] adds an
    integer entry to the [meta] of the fact; the entry is kept beside the
    fact, whose own [meta] holds the entries the parsers put there. *)
Record FileTransaction : Set := {
  parsed : ParsedTransaction;
  line_number : nat
}.

(** The loop [for line_num, line in enumerate(f, 1)] over the lines of the
    open file, from line [line_num] on, [transactions] being the list built
    so far.  A message reads the clock at most once: [now n] is the reading
    taken while line [n] is parsed. *)
Fixpoint parse_lines
         (parse_message : datetime -> string -> result (option ParsedTransaction))
         (now : nat -> datetime) (line_num : nat) (lines : list string)
         (transactions : list FileTransaction) : result (list FileTransaction) :=
  match lines with
  | [] => Ok transactions
  | line :: rest =>
      let line := strip line in
      if is_empty line then parse_lines parse_message now (S line_num) rest transactions
      else
        parsed <- parse_message (now line_num) line ;;
        match parsed with
        | Some parsed =>
            (* Add line number to meta for debugging *)
            parse_lines parse_message now (S line_num) rest
              (transactions ++ [ {| parsed := parsed; line_number := line_num |} ])
        | None => parse_lines parse_message now (S line_num) rest transactions
        end
  end.

(** Parse SMS file and return transactions; [lines] are the lines of the
    file as iteration yields them. *)
Definition parse_sms_file (now : nat -> datetime) (lines : list string)
  : result (list FileTransaction) :=
  parse_lines SMSParser.parse_message now 1 lines [].

(** Parse email file and return transactions. *)
Definition parse_email_file (now : nat -> datetime) (lines : list string)
  : result (list FileTransaction) :=
  parse_lines EmailParser.parse_message now 1 lines [].

End TransactionParser.

End Parsers.

(* ================================================================= *)
(** * [src/classifier.py] *)

Module Classifier.

Import Py.
Import Parsers.

(** Result of transaction classification. *)
Record ClassificationResult : Set := {
  category : string;
  confidence : float;
  subcategories : list string;
  features_used : list string
}.

(** A value stored in the feature dictionary. *)
Inductive value : Set :=
| VFloat (x : float)
| VStr (s : string)
| VBool (b : bool)
| VInt (n : Z).

(** A [dict] with string keys, in insertion order. *)
Definition dict : Set := list (string * value).

Fixpoint dict_get (k : string) (d : dict) : option value :=
  match d with
  | [] => None
  | (k', v) :: d' => if String.eqb k k' then Some v else dict_get k d'
  end.

(** [d[k] = v]: an existing key keeps its place. *)
Fixpoint dict_set (k : string) (v : value) (d : dict) : dict :=
  match d with
  | [] => [(k, v)]
  | (k', v') :: d' =>
      if String.eqb k k' then (k', v) :: d' else (k', v') :: dict_set k v d'
  end.

(** [d.update(e)] *)
Definition dict_update (d e : dict) : dict :=
  fold_left (fun acc kv => dict_set (fst kv) (snd kv) acc) e d.

(** [list(d.keys())] *)
Definition keys (d : dict) : list string := map fst d.

(** [features.get(key, '').lower()] *)
Definition get_lower (features : dict) (key : string) : result string :=
  match dict_get key features with
  | None => Ok EmptyString
  | Some (VStr s) => Ok (lower s)
  | Some _ => Raise AttributeError
  end.

(** [features.get('amount', 0) < 100] *)
Definition amount_lt_100 (features : dict) : result bool :=
  match dict_get "amount" features with
  | None => Ok true
  | Some (VFloat x) => Ok (PrimFloat.ltb x 100)
  | Some (VInt n) => Ok (n <? 100)%Z
  | Some (VBool _) => Ok true
  | Some (VStr _) => Raise TypeError
  end.

(** Interface for the TensorFlow Lite model. *)
Record TFLiteInterface : Set := {
  model_path : option string;
  model : option unit;            (* [None], or a loaded interpreter *)
  is_model_loaded : bool;
  categories : list string
}.

(** Load TensorFlow Lite model: the body is a TODO that only prints, so the
    interface is left as it was. *)
Definition _load_model (self : TFLiteInterface) : TFLiteInterface := self.

(** [TFLiteInterface.__init__] *)
Definition TFLiteInterface_init (model_path : option string) : TFLiteInterface :=
  let self :=
    {| model_path := model_path;
       model := None;
       is_model_loaded := false;
       (* Standard fintech categories *)
       categories :=
         ["shopping"; "utilities"; "food_dining"; "transportation";
          "entertainment"; "healthcare"; "education"; "bills";
          "transfer"; "investment"; "fee"; "cashback"; "other"] |} in
  match model_path with
  | Some (String _ _) => _load_model self
  | _ => self
  end.

(** Real TF-Lite prediction: a placeholder for now. *)
Definition _tflite_predict (features : dict) : result (string * float) :=
  Ok ("other", 0.5%float).

(** Rule-based classification as TF-Lite fallback. *)
Definition _rule_based_predict (features : dict) : result (string * float) :=
  merchant <- get_lower features "merchant" ;;
  txn_type <- get_lower features "transaction_type" ;;
  (* Shopping patterns *)
  if any_in ["amazon"; "flipkart"; "myntra"; "mall"] merchant
  then Ok ("shopping", 0.9%float)
  (* Utilities *)
  else if any_in ["mseb"; "electricity"; "gas"; "water"] merchant
  then Ok ("utilities", 0.95%float)
  (* Entertainment *)
  else if any_in ["netflix"; "spotify"; "prime"; "cinema"] merchant
  then Ok ("entertainment", 0.9%float)
  (* Bills based on transaction type *)
  else if String.eqb txn_type "bill"
  then Ok ("bills", 0.85%float)
  else
    raw <- get_lower features "raw_message" ;;
    (* UPI/NEFT transfers *)
    if contains "upi" raw || contains "neft" raw
    then Ok ("transfer", 0.8%float)
    else
      small <- amount_lt_100 features ;;
      (* Credit card fees (small amounts on credit cards) *)
      if small && contains "credit card" raw
      then Ok ("fee", 0.75%float)
      (* Interest credits *)
      else if String.eqb txn_type "credit" && contains "interest" raw
      then Ok ("cashback", 0.9%float)
      (* Default fallback *)
      else Ok ("other", 0.3%float).

(** Predict using TF-Lite model or fallback. *)
Definition predict (self : TFLiteInterface) (features : dict) : result (string * float) :=
  if is_model_loaded self && (match model self with Some _ => true | None => false end)
  then _tflite_predict features
  else _rule_based_predict features.

(** Extract merchant-based features. *)
Definition _extract_merchant_features (transaction : ParsedTransaction) : dict :=
  let merchant := lower (match merchant transaction with Some m => m | None => EmptyString end) in
  [ ("is_ecommerce", VBool (any_in ["amazon"; "flipkart"; "myntra"] merchant));
    ("is_streaming", VBool (any_in ["netflix"; "spotify"; "prime"] merchant));
    ("is_utility", VBool (any_in ["mseb"; "electricity"; "gas"] merchant)) ].

(** Categorize amount into buckets. *)
Definition _get_amount_bucket (amount : float) : string :=
  if PrimFloat.ltb amount 100 then "micro"
  else if PrimFloat.ltb amount 1000 then "small"
  else if PrimFloat.ltb amount 5000 then "medium"
  else "large".

(** Extract amount-based features. *)
Definition _extract_amount_features (transaction : ParsedTransaction) : dict :=
  let amount := amount transaction in
  [ ("is_micro_transaction", VBool (PrimFloat.ltb amount 10));
    ("is_small_transaction", VBool (PrimFloat.leb 10 amount && PrimFloat.ltb amount 500));
    ("is_medium_transaction", VBool (PrimFloat.leb 500 amount && PrimFloat.ltb amount 5000));
    ("is_large_transaction", VBool (ge amount 5000));
    ("amount_bucket", VStr (_get_amount_bucket amount)) ].

(** Categorize time into buckets. *)
Definition _get_time_bucket (hour : Z) : string :=
  if ((6 <=? hour) && (hour <? 12))%Z then "morning"
  else if ((12 <=? hour) && (hour <? 17))%Z then "afternoon"
  else if ((17 <=? hour) && (hour <? 21))%Z then "evening"
  else "night".

(** Extract time-based features. *)
Definition _extract_time_features (transaction : ParsedTransaction) : dict :=
  let hour := hour (timestamp transaction) in
  let weekday := weekday (timestamp transaction) in
  [ ("is_business_hours", VBool ((9 <=? hour) && (hour <=? 17))%Z);
    ("is_weekend", VBool (5 <=? weekday)%Z);
    ("time_bucket", VStr (_get_time_bucket hour)) ].

(** Extract channel-based features. *)
Definition _extract_channel_features (transaction : ParsedTransaction) : dict :=
  [ ("is_sms", VBool (String.eqb (channel transaction) "sms"));
    ("is_email", VBool (String.eqb (channel transaction) "email"));
    ("message_length", VInt (Z.of_nat (length (raw_message transaction)))) ].

(** Main transaction classification service. *)
Record TransactionClassifier : Type := {
  tflite_interface : TFLiteInterface;
  feature_extractors : list (string * (ParsedTransaction -> dict))
}.

(** [TransactionClassifier.__init__] *)
Definition TransactionClassifier_init (tflite_model_path : option string)
  : TransactionClassifier :=
  {| tflite_interface := TFLiteInterface_init tflite_model_path;
     (* Feature extraction strategy *)
     feature_extractors :=
       [ ("merchant_keywords", _extract_merchant_features);
         ("amount_patterns", _extract_amount_features);
         ("time_patterns", _extract_time_features);
         ("channel_info", _extract_channel_features) ] |}.

Definition is_some {A : Type} (o : option A) : bool :=
  match o with Some _ => true | None => false end.

(** Extract features for classification. *)
Definition _extract_features (self : TransactionClassifier) (transaction : ParsedTransaction)
  : dict :=
  let features :=
    [ ("amount", VFloat (amount transaction));
      ("transaction_type", VStr (transaction_type transaction));
      ("merchant", VStr (match merchant transaction with Some m => m | None => EmptyString end));
      ("channel", VStr (channel transaction));
      ("raw_message", VStr (raw_message transaction));
      ("has_account_ref", VBool (is_some (account_ref transaction)));
      ("has_reference", VBool (is_some (reference transaction))) ] in
  (* Add computed features *)
  fold_left (fun features ne => dict_update features (snd ne transaction))
            (feature_extractors self) features.

(** Generate relevant subcategories. *)
Definition _generate_subcategories (transaction : ParsedTransaction) (primary_category : string)
  : list string :=
  if String.eqb primary_category "shopping" then
    (if gt (amount transaction) 2000 then ["high_value_purchase"] else [])
    ++ (if contains "amazon"
             (lower (match merchant transaction with Some m => m | None => EmptyString end))
        then ["online_marketplace"] else [])
  else if String.eqb primary_category "utilities" then
    (if gt (amount transaction) 1000 then ["high_utility_bill"] else [])
  else if String.eqb primary_category "bills" then
    ["recurring_payment"]
    ++ (if contains "due" (lower (raw_message transaction)) then ["payment_reminder"] else [])
  else [].

(** Classify a parsed transaction. *)
Definition classify_transaction (self : TransactionClassifier) (transaction : ParsedTransaction)
  : result ClassificationResult :=
  (* Extract features for classification *)
  let features := _extract_features self transaction in
  (* Get prediction from TF-Lite interface *)
  cc <- predict (tflite_interface self) features ;;
  let (category, confidence) := cc : string * float in
  (* Generate subcategories based on rules *)
  let subcategories := _generate_subcategories transaction category in
  Ok {| category := category;
        confidence := confidence;
        subcategories := subcategories;
        features_used := keys features |}.

End Classifier.

(* ================================================================= *)
(** * [src/goal_impact.py] *)

Module GoalImpactCalculator.

Import Py.
Import Parsers.
Import Classifier.

Local Open Scope float_scope.

(** Types of financial goals supported. *)
Inductive GoalType : Set :=
| SAVINGS
| BUDGET
| BILL_PAYMENT
| SPENDING_LIMIT
| INVESTMENT.

(** Financial goal definition. *)
Record Goal : Set := {
  goal_id : string;
  goal_type : GoalType;
  name : string;
  target_amount : float;
  current_amount : float;
  deadline : option datetime;
  categories : list string;        (* Categories this goal tracks *)
  is_active : bool
}.

(** Impact of a transaction on a specific goal.  [impact_goal_id] is the
    dataclass field [goal_id]; [is_goal_at_risk] holds what the source
    computes with [deadline and ... and ...]: [None] when the goal has no
    deadline, else a boolean. *)
Record GoalImpact : Set := {
  impact_goal_id : string;
  goal_name : string;
  impact_score : float;            (* -1.0 to +1.0 *)
  message : string;
  impact_amount : float;
  new_progress : float;            (* 0.0 to 1.0 *)
  is_goal_achieved : bool;
  is_goal_at_risk : option bool
}.

(** Truth value of [None], [False] or [True]. *)
Definition truthy (b : option bool) : bool :=
  match b with Some true => true | _ => false end.

Definition dt (y m d : Z) : datetime :=
  {| year := y; month := m; day := d; hour := 0; minute := 0; second := 0; microsecond := 0 |}.

(** The demo goals of [_initialize_demo_goals], one definition each. *)
Definition demo_savings : Goal :=
  {| goal_id := "demo-savings";
     goal_type := SAVINGS;
     name := "Emergency Fund Savings";
     target_amount := 50000.0;
     current_amount := 15000.0;       (* Demo current progress *)
     deadline := Some (dt 2025 12 31);
     categories := ["credit"; "cashback"; "investment"];
     is_active := true |}.

Definition cc_bill : Goal :=
  {| goal_id := "cc-bill";
     goal_type := BILL_PAYMENT;
     name := "Credit Card Bill Payment";
     target_amount := 12450.0;        (* From sample data *)
     current_amount := 0.0;
     deadline := Some (dt 2025 9 30);
     categories := ["bill"; "credit"];
     is_active := true |}.

Definition monthly_budget : Goal :=
  {| goal_id := "monthly-budget";
     goal_type := SPENDING_LIMIT;
     name := "Monthly Spending Budget";
     target_amount := 25000.0;        (* Monthly limit *)
     current_amount := 8000.0;        (* Demo spent so far *)
     deadline := Some (dt 2025 9 30);
     categories := ["shopping"; "utilities"; "entertainment"; "food_dining"];
     is_active := true |}.

(** Initialize demo goals as specified in assignment. *)
Definition _initialize_demo_goals : list (string * Goal) :=
  [ ("demo-savings", demo_savings);
    ("cc-bill", cc_bill);
    ("monthly-budget", monthly_budget) ].

(** The calculator object: [self.demo_goals], a dictionary in insertion order. *)
Record GoalImpactCalculator : Set := { demo_goals : list (string * Goal) }.

(** [GoalImpactCalculator.__init__] *)
Definition GoalImpactCalculator_init : GoalImpactCalculator :=
  {| demo_goals := _initialize_demo_goals |}.

(** Check if transaction is relevant to goal. *)
Definition _is_transaction_relevant (transaction : ParsedTransaction)
           (classification : ClassificationResult) (goal : Goal) : bool :=
  (* Check if transaction type/category matches goal categories *)
  if str_in (transaction_type transaction) (categories goal) then true
  else if str_in (category classification) (categories goal) then true
  else
    (* Special cases for bill payments *)
    match goal_type goal with
    | BILL_PAYMENT =>
        if contains "reminder" (lower (raw_message transaction)) then true
        else if String.eqb (goal_id goal) "cc-bill"
                && contains "credit card" (lower (raw_message transaction)) then true
        else false
    | _ => false
    end.

(** Calculate impact on savings goal. *)
Definition _calculate_savings_impact (now : datetime) (transaction : ParsedTransaction)
           (classification : ClassificationResult) (goal : Goal) : result GoalImpact :=
  let amt := amount transaction in
  let '(impact_amount, impact_score, message) :=
    if String.eqb (transaction_type transaction) "credit" then
      (* Credits increase savings *)
      (amt, min 0.8 (amt / 5000),
       "Great! ₹" ++ format_f 2 amt ++ " added to your savings progress")
    else if String.eqb (transaction_type transaction) "debit" then
      (* Debits reduce potential savings *)
      (- amt, - min 0.6 (amt / 5000),
       if String.eqb (category classification) "shopping" && gt amt 1000
       then "High shopping expense of ₹" ++ format_f 2 amt ++ " impacts your savings goal"
       else "₹" ++ format_f 2 amt ++ " spent - consider if this aligns with your savings target")
    else (0.0, 0.0, EmptyString) in
  (* Calculate new progress *)
  let new_amount := current_amount goal + impact_amount in
  ratio <- truediv new_amount (target_amount goal) ;;
  let new_progress := min 1.0 (max 0.0 ratio) in
  (* Check if goal achieved or at risk *)
  let is_achieved := ge new_progress 1.0 in
  let is_at_risk :=
    match deadline goal with
    | None => None
    | Some d => Some ((days_between d now <? 30)%Z && PrimFloat.ltb new_progress 0.5)
    end in
  Ok {| impact_goal_id := goal_id goal;
        goal_name := name goal;
        impact_score := impact_score;
        message := message;
        impact_amount := impact_amount;
        new_progress := new_progress;
        is_goal_achieved := is_achieved;
        is_goal_at_risk := is_at_risk |}.

(** Calculate impact on bill payment goal. *)
Definition _calculate_bill_impact (now : datetime) (transaction : ParsedTransaction)
           (classification : ClassificationResult) (goal : Goal) : result GoalImpact :=
  let amt := amount transaction in
  let '(impact_amount, impact_score, message) :=
    if contains "reminder" (lower (raw_message transaction)) then
      (* Bill reminder - warning impact *)
      (amt, (-0.9)%float,
       "⚠️ Bill payment reminder: ₹" ++ format_f 2 amt ++ " due soon!")
    else if String.eqb (transaction_type transaction) "credit"
            && String.eqb (goal_id goal) "cc-bill" then
      (* Payment towards bill *)
      (- amt, 0.8,
       "✅ ₹" ++ format_f 2 amt ++ " payment towards your credit card bill")
    else (0.0, 0.0, EmptyString) in
  (* Calculate progress (for bills, progress = amount_paid / total_due) *)
  let remaining_amount := max 0 (target_amount goal + impact_amount) in
  ratio <- truediv remaining_amount (target_amount goal) ;;
  let new_progress := 1.0 - ratio in
  (* Check if due date is approaching *)
  let is_at_risk :=
    match deadline goal with
    | None => None
    | Some d => Some ((days_between d now <=? 5)%Z && PrimFloat.ltb new_progress 0.8)
    end in
  let message :=
    if truthy is_at_risk then message ++ " - Due date is approaching!" else message in
  Ok {| impact_goal_id := goal_id goal;
        goal_name := name goal;
        impact_score := impact_score;
        message := message;
        impact_amount := impact_amount;
        new_progress := new_progress;
        is_goal_achieved := ge new_progress 1.0;
        is_goal_at_risk := is_at_risk |}.

(** Calculate impact on spending budget goal. *)
Definition _calculate_budget_impact (transaction : ParsedTransaction)
           (classification : ClassificationResult) (goal : Goal)
  : result (option GoalImpact) :=
  if negb (String.eqb (transaction_type transaction) "debit") then
    Ok None                              (* Only debits affect spending budget *)
  else
    let amt := amount transaction in
    let impact_amount := amt in
    spent_ratio <- truediv (current_amount goal + impact_amount) (target_amount goal) ;;
    (* Budget impact scoring *)
    let '(impact_score, message) :=
      if gt spent_ratio 1.0 then
        ((-1.0)%float,                   (* Exceeded budget *)
         "⚠️ Budget exceeded! ₹" ++ format_f 2 amt ++ " spent on "
         ++ category classification)
      else if gt spent_ratio 0.8 then
        ((-0.7)%float,                   (* Close to limit *)
         "⚠️ ₹" ++ format_f 2 amt ++ " spent on " ++ category classification
         ++ ". You're at " ++ format_pct 0 spent_ratio ++ " of monthly budget")
      else
        ((-0.3)%float,                   (* Normal spending *)
         "₹" ++ format_f 2 amt ++ " spent on " ++ category classification
         ++ ". " ++ format_pct 0 (1 - spent_ratio) ++ " of budget remaining") in
    let new_progress := min 1.0 spent_ratio in
    Ok (Some {| impact_goal_id := goal_id goal;
                goal_name := name goal;
                impact_score := impact_score;
                message := message;
                impact_amount := impact_amount;
                new_progress := new_progress;
                is_goal_achieved := false;   (* Spending goals aren't "achieved" *)
                is_goal_at_risk := Some (gt spent_ratio 0.9) |}).

(** Calculate impact on a single goal. *)
Definition _calculate_single_goal_impact (now : datetime) (transaction : ParsedTransaction)
           (classification : ClassificationResult) (goal : Goal)
  : result (option GoalImpact) :=
  (* Determine if transaction is relevant to this goal *)
  if negb (_is_transaction_relevant transaction classification goal) then Ok None
  else
    (* Calculate impact based on goal type *)
    match goal_type goal with
    | SAVINGS =>
        i <- _calculate_savings_impact now transaction classification goal ;; Ok (Some i)
    | BILL_PAYMENT =>
        i <- _calculate_bill_impact now transaction classification goal ;; Ok (Some i)
    | SPENDING_LIMIT => _calculate_budget_impact transaction classification goal
    | _ => Ok None
    end.

(** The loop of [calculate_transaction_impact] over the goals, in order. *)
Fixpoint impacts_of (now : datetime) (transaction : ParsedTransaction)
         (classification : ClassificationResult) (goals : list (string * Goal))
  : result (list GoalImpact) :=
  match goals with
  | [] => Ok []
  | (_, goal) :: rest =>
      if negb (is_active goal) then impacts_of now transaction classification rest
      else
        impact <- _calculate_single_goal_impact now transaction classification goal ;;
        impacts <- impacts_of now transaction classification rest ;;
        (* Only add if transaction affects this goal *)
        Ok (match impact with
            | Some i => i :: impacts
            | None => impacts
            end)
  end.

(** Calculate impact of transaction on all relevant goals. *)
Definition calculate_transaction_impact (self : GoalImpactCalculator) (now : datetime)
           (transaction : ParsedTransaction) (classification : ClassificationResult)
  : result (list GoalImpact) :=
  impacts_of now transaction classification (demo_goals self).

(** [goal.goal_type.value] *)
Definition GoalType_value (t : GoalType) : string :=
  match t with
  | SAVINGS => "savings"
  | BUDGET => "budget"
  | BILL_PAYMENT => "bill_payment"
  | SPENDING_LIMIT => "spending_limit"
  | INVESTMENT => "investment"
  end.

(** One entry of the goal summary: the dictionary with the keys ['name'],
    ['type'], ['progress'], ['current_amount'], ['target_amount'],
    ['days_remaining'] and ['is_on_track']. *)
Record GoalSummary : Set := {
  summary_name : string;
  summary_type : string;
  progress : float;
  summary_current_amount : float;
  summary_target_amount : float;
  days_remaining : option Z;
  is_on_track : option bool
}.

(** [summary[goal_id] = entry]: an existing key keeps its place. *)
Fixpoint summary_set (k : string) (v : GoalSummary) (d : list (string * GoalSummary))
  : list (string * GoalSummary) :=
  match d with
  | [] => [(k, v)]
  | (k', v') :: d' =>
      if String.eqb k k' then (k', v) :: d' else (k', v') :: summary_set k v d'
  end.

(** The loop of [get_goal_summary] over the goals, in order, [summary] being
    the dictionary built so far; [now n] is the clock as read for the goal at
    position [n]. *)
Fixpoint summary_of (now : nat -> datetime) (n : nat) (goals : list (string * Goal))
         (summary : list (string * GoalSummary)) : result (list (string * GoalSummary)) :=
  match goals with
  | [] => Ok summary
  | (goal_id, goal) :: rest =>
      if is_active goal then
        progress <- truediv (current_amount goal) (target_amount goal) ;;
        let days_remaining :=
          match deadline goal with
          | Some d => Some (days_between d (now n))
          | None => None
          end in
        summary_of now (S n) rest
          (summary_set goal_id
             {| summary_name := name goal;
                summary_type := GoalType_value (goal_type goal);
                progress := min 1.0 progress;
                summary_current_amount := current_amount goal;
                summary_target_amount := target_amount goal;
                days_remaining := days_remaining;
                is_on_track :=
                  match days_remaining with
                  | Some d =>
                      if negb (d =? 0)%Z && (30 <? d)%Z then Some (ge progress 0.5)
                      else None
                  | None => None
                  end |}
             summary)
      else summary_of now (S n) rest summary
  end.

(** Get summary of all goals and their current status. *)
Definition get_goal_summary (self : GoalImpactCalculator) (now : nat -> datetime)
  : result (list (string * GoalSummary)) :=
  summary_of now 0 (demo_goals self) [].

End GoalImpactCalculator.

(* ================================================================= *)
(** * [src/main.py] *)

Module Main.

Import Py.
Import Parsers.
Import TransactionParser.
Import Classifier.
Import GoalImpactCalculator.

(** What an endpoint does: return a body, or raise [HTTPException]. *)
Inductive response (A : Type) : Type :=
| Returns (body : A)
| HTTPException (status_code : Z) (detail : string).

Arguments Returns {A} body.
Arguments HTTPException {A} status_code detail.

(** What the body of a [try] block ends with: a value, an exception of the
    services, an exception of the database layer, an exception on opening or
    reading a file, or an [HTTPException] raised by the block itself. *)
Inductive raised : Set :=
| PythonError (e : exn)
| DatabaseError
| FileError
| HTTPError (status_code : Z) (detail : string).

Inductive outcome (A : Type) : Type :=
| Done (a : A)
| Raised (e : raised).

Arguments Done {A} a.
Arguments Raised {A} e.

Definition call {A : Type} (m : result A) : outcome A :=
  match m with
  | Ok a => Done a
  | Raise e => Raised (PythonError e)
  end.

(** [except Exception as e: ...; raise HTTPException(status_code=500,
    detail="Internal server error")]: every exception is caught, an
    [HTTPException] raised inside the block included. *)
Definition except_exception {A : Type} (m : outcome A) : response A :=
  match m with
  | Done a => Returns a
  | Raised _ => HTTPException 500 "Internal server error"
  end.

(** Initialize services. *)
Definition transaction_classifier : TransactionClassifier := TransactionClassifier_init None.
Definition goal_calculator : GoalImpactCalculator := GoalImpactCalculator_init.

(** Single transaction message for processing. *)
Record TransactionMessage : Set := {
  request_message : string;        (* Raw SMS or email message *)
  request_channel : string;        (* Message channel: 'sms' or 'email' *)
  user_id : string                 (* User identifier *)
}.

(** One element of [goal_impacts] in the response. *)
Record ImpactView : Set := {
  view_goal_id : string;
  view_goal_name : string;
  view_impact_score : float;
  view_message : string;
  view_new_progress : float
}.

(** Processed transaction with classification and goal impacts. *)
Record ProcessedTransaction : Set := {
  transaction_id : string;
  processed_amount : float;
  processed_currency : string;
  processed_transaction_type : string;
  processed_category : string;
  processed_confidence : float;
  processed_timestamp : datetime;
  processed_merchant : option string;
  processed_account_ref : option string;
  processed_channel : string;
  goal_impacts : list ImpactView
}.

(** A value of the ['meta'] dictionary handed to the database: a value the
    parser stored, the line number of a fact read from a file, a merchant
    that may be [None], or the list of feature names. *)
Inductive meta_entry : Set :=
| ParserEntry (v : meta_value)
| LineNumber (n : nat)
| Merchant (m : option string)
| FeatureNames (l : list string).

(** The dictionary handed to [upsert_transaction]. *)
Record transaction_data : Set := {
  data_userid : string;
  data_timestamp : datetime;
  data_amount : float;
  data_currency : string;
  data_account_ref : option string;
  data_channel : string;
  data_raw_message : string;
  data_type : string;
  data_category : string;
  data_confidence : float;
  data_meta : list (string * meta_entry)
}.

(** [d[k] = v], and a key written after [**d] in a dictionary display: an
    existing key keeps its place. *)
Fixpoint entry_set {V : Type} (k : string) (v : V) (d : list (string * V))
  : list (string * V) :=
  match d with
  | [] => [(k, v)]
  | (k', v') :: d' =>
      if String.eqb k k' then (k', v) :: d' else (k', v') :: entry_set k v d'
  end.

(** [**parsed_txn.meta] *)
Definition spread (meta : list (string * meta_value)) : list (string * meta_entry) :=
  map (fun kv => (fst kv, ParserEntry (snd kv))) meta.

(** Bulk processing request. *)
Record BulkProcessRequest : Set := {
  file_type : string;              (* File type: 'sms' or 'email' *)
  bulk_user_id : string            (* User identifier *)
}.

(** The body [process_bulk_messages] returns. *)
Record BulkResponse : Set := {
  status : string;
  processed_count : nat;
  total_transactions : nat;
  file_processed : string
}.

Definition impact_view (impact : GoalImpact) : ImpactView :=
  {| view_goal_id := impact_goal_id impact;
     view_goal_name := goal_name impact;
     view_impact_score := impact_score impact;
     view_message := message impact;
     view_new_progress := new_progress impact |}.

Section Endpoints.

(** The database layer ([src/database.py] over SQLite) is a parameter: a
    state and the two operations the endpoints call, each of which may fail. *)
Variable database : Type.
Variable upsert_transaction : database -> transaction_data -> database * option string.
Variable add_goal_impact :
  database -> string -> string -> float -> string -> database * option string.

(** So is the file system: whether a path exists, and the lines that
    iterating over the opened file yields ([None] when opening or decoding
    fails). *)
Variable path_exists : string -> bool.
Variable read_lines : string -> option (list string).

(** [for impact in goal_impacts: db_manager.add_goal_impact(...)] *)
Fixpoint store_goal_impacts (db : database) (transaction_id : string)
         (impacts : list GoalImpact) : database * outcome unit :=
  match impacts with
  | [] => (db, Done tt)
  | impact :: rest =>
      match add_goal_impact db transaction_id (impact_goal_id impact)
                            (impact_score impact) (message impact) with
      | (db', Some _) => store_goal_impacts db' transaction_id rest
      | (db', None) => (db', Raised DatabaseError)
      end
  end.

(** The body of the [try] block of [process_single_message]; logging is left
    out.  [now] is the clock as the parser reads it, [later] as the goal
    calculator reads it. *)
Definition process_single_message_body (now later : datetime) (db : database)
           (request : TransactionMessage) : database * outcome ProcessedTransaction :=
  (* Parse message based on channel *)
  let parsed_txn :=
    if String.eqb (request_channel request) "sms"
    then call (SMSParser.parse_message now (request_message request))
    else if String.eqb (request_channel request) "email"
    then call (EmailParser.parse_message now (request_message request))
    else Raised (HTTPError 400 "Invalid channel. Use 'sms' or 'email'") in
  match parsed_txn with
  | Raised e => (db, Raised e)
  | Done None => (db, Raised (HTTPError 422 "Unable to parse transaction from message"))
  | Done (Some parsed_txn) =>
      (* Override user_id from request *)
      let meta := entry_set "userid" (MetaStr (user_id request)) (meta parsed_txn) in
      (* Classify transaction *)
      match call (classify_transaction transaction_classifier parsed_txn) with
      | Raised e => (db, Raised e)
      | Done classification =>
          (* Calculate goal impacts *)
          match call (calculate_transaction_impact goal_calculator later parsed_txn
                                                   classification) with
          | Raised e => (db, Raised e)
          | Done impacts =>
              (* Store in database with idempotency *)
              let data :=
                {| data_userid := user_id request;
                   data_timestamp := timestamp parsed_txn;
                   data_amount := amount parsed_txn;
                   data_currency := currency parsed_txn;
                   data_account_ref := account_ref parsed_txn;
                   data_channel := channel parsed_txn;
                   data_raw_message := raw_message parsed_txn;
                   data_type := transaction_type parsed_txn;
                   data_category := category classification;
                   data_confidence := Classifier.confidence classification;
                   data_meta :=
                     entry_set "merchant" (Merchant (merchant parsed_txn))
                       (entry_set "classification_features"
                          (FeatureNames (features_used classification))
                          (spread meta)) |} in
              match upsert_transaction db data with
              | (db1, None) => (db1, Raised DatabaseError)
              | (db1, Some transaction_id) =>
                  (* Store goal impacts *)
                  match store_goal_impacts db1 transaction_id impacts with
                  | (db2, Raised e) => (db2, Raised e)
                  | (db2, Done _) =>
                      (db2,
                       Done {| transaction_id := transaction_id;
                               processed_amount := amount parsed_txn;
                               processed_currency := currency parsed_txn;
                               processed_transaction_type := transaction_type parsed_txn;
                               processed_category := category classification;
                               processed_confidence := Classifier.confidence classification;
                               processed_timestamp := timestamp parsed_txn;
                               processed_merchant := merchant parsed_txn;
                               processed_account_ref := account_ref parsed_txn;
                               processed_channel := channel parsed_txn;
                               goal_impacts := map impact_view impacts |})
                  end
              end
          end
      end
  end.

(** Process a single transaction message. *)
Definition process_single_message (now later : datetime) (db : database)
           (request : TransactionMessage) : database * response ProcessedTransaction :=
  let (db', r) := process_single_message_body now later db request in
  (db', except_exception r).

(** The inner [try] block of [process_bulk_messages]: one transaction of the
    file is classified, scored and stored; [later] is the clock as the goal
    calculator reads it. *)
Definition store_transaction (later : datetime) (db : database) (user : string)
           (ft : FileTransaction) : database * outcome unit :=
  let parsed_txn := parsed ft in
  (* Classify and calculate impacts *)
  match call (classify_transaction transaction_classifier parsed_txn) with
  | Raised e => (db, Raised e)
  | Done classification =>
      match call (calculate_transaction_impact goal_calculator later parsed_txn
                                               classification) with
      | Raised e => (db, Raised e)
      | Done impacts =>
          (* Store transaction *)
          let data :=
            {| data_userid := user;
               data_timestamp := timestamp parsed_txn;
               data_amount := amount parsed_txn;
               data_currency := currency parsed_txn;
               data_account_ref := account_ref parsed_txn;
               data_channel := channel parsed_txn;
               data_raw_message := raw_message parsed_txn;
               data_type := transaction_type parsed_txn;
               data_category := category classification;
               data_confidence := Classifier.confidence classification;
               data_meta :=
                 entry_set "merchant" (Merchant (merchant parsed_txn))
                   (entry_set "line_number" (LineNumber (line_number ft))
                      (spread (meta parsed_txn))) |} in
          match upsert_transaction db data with
          | (db1, None) => (db1, Raised DatabaseError)
          | (db1, Some transaction_id) =>
              (* Store goal impacts *)
              store_goal_impacts db1 transaction_id impacts
          end
      end
  end.

(** [for parsed_txn in transactions: try: ...; processed_count += 1
    except Exception: continue]; [later k] is the clock as read for the
    transaction at position [k]. *)
Fixpoint store_transactions (later : nat -> datetime) (db : database) (user : string)
         (k : nat) (transactions : list FileTransaction) (processed_count : nat)
  : database * nat :=
  match transactions with
  | [] => (db, processed_count)
  | ft :: rest =>
      match store_transaction (later k) db user ft with
      | (db', Done _) => store_transactions later db' user (S k) rest (S processed_count)
      | (db', Raised _) => store_transactions later db' user (S k) rest processed_count
      end
  end.

(** The body of the outer [try] block of [process_bulk_messages]; [now n] is
    the clock as the parser reads it on line [n] of the file. *)
Definition process_bulk_messages_body (now later : nat -> datetime) (db : database)
           (request : BulkProcessRequest) : database * outcome BulkResponse :=
  let file_path := "data/" ++ file_type request ++ ".txt" in
  if negb (path_exists file_path)
  then (db, Raised (HTTPError 404 ("Data file not found: " ++ file_path)))
  else
    (* Parse transactions from file *)
    let transactions :=
      if String.eqb (file_type request) "sms"
      then match read_lines file_path with
           | Some lines => call (parse_sms_file now lines)
           | None => Raised FileError
           end
      else if String.eqb (file_type request) "email"
      then match read_lines file_path with
           | Some lines => call (parse_email_file now lines)
           | None => Raised FileError
           end
      else Raised (HTTPError 400 "Invalid file_type. Use 'sms' or 'email'") in
    match transactions with
    | Raised e => (db, Raised e)
    | Done transactions =>
        let (db', processed_count) :=
          store_transactions later db (bulk_user_id request) 0 transactions 0 in
        (db',
         Done {| status := "completed";
                 processed_count := processed_count;
                 total_transactions := List.length transactions;
                 file_processed := file_path |})
    end.

(** Process bulk messages from data files. *)
Definition process_bulk_messages (now later : nat -> datetime) (db : database)
           (request : BulkProcessRequest) : database * response BulkResponse :=
  let (db', r) := process_bulk_messages_body now later db request in
  (db', except_exception r).

End Endpoints.

(** The body of the answer of the classification test endpoint. *)
Record ParsedView : Set := {
  parsed_amount : float;
  parsed_type : string;
  parsed_merchant : option string;
  parsed_confidence : float
}.

Record ClassificationView : Set := {
  view_category : string;
  view_confidence : float;
  view_subcategories : list string
}.

Inductive classify_body : Set :=
| Unparsed (error : string) (message : string)
| Classified (message : string) (parsed : ParsedView) (classification : ClassificationView).

(** Test endpoint for message classification. *)
Definition classify_message (now : datetime) (message channel : string)
  : response classify_body :=
  except_exception
    (call
       ((* Parse message *)
        parsed_txn <-
          (if String.eqb channel "sms"
           then SMSParser.parse_message now message
           else EmailParser.parse_message now message) ;;
        match parsed_txn with
        | None => Ok (Unparsed "Unable to parse message" message)
        | Some parsed_txn =>
            (* Classify *)
            classification <- classify_transaction transaction_classifier parsed_txn ;;
            Ok (Classified message
                  {| parsed_amount := amount parsed_txn;
                     parsed_type := transaction_type parsed_txn;
                     parsed_merchant := merchant parsed_txn;
                     parsed_confidence := Parsers.confidence parsed_txn |}
                  {| view_category := category classification;
                     view_confidence := Classifier.confidence classification;
                     view_subcategories := subcategories classification |})
        end)).

(** Goal summary response. *)
Record GoalSummaryResponse : Set := {
  goals : list (string * GoalSummary);
  last_updated : datetime
}.

(** Get summary of all financial goals; [now n] is the clock as read for the
    goal at position [n], [updated] as read for the response. *)
Definition get_goals_summary (now : nat -> datetime) (updated : datetime)
  : response GoalSummaryResponse :=
  except_exception
    (call (goals <- get_goal_summary goal_calculator now ;;
           Ok {| goals := goals; last_updated := updated |})).

End Main.

(* ================================================================= *)
(** * The rule variant as the specification words it *)

Module RuleVariant.

Import Py.
Import Parsers.

Local Open Scope float_scope.

(** One branch of the decision list: a test on the fact, and the category
    and confidence it assigns. *)
Record rule : Type := {
  fires : ParsedTransaction -> bool;
  label : string;
  rule_confidence : float
}.

Definition merchant_lower (t : ParsedTransaction) : string :=
  lower (match merchant t with Some m => m | None => EmptyString end).

Definition kind_lower (t : ParsedTransaction) : string := lower (transaction_type t).

Definition raw_lower (t : ParsedTransaction) : string := lower (raw_message t).

(** An ordered decision list over raw fact attributes: merchant-keyword
    membership tests first (shopping, utilities, entertainment, in that
    order), then the transaction-kind test, then the transfer markers, then
    the fee heuristic, then the interest-credit heuristic.  Kinds are compared
    in lower case, as the source does. *)
Definition decision_list : list rule :=
  [ {| fires := fun t => any_in ["amazon"; "flipkart"; "myntra"; "mall"] (merchant_lower t);
       label := "shopping"; rule_confidence := 0.9 |};
    {| fires := fun t => any_in ["mseb"; "electricity"; "gas"; "water"] (merchant_lower t);
       label := "utilities"; rule_confidence := 0.95 |};
    {| fires := fun t => any_in ["netflix"; "spotify"; "prime"; "cinema"] (merchant_lower t);
       label := "entertainment"; rule_confidence := 0.9 |};
    {| fires := fun t => String.eqb (kind_lower t) "bill";
       label := "bills"; rule_confidence := 0.85 |};
    {| fires := fun t => contains "upi" (raw_lower t) || contains "neft" (raw_lower t);
       label := "transfer"; rule_confidence := 0.8 |};
    {| fires := fun t => PrimFloat.ltb (amount t) 100 && contains "credit card" (raw_lower t);
       label := "fee"; rule_confidence := 0.75 |};
    {| fires := fun t => String.eqb (kind_lower t) "credit" && contains "interest" (raw_lower t);
       label := "cashback"; rule_confidence := 0.9 |} ].

(** The final branch: else [other] with confidence 0.3. *)
Definition default_branch : string * float := ("other", 0.3).

(** First match wins: ties are resolved by branch order. *)
Fixpoint first_match_wins (rules : list rule) (t : ParsedTransaction) : string * float :=
  match rules with
  | [] => default_branch
  | r :: rest =>
      if fires r t then (label r, rule_confidence r) else first_match_wins rest t
  end.

(** The branches in order, as (category, confidence) pairs. *)
Definition branches : list (string * float) :=
  map (fun r => (label r, rule_confidence r)) decision_list ++ [default_branch].

End RuleVariant.

(* ================================================================= *)
(** * Sample messages *)

Module Samples.

Import Py.
Import Parsers.
Import Classifier.
Import GoalImpactCalculator.

Local Open Scope float_scope.

Definition amazon_text : string :=
  "INR 1,249.00 spent on HDFC Credit Card XX1234 at AMAZON on 23-09-2025 1435.".

Definition netflix_text : string :=
  "INR 799.00 paid to Netflix via UPI Ref UPI123XYZ on 24-09-2025 0910.".

Definition reminder_text : string :=
  "Reminder: payment of INR 12,450 due on 30-09-2025 for HDFC XX1234".

(** A reminder whose amount is a lone thousands separator. *)
Definition reminder_no_digits_text : string :=
  "Reminder: payment of INR , due on 30-09-2025 for HDFC XX1234".

(** A bare currency token whose amount is a lone thousands separator. *)
Definition bare_no_digits_text : string := "INR ,".

(** The fact the first SMS pattern extracts from [amazon_text]. *)
Definition amazon_fact : ParsedTransaction :=
  {| amount := 1249.0;
     currency := "INR";
     transaction_type := "debit";
     timestamp := {| year := 2025; month := 9; day := 23; hour := 14; minute := 35;
                     second := 0; microsecond := 0 |};
     account_ref := Some "XX1234";
     merchant := Some "AMAZON";
     reference := None;
     Parsers.confidence := 0.95;
     raw_message := amazon_text;
     channel := "sms";
     meta := [("parser", MetaStr "regex_pattern");
              ("pattern_matched",
               MetaList ["amount"; "account_type"; "account_ref"; "merchant"; "date"; "time"])] |}.

(** The fact the third SMS pattern extracts from [netflix_text]. *)
Definition netflix_fact : ParsedTransaction :=
  {| amount := 799.0;
     currency := "INR";
     transaction_type := "debit";
     timestamp := {| year := 2025; month := 9; day := 24; hour := 9; minute := 10;
                     second := 0; microsecond := 0 |};
     account_ref := None;
     merchant := Some "Netflix";
     reference := Some "UPI123XYZ";
     Parsers.confidence := 0.90;
     raw_message := netflix_text;
     channel := "sms";
     meta := [("parser", MetaStr "regex_pattern");
              ("pattern_matched",
               MetaList ["amount"; "merchant"; "reference"; "date"; "time"])] |}.

(** The names of the features consulted, in dictionary order. *)
Definition feature_names : list string :=
  ["amount"; "transaction_type"; "merchant"; "channel"; "raw_message";
   "has_account_ref"; "has_reference"; "is_ecommerce"; "is_streaming"; "is_utility";
   "is_micro_transaction"; "is_small_transaction"; "is_medium_transaction";
   "is_large_transaction"; "amount_bucket"; "is_business_hours"; "is_weekend";
   "time_bucket"; "is_sms"; "is_email"; "message_length"].

Definition amazon_classification : ClassificationResult :=
  {| category := "shopping";
     Classifier.confidence := 0.9;
     subcategories := ["online_marketplace"];
     features_used := feature_names |}.

Definition netflix_classification : ClassificationResult :=
  {| category := "entertainment";
     Classifier.confidence := 0.9;
     subcategories := [];
     features_used := feature_names |}.

Definition neft_text : string :=
  "INR 4,999.00 credited to AC 9876 ICICI via NEFT on 23-09-2025 1805. Ref ABCD123.".

(** The fact the second SMS pattern extracts from [neft_text]. *)
Definition neft_fact : ParsedTransaction :=
  {| amount := 4999.0;
     currency := "INR";
     transaction_type := "credit";
     timestamp := {| year := 2025; month := 9; day := 23; hour := 18; minute := 5;
                     second := 0; microsecond := 0 |};
     account_ref := Some "9876";
     merchant := None;
     reference := Some "ABCD123";
     Parsers.confidence := 0.95;
     raw_message := neft_text;
     channel := "sms";
     meta := [("parser", MetaStr "regex_pattern");
              ("pattern_matched",
               MetaList ["amount"; "account_ref"; "bank"; "date"; "time"; "reference"])] |}.

Definition neft_classification : ClassificationResult :=
  {| category := "transfer";
     Classifier.confidence := 0.8;
     subcategories := [];
     features_used := feature_names |}.

(** The fact the fourth SMS pattern extracts from [reminder_text]; the pattern
    has no time field, so the timestamp is the clock reading. *)
Definition reminder_fact (now : datetime) : ParsedTransaction :=
  {| amount := 12450.0;
     currency := "INR";
     transaction_type := "bill";
     timestamp := now;
     account_ref := Some "XX1234";
     merchant := None;
     reference := None;
     Parsers.confidence := 0.85;
     raw_message := reminder_text;
     channel := "sms";
     meta := [("parser", MetaStr "regex_pattern");
              ("pattern_matched", MetaList ["amount"; "due_date"; "bank"; "account_ref"])] |}.

Definition reminder_classification : ClassificationResult :=
  {| category := "bills";
     Classifier.confidence := 0.85;
     subcategories := ["recurring_payment"; "payment_reminder"];
     features_used := feature_names |}.

(** The credit-card bill goal, switched off. *)
Definition paused_bill : Goal :=
  {| goal_id := "cc-bill";
     goal_type := BILL_PAYMENT;
     name := "Credit Card Bill Payment";
     target_amount := 12450.0;
     current_amount := 0.0;
     deadline := Some (dt 2025 9 30);
     categories := ["bill"; "credit"];
     is_active := false |}.

(** A fallback-parsed fact (kind [other]) and a classification that files it
    under [investment]. *)
Definition fund_fact (now : datetime) : ParsedTransaction :=
  {| amount := 500.0;
     currency := "INR";
     transaction_type := "other";
     timestamp := now;
     account_ref := None;
     merchant := None;
     reference := None;
     Parsers.confidence := 0.3;
     raw_message := "INR 500 moved to mutual fund";
     channel := "sms";
     meta := [("parser", MetaStr "generic_fallback")] |}.


(** Two clock readings: ten and four days before the end of September 2025. *)
Definition sept_20 : datetime :=
  {| year := 2025; month := 9; day := 20; hour := 10; minute := 0;
     second := 0; microsecond := 0 |}.

Definition sept_26 : datetime :=
  {| year := 2025; month := 9; day := 26; hour := 10; minute := 0;
     second := 0; microsecond := 0 |}.


(** The interest-credit email of the repository's tests. *)
Definition interest_email_text : string :=
  "Subject: Statement Ready - Kotak Savings Body: Dear Customer, your monthly interest INR 210.00 has been credited on 30 Sep.".

(** A payment email in the shape the second email pattern reads. *)
Definition payment_email_text : string :=
  "Dear Customer, INR 1,500.00 paid to MSEB. Txn TX12345 on 22 Sep 2025.".

(** A message only the generic fallback pattern reads. *)
Definition atm_text : string := "INR 2,000 withdrawn at ATM".

End Samples.

(* ================================================================= *)
(** * Properties of the pipeline *)

Module Properties.

Import Py.
Import Parsers.
Import Classifier.
Import GoalImpactCalculator.
Import RuleVariant.
Import Samples.
Import Re.
Import TransactionParser.
Import Main.

(** ** Relations and derived quantities used in the statements *)

(** [spent_ratio = (goal.current_amount + amount) / target_amount] *)
Definition spent_ratio (t : ParsedTransaction) (g : Goal) : float :=
  ((current_amount g + amount t) / target_amount g)%float.

(** [clamp((goal.current_amount + impact_amount) / goal.target_amount, 0, 1)] *)
Definition clamped_progress (g : Goal) (impact_amount : float) : float :=
  min 1.0 (max 0.0 ((current_amount g + impact_amount) / target_amount g))%float.

(** The warning suffix of a bill-payment message. *)
Definition due_suffix : string := " - Due date is approaching!".

(** Two impact records that agree on everything the clock cannot touch: all
    fields but the at-risk flag and the message.  The messages are equal as
    soon as the flags agree; otherwise they are equal, or the message of the
    record that is at risk is the message of the other followed by the
    due-date warning. *)
Definition same_up_to_risk (i j : GoalImpact) : Prop :=
  impact_goal_id i = impact_goal_id j /\
  goal_name i = goal_name j /\
  impact_score i = impact_score j /\
  impact_amount i = impact_amount j /\
  new_progress i = new_progress j /\
  is_goal_achieved i = is_goal_achieved j /\
  (is_goal_at_risk i = is_goal_at_risk j -> message i = message j) /\
  (message i = message j \/
   (message i = message j ++ due_suffix /\
    is_goal_at_risk i = Some true /\ is_goal_at_risk j = Some false) \/
   (message j = message i ++ due_suffix /\
    is_goal_at_risk j = Some true /\ is_goal_at_risk i = Some false)).

(** Only the record of a bill-payment goal can differ in its message. *)
Definition message_kept (g : Goal) (o1 o2 : option GoalImpact) : Prop :=
  match o1, o2 with
  | Some i, Some j =>
      message i = message j \/
      (goal_type g = BILL_PAYMENT /\ impact_goal_id i = goal_id g)
  | _, _ => True
  end.

Definition opt_same (o1 o2 : option GoalImpact) : Prop :=
  match o1, o2 with
  | Some i, Some j => same_up_to_risk i j
  | None, None => True
  | _, _ => False
  end.


Definition nonzero_target (kg : string * Goal) : Prop :=
  PrimFloat.eqb (target_amount (snd kg)) 0 = false.

(** Classifying the same fact twice with one classifier. *)
Definition classify_twice (self : TransactionClassifier) (t : ParsedTransaction)
  : result (ClassificationResult * ClassificationResult) :=
  r1 <- classify_transaction self t ;;
  r2 <- classify_transaction self t ;;
  Ok (r1, r2).

(** The group numbers a pattern declares. *)
Fixpoint group_ids (r : Re.regex) : list nat :=
  match r with
  | Re.Cat r1 r2 => group_ids r1 ++ group_ids r2
  | Re.Grp i r1 => i :: group_ids r1
  | _ => []
  end.

Definition has_group (i : nat) (c : Re.caps) : Prop := Re.get_group i c <> None.

(** The groups of the pattern are numbered 1..n. *)
Definition numbered (r : Re.regex) : bool :=
  forallb (fun i => existsb (Nat.eqb i) (group_ids r)) (seq 1 (Re.ngroups r)).

(** What the extraction relies on in a pattern: its groups are numbered
    1..n with n >= 1, and its date and time fields, if any, index a group. *)
Definition well_formed (p : pattern_info) : bool :=
  numbered (p_regex p)
  && (1 <=? Re.ngroups (p_regex p))%nat
  && match find_index (contains "date") (p_fields p) with
     | Some i => (i <? Re.ngroups (p_regex p))%nat
     | None => true
     end
  && match find_index (contains "time") (p_fields p) with
     | Some i => (i <? Re.ngroups (p_regex p))%nat
     | None => true
     end.

(** A computation whose only exception is [ValueError]. *)
Definition only_value_error {A : Type} (m : result A) : Prop :=
  forall e, m = Raise e -> e = ValueError.

(** The fact of the generic fallback parse. *)
Definition fallback_fact (now : datetime) (a : float) (s : string) : ParsedTransaction :=
  {| amount := a;
     currency := "INR";
     transaction_type := "other";
     timestamp := now;
     account_ref := None;
     merchant := None;
     reference := None;
     Parsers.confidence := 0.3;
     raw_message := s;
     channel := "sms";
     meta := [("parser", MetaStr "generic_fallback")] |}.

Fixpoint all_chars (p : ascii -> bool) (w : string) : bool :=
  match w with
  | EmptyString => true
  | String x w' => p x && all_chars p w'
  end.

(** The words a pattern can consume. *)
Fixpoint consumed (ic : bool) (r : regex) (w : string) : Prop :=
  match r with
  | Chr c => exists x, w = String x EmptyString /\ cmatch ic c x = true
  | Str l => lit ic l w = Some EmptyString
  | Rep _ lo hi c =>
      all_chars (cmatch ic c) w = true /\ (lo <= length w)%nat /\
      match hi with Some h => (length w <= h)%nat | None => True end
  | Cat r1 r2 => exists w1 w2, w = w1 ++ w2 /\ consumed ic r1 w1 /\ consumed ic r2 w2
  | Grp _ r1 => consumed ic r1 w
  end.

(** Every group numbered [i] in the pattern consumes only words of [P]. *)
Fixpoint content_ok (ic : bool) (i : nat) (P : string -> Prop) (r : regex) : Prop :=
  match r with
  | Cat r1 r2 => content_ok ic i P r1 /\ content_ok ic i P r2
  | Grp j r1 => (j = i -> forall w, consumed ic r1 w -> P w) /\ content_ok ic i P r1
  | _ => True
  end.

(** Group [i], if set, holds a word of [P]. *)
Definition group_in (i : nat) (P : string -> Prop) (c : caps) : Prop :=
  forall w, get_group i c = Some w -> P w.

Fixpoint has_digit (w : string) : bool :=
  match w with
  | EmptyString => false
  | String x w' => isdigit x || has_digit w'
  end.

(** [float] on the group without its commas succeeds exactly when the group
    has a digit. *)
Definition digits_decide (w : string) : Prop :=
  (has_digit w = true -> exists a, py_float (remove_char "," w) = Ok a) /\
  (has_digit w = false -> py_float (remove_char "," w) = Raise ValueError).

(** The amount group of the pattern that decides a text: the first declared
    pattern that matches, else the fallback pattern. *)
Definition amount_group (text : string) : option string :=
  match SMSParser.first_match SMSParser.patterns (strip text) with
  | Some (m, _) => match nth_error (groups m) 0 with Some g => g | None => None end
  | None =>
      match search false SMSParser.fallback_re (strip text) with
      | Some m => match nth_error (groups m) 0 with Some g => g | None => None end
      | None => None
      end
  end.

(** ** Orders, shapes and outcomes used in the statements *)

(** The order on specification floats: less than, less than or equal. *)
Definition sf_lt (x y : spec_float) : Prop := SFcompare x y = Some Lt.
Definition sf_le (x y : spec_float) : Prop := SFcompare x y = Some Lt \/ SFcompare x y = Some Eq.

(** A float that is zero or has a positive sign (not NaN). *)
Definition sf_nonneg (x : spec_float) : Prop :=
  match x with
  | S754_nan => False
  | S754_zero _ => True
  | S754_infinity s => s = false
  | S754_finite s _ _ => s = false
  end.

(** [x] lies in [lo, hi]. *)
Definition within (lo hi x : float) : Prop :=
  PrimFloat.leb lo x = true /\ PrimFloat.leb x hi = true.

(** The literal texts of a pattern. *)
Fixpoint literals (r : regex) : list string :=
  match r with
  | Str l => [l]
  | Cat r1 r2 => literals r1 ++ literals r2
  | Grp _ r1 => literals r1
  | _ => []
  end.

(** [sub] occurs in [s]. *)
Definition occurs (sub s : string) : Prop := exists pre post, s = pre ++ sub ++ post.

(** A word of ASCII characters none of which is an i or an s.  Of the ASCII
    letters only these two have, beyond the code points 0..255, a partner
    under IGNORECASE that [str.lower] does not map back to them; for a word
    without them, being matched under IGNORECASE and being contained after
    lowering agree on every Python string. *)
Fixpoint case_safe (w : string) : bool :=
  match w with
  | EmptyString => true
  | String c w' =>
      (code c <? 128)%N
      && negb (Ascii.eqb (lower_char c) "i") && negb (Ascii.eqb (lower_char c) "s")
      && case_safe w'
  end.

(** A string that does not start with a blank. *)
Definition first_not_space (s : string) : Prop :=
  match s with String c _ => isspace c = false | EmptyString => True end.

(** The declared pattern that decides a text: the first that matches. *)
Definition deciding_pattern (text : string) : option pattern_info :=
  option_map snd (SMSParser.first_match SMSParser.patterns (strip text)).

(** An active goal whose target is zero. *)
Definition zero_target (kg : string * Goal) : bool :=
  is_active (snd kg) && PrimFloat.eqb (target_amount (snd kg)) 0.

(** What every entry of a goal summary satisfies: the progress is at most 1,
    and the on-track flag is set only when more than 30 whole days remain. *)
Definition summary_entry_ok (ke : string * GoalSummary) : Prop :=
  PrimFloat.leb (progress (snd ke)) 1 = true /\
  forall b, is_on_track (snd ke) = Some b ->
            exists d, days_remaining (snd ke) = Some d /\ (30 < d)%Z.

(** The entry of goal [g] in a summary for which the clock read [now]: the
    days remaining are the whole days from [now] to the deadline, and the
    on-track flag is set exactly when there is a deadline more than 30 whole
    days after [now]. *)
Definition summary_entry_of (g : Goal) (now : datetime) (e : GoalSummary) : Prop :=
  summary_name e = name g /\
  summary_type e = GoalType_value (goal_type g) /\
  summary_current_amount e = current_amount g /\
  summary_target_amount e = target_amount g /\
  progress e = min 1.0 (current_amount g / target_amount g)%float /\
  days_remaining e = option_map (fun d => days_between d now) (deadline g) /\
  is_on_track e
  = match deadline g with
    | Some d => if (30 <? days_between d now)%Z
                then Some (ge (current_amount g / target_amount g)%float 0.5)
                else None
    | None => None
    end.

(** The entries of a summary come from the registry: the entry under a key
    is the entry of an active goal registered under that key, for the clock
    reading taken at the position of that goal. *)
Definition from_registry (goals : list (string * Goal)) (now : nat -> datetime)
           (ke : string * GoalSummary) : Prop :=
  exists n g,
    nth_error goals n = Some (fst ke, g) /\ is_active g = true /\
    summary_entry_of g (now n) (snd ke).

(** The amount group of the email pattern that decides a text. *)
Definition email_amount_group (text : string) : option string :=
  match SMSParser.first_match EmailParser.patterns (strip text) with
  | Some (m, _) => match nth_error (groups m) 0 with Some g => g | None => None end
  | None => None
  end.

(** The lines of a file on which a parser raises, returns a fact, returns
    nothing. *)
Inductive line_outcome : Set := LineRaises | LineFact | LineNothing.

(** The outcome on a line, read off its amount group [group line]: a fact
    when the group has a digit, an exception when it has none, nothing when
    there is no group. *)
Definition outcome_of (group : string -> option string) (line : string) : line_outcome :=
  match group line with
  | Some g => if has_digit g then LineFact else LineRaises
  | None => LineNothing
  end.

(** The numbers of the lines that yield a fact, [n] being the number of the
    first line. *)
Fixpoint fact_lines (group : string -> option string) (n : nat) (lines : list string)
  : list nat :=
  match lines with
  | [] => []
  | line :: rest =>
      match outcome_of group line with
      | LineFact => n :: fact_lines group (S n) rest
      | _ => fact_lines group (S n) rest
      end
  end.

(** A line on which the parser raises. *)
Definition raising_line (group : string -> option string) (line : string) : bool :=
  match outcome_of group line with LineRaises => true | _ => false end.

(** A parser decided by the amount group [group]: it strips its text, and
    its outcome on a text is read off the group. *)
Definition decided_by (group : string -> option string)
           (parse_message : datetime -> string -> result (option ParsedTransaction)) : Prop :=
  (forall text, group (strip text) = group text) /\
  (forall now text, parse_message now (strip text) = parse_message now text) /\
  group EmptyString = None /\
  forall now text,
    match outcome_of group text with
    | LineFact => exists t, parse_message now text = Ok (Some t)
    | LineRaises => parse_message now text = Raise ValueError
    | LineNothing => parse_message now text = Ok None
    end.

(** Each fact of the list was parsed from the line whose number it carries,
    at the clock reading of that line. *)
Definition from_line (parse_message : datetime -> string -> result (option ParsedTransaction))
           (now : nat -> datetime) (first : nat) (lines : list string)
           (ft : FileTransaction) : Prop :=
  exists line,
    nth_error lines (line_number ft - first) = Some line /\
    (first <= line_number ft)%nat /\
    parse_message (now (line_number ft)) line = Ok (Some (parsed ft)).

(** The email pattern that decides a text. *)
Definition deciding_email_pattern (text : string) : option pattern_info :=
  option_map snd (SMSParser.first_match EmailParser.patterns (strip text)).

(** A day and a month name: digits, one blank, word characters. *)
Definition day_month (w : string) : Prop :=
  exists d mo, w = d ++ " " ++ mo /\
               all_chars isdigit d = true /\ all_chars isword mo = true /\
               d <> EmptyString /\ mo <> EmptyString.




(** A written date [DD-MM-YYYY]. *)
Definition date_shape (w : string) : Prop :=
  exists dd mm yyyy,
    w = dd ++ "-" ++ mm ++ "-" ++ yyyy /\
    all_chars isdigit dd = true /\ all_chars isdigit mm = true /\
    all_chars isdigit yyyy = true /\
    length dd = 2%nat /\ length mm = 2%nat /\ length yyyy = 4%nat.

(** A written time [HHMM]. *)
Definition time_shape (w : string) : Prop :=
  all_chars isdigit w = true /\ length w = 4%nat.

(** The moment a date and a time denote, if any: [datetime(YYYY, MM, DD, HH, MM)]. *)
Definition written_moment (date time : string) : result datetime :=
  mk_datetime (digits_value 0 (substring 6 4 date))
              (digits_value 0 (substring 3 2 date))
              (digits_value 0 (substring 0 2 date))
              (digits_value 0 (substring 0 2 time))
              (digits_value 0 (substring 2 2 time)).

(** The position of the date group of a dated pattern. *)
Definition date_position (p : pattern_info) : nat :=
  match find_index (contains "date") (p_fields p) with Some i => i | None => 0 end.

(** The position of the time group. *)
Definition time_position (p : pattern_info) : nat :=
  match find_index (contains "time") (p_fields p) with Some i => i | None => 0 end.

(** The patterns with a date and a time field. *)
Definition dated_patterns : list pattern_info :=
  [ SMSParser.hdfc_credit_card_spending; SMSParser.neft_credit; SMSParser.upi_payment ].

(** The categories the rules can produce. *)
Definition predicted_categories : list string :=
  ["shopping"; "utilities"; "entertainment"; "bills"; "transfer"; "fee"; "cashback"; "other"].

(** The subcategory lists a category can come with. *)
Definition subcategory_lists (cat : string) : list (list string) :=
  if String.eqb cat "shopping"
  then [[]; ["high_value_purchase"]; ["online_marketplace"];
        ["high_value_purchase"; "online_marketplace"]]
  else if String.eqb cat "utilities" then [[]; ["high_utility_bill"]]
  else if String.eqb cat "bills"
  then [["recurring_payment"]; ["recurring_payment"; "payment_reminder"]]
  else [[]].

(** Does a request carry a message from which its channel's parser extracts
    a fact? *)
Definition accepted (request : TransactionMessage) : bool :=
  if String.eqb (request_channel request) "sms"
  then match outcome_of amount_group (request_message request) with
       | LineFact => true | _ => false end
  else if String.eqb (request_channel request) "email"
  then match outcome_of email_amount_group (request_message request) with
       | LineFact => true | _ => false end
  else false.

(** The answer of a handler whose [try] block raised. *)
Definition internal_error {A : Type} : response A :=
  HTTPException 500 "Internal server error".

(** The amount group that decides the lines of the file of a bulk request,
    and these lines: when the file exists, the file type is sms or email, and
    the file can be read. *)
Definition bulk_input (path_exists : string -> bool)
           (read_lines : string -> option (list string)) (request : BulkProcessRequest)
  : option ((string -> option string) * list string) :=
  let file_path := "data/" ++ file_type request ++ ".txt" in
  if path_exists file_path
  then if String.eqb (file_type request) "sms"
       then option_map (pair amount_group) (read_lines file_path)
       else if String.eqb (file_type request) "email"
       then option_map (pair email_amount_group) (read_lines file_path)
       else None
  else None.

(** A database none of whose two operations ever fails. *)
Definition never_fails (database : Type)
           (upsert : database -> transaction_data -> database * option string)
           (add : database -> string -> string -> float -> string -> database * option string)
  : Prop :=
  (forall db data, snd (upsert db data) <> None) /\
  (forall db id goal score text, snd (add db id goal score text) <> None).

(** A database that stores nothing and always answers with the same id. *)
Definition null_upsert (db : unit) (_ : transaction_data) : unit * option string :=
  (db, Some "id").
Definition null_add (db : unit) (_ _ : string) (_ : float) (_ : string)
  : unit * option string := (db, Some "id").

(** ** Evaluation of the sample messages *)

Lemma parse_amazon now : SMSParser.parse_message now amazon_text = Ok (Some amazon_fact).
Proof. vm_compute. reflexivity. Qed.

Lemma parse_netflix now : SMSParser.parse_message now netflix_text = Ok (Some netflix_fact).
Proof. vm_compute. reflexivity. Qed.

Lemma parse_neft now : SMSParser.parse_message now neft_text = Ok (Some neft_fact).
Proof. vm_compute. reflexivity. Qed.

Lemma parse_reminder now :
  SMSParser.parse_message now reminder_text = Ok (Some (reminder_fact now)).
Proof. vm_compute. reflexivity. Qed.

Lemma classify_amazon path :
  classify_transaction (TransactionClassifier_init path) amazon_fact = Ok amazon_classification.
Proof. destruct path as [[|]|]; vm_compute; reflexivity. Qed.

Lemma classify_netflix path :
  classify_transaction (TransactionClassifier_init path) netflix_fact = Ok netflix_classification.
Proof. destruct path as [[|]|]; vm_compute; reflexivity. Qed.

Lemma classify_reminder path now :
  classify_transaction (TransactionClassifier_init path) (reminder_fact now)
  = Ok reminder_classification.
Proof. destruct path as [[|]|]; reflexivity. Qed.

(** ** The classifier *)

Lemma init_not_loaded path : is_model_loaded (TFLiteInterface_init path) = false.
Proof. destruct path as [[|]|]; reflexivity. Qed.

(** Whatever the model path, the constructed interface predicts by rules. *)
Lemma predict_init path features :
  predict (TFLiteInterface_init path) features = _rule_based_predict features.
Proof. unfold predict. rewrite init_not_loaded. reflexivity. Qed.

Lemma features_merchant path t :
  dict_get "merchant" (_extract_features (TransactionClassifier_init path) t)
  = Some (VStr (match merchant t with Some m => m | None => EmptyString end)).
Proof. reflexivity. Qed.

Lemma features_kind path t :
  dict_get "transaction_type" (_extract_features (TransactionClassifier_init path) t)
  = Some (VStr (transaction_type t)).
Proof. reflexivity. Qed.

Lemma features_raw path t :
  dict_get "raw_message" (_extract_features (TransactionClassifier_init path) t)
  = Some (VStr (raw_message t)).
Proof. reflexivity. Qed.

Lemma features_amount path t :
  dict_get "amount" (_extract_features (TransactionClassifier_init path) t)
  = Some (VFloat (amount t)).
Proof. reflexivity. Qed.

Lemma features_keys path t :
  keys (_extract_features (TransactionClassifier_init path) t) = feature_names.
Proof. reflexivity. Qed.

Ltac case_conditions :=
  repeat match goal with
         | |- context [if ?b then _ else _] => destruct b; try reflexivity
         end.

(** On the features of a fact the source's chain of [if]s is the decision list. *)
Lemma rule_based_is_decision_list path t :
  _rule_based_predict (_extract_features (TransactionClassifier_init path) t)
  = Ok (first_match_wins decision_list t).
Proof.
  unfold _rule_based_predict, get_lower, amount_lt_100.
  rewrite features_merchant, features_kind, features_raw, features_amount.
  cbn [bind first_match_wins decision_list fires label rule_confidence].
  fold (merchant_lower t). fold (kind_lower t). fold (raw_lower t).
  case_conditions.
Qed.

Lemma first_match_wins_branch t :
  In (first_match_wins decision_list t) branches /\
  PrimFloat.leb 0.3 (snd (first_match_wins decision_list t)) = true.
Proof.
  cbn [first_match_wins decision_list fires label rule_confidence].
  case_conditions; (split; [cbv [branches decision_list map app label rule_confidence default_branch];
                            simpl; tauto | reflexivity]).
Qed.

Lemma first_match_wins_default rules t :
  Forall (fun r => fires r t = false) rules ->
  first_match_wins rules t = default_branch.
Proof.
  induction 1 as [| r rs Hr _ IH]; [reflexivity|].
  cbn [first_match_wins]. rewrite Hr. exact IH.
Qed.

Lemma classify_is_decision_list path t :
  classify_transaction (TransactionClassifier_init path) t
  = Ok {| category := fst (first_match_wins decision_list t);
          Classifier.confidence := snd (first_match_wins decision_list t);
          subcategories := _generate_subcategories t (fst (first_match_wins decision_list t));
          features_used := feature_names |}.
Proof.
  unfold classify_transaction.
  change (tflite_interface (TransactionClassifier_init path)) with (TFLiteInterface_init path).
  rewrite predict_init, rule_based_is_decision_list, features_keys.
  cbn [bind]. destruct (first_match_wins decision_list t). reflexivity.
Qed.

Lemma no_high_value_tag t cat :
  gt (amount t) 2000 = false -> ~ In "high_value_purchase" (_generate_subcategories t cat).
Proof.
  intro H. unfold _generate_subcategories. rewrite H.
  case_conditions; cbn; intuition discriminate.
Qed.

(** ** The goal engine *)

Lemma truediv_ok a b : PrimFloat.eqb b 0 = false -> truediv a b = Ok (a / b)%float.
Proof. intro H. unfold truediv. rewrite H. reflexivity. Qed.

(** The cases of an at-risk flag: no deadline, or the two tests it makes. *)
Ltac risk_cases :=
  unfold due_suffix;
  try match goal with |- context [deadline ?g] => destruct (deadline g) end;
  repeat match goal with |- context [(?a <=? ?b)%Z] => destruct (a <=? b)%Z end;
  repeat match goal with |- context [PrimFloat.ltb ?a ?b] => destruct (PrimFloat.ltb a b) end;
  cbn [andb truthy]; auto 7.

Ltac same_fields :=
  cbn [opt_same]; unfold same_up_to_risk;
  cbn [impact_goal_id goal_name impact_score impact_amount new_progress
       is_goal_achieved is_goal_at_risk message];
  repeat split; try (let H := fresh in intro H; rewrite H; reflexivity);
  try (left; reflexivity); try risk_cases.

Ltac kept :=
  cbn [message_kept impact_goal_id message];
  first [left; reflexivity | right; split; [assumption | reflexivity]].

Ltac both_ok := do 2 eexists; (split; [reflexivity | split; [reflexivity |]]).


(** With a non-zero target a single goal's impact never raises, and two clock
    readings give records that agree up to the at-risk flag and, for a
    bill-payment goal, the due-date warning that follows it. *)
Lemma single_clock now1 now2 t c g :
  PrimFloat.eqb (target_amount g) 0 = false ->
  exists o1 o2,
    _calculate_single_goal_impact now1 t c g = Ok o1 /\
    _calculate_single_goal_impact now2 t c g = Ok o2 /\
    opt_same o1 o2 /\ message_kept g o1 o2.
Proof.
  intro Hz. unfold _calculate_single_goal_impact.
  destruct (_is_transaction_relevant t c g); cbn [negb];
    [| exists None, None; repeat split].
  destruct (goal_type g) eqn:Hty; try solve [exists None, None; repeat split].
  - unfold _calculate_savings_impact.
    destruct (String.eqb (transaction_type t) "credit");
      [| destruct (String.eqb (transaction_type t) "debit")];
      rewrite (truediv_ok _ Hz); cbn [bind]; both_ok; (split; [same_fields | kept]).
  - unfold _calculate_bill_impact.
    destruct (contains "reminder" (lower (raw_message t)));
      [| destruct (String.eqb (transaction_type t) "credit"
                   && String.eqb (goal_id g) "cc-bill")];
      rewrite (truediv_ok _ Hz); cbn [bind]; both_ok; (split; [same_fields | kept]).
  - unfold _calculate_budget_impact.
    destruct (negb (String.eqb (transaction_type t) "debit"));
      [exists None, None; repeat split |].
    rewrite (truediv_ok _ Hz); cbn [bind].
    destruct (gt _ 1.0); [| destruct (gt _ 0.8)]; both_ok; (split; [same_fields | kept]).
Qed.

Lemma impacts_of_clock now1 now2 t c goals :
  Forall nonzero_target goals ->
  exists l1 l2,
    impacts_of now1 t c goals = Ok l1 /\
    impacts_of now2 t c goals = Ok l2 /\
    Forall2 same_up_to_risk l1 l2 /\
    Forall2 (fun i j =>
               message i = message j \/
               exists kg, In kg goals /\ goal_type (snd kg) = BILL_PAYMENT /\
                          impact_goal_id i = goal_id (snd kg)) l1 l2.
Proof.
  induction 1 as [| [k g] goals Hg _ IH].
  - exists [], []. repeat split; constructor.
  - cbn [impacts_of]. destruct IH as (l1 & l2 & E1 & E2 & F & M).
    assert (M' : Forall2 (fun i j =>
                            message i = message j \/
                            exists kg, In kg ((k, g) :: goals) /\
                                       goal_type (snd kg) = BILL_PAYMENT /\
                                       impact_goal_id i = goal_id (snd kg)) l1 l2).
    { eapply Forall2_impl; [| exact M].
      intros i j [H | (kg & Hin & H)]; [left; exact H | right].
      exists kg. split; [right; exact Hin | exact H]. }
    destruct (negb (is_active g)); [exists l1, l2; auto|].
    destruct (@single_clock now1 now2 t c g Hg) as (o1 & o2 & S1 & S2 & R & K).
    rewrite S1, S2, E1, E2. cbn [bind].
    destruct o1 as [i|], o2 as [j|]; cbn in R; try contradiction.
    + exists (i :: l1), (j :: l2). repeat split; constructor; try assumption.
      cbn [message_kept] in K. destruct K as [K | K]; [left; exact K | right].
      exists (k, g). split; [left; reflexivity | exact K].
    + exists l1, l2. auto.
Qed.


Lemma demo_targets_nonzero : Forall nonzero_target _initialize_demo_goals.
Proof. repeat constructor. Qed.

(** ** The matcher: a successful match sets every group *)

Lemma rep_continues g p s : forall lo hi k res,
  rep g p lo hi s k = Some res -> exists s', k s' = Some res.
Proof.
  induction s as [| x s IH]; intros lo hi k res H; cbn [rep] in H.
  - destruct lo as [|lo].
    + destruct hi as [[|h]|], g; try discriminate; try (eexists; exact H);
        destruct (k EmptyString) eqn:E; try discriminate; eexists; rewrite E; exact H.
    + destruct hi as [[|h]|]; discriminate.
  - set (more := match hi with
                 | Some O => None
                 | _ => if p x then rep g p (Nat.pred lo) (option_map Nat.pred hi) s k
                        else None
                 end) in H.
    assert (Hmore : forall r, more = Some r -> exists s', k s' = Some r).
    { subst more. intros r Hr. destruct hi as [[|h]|]; try discriminate;
        (destruct (p x); [eapply IH; exact Hr | discriminate]). }
    clearbody more.
    destruct lo as [|lo]; [| exact (Hmore _ H)].
    destruct g.
    + destruct more as [r|]; [inversion H; subst; apply Hmore; reflexivity|].
      eexists; exact H.
    + destruct (k (String x s)) eqn:E.
      * inversion H; subst. eexists; exact E.
      * exact (Hmore _ H).
Qed.

Lemma has_group_cons i j w c : has_group i c -> has_group i ((j, w) :: c).
Proof. unfold has_group. cbn. destruct (Nat.eqb i j); [discriminate | auto]. Qed.

Lemma has_group_head i w c : has_group i ((i, w) :: c).
Proof. unfold has_group. cbn. rewrite Nat.eqb_refl. discriminate. Qed.

Lemma run_sets_groups ic r : forall s c k res,
  run ic r s c k = Some res ->
  exists s' c',
    k s' c' = Some res /\
    (forall i, In i (group_ids r) -> has_group i c') /\
    (forall i, has_group i c -> has_group i c').
Proof.
  induction r as [cs | l | g lo hi cs | r1 IH1 r2 IH2 | i r1 IH1];
    intros s c k res H; cbn [run] in H.
  - destruct s as [| x s]; [discriminate|].
    destruct (cmatch ic cs x); [| discriminate].
    exists s, c. cbn. intuition.
  - destruct (lit ic l s) as [s'|]; [| discriminate].
    exists s', c. cbn. intuition.
  - apply rep_continues in H. destruct H as [s' H].
    exists s', c. cbn. intuition.
  - apply IH1 in H. destruct H as (s1 & c1 & H & G1 & M1).
    apply IH2 in H. destruct H as (s2 & c2 & H & G2 & M2).
    exists s2, c2. split; [exact H|]. split; [| auto].
    intros j Hj. cbn in Hj. apply in_app_or in Hj. destruct Hj; auto.
  - apply IH1 in H. destruct H as (s1 & c1 & H & G1 & M1).
    eexists s1, _. split; [exact H|]. split.
    + intros j [<- | Hj]; [apply has_group_head | apply has_group_cons; auto].
    + intros j Hj. apply has_group_cons; auto.
Qed.

Lemma search_from_sets_groups ic r s c :
  search_from ic r s = Some c -> forall i, In i (group_ids r) -> has_group i c.
Proof.
  induction s as [| x s IH]; cbn [search_from];
    destruct (run ic r _ [] _) eqn:E; intro H; try discriminate.
  - inversion H; subst. apply run_sets_groups in E.
    destruct E as (s' & c' & E & G & _). inversion E; subst. exact G.
  - inversion H; subst. apply run_sets_groups in E.
    destruct E as (s' & c' & E & G & _). inversion E; subst. exact G.
  - auto.
Qed.

Lemma search_groups ic r text m :
  numbered r = true ->
  search ic r text = Some m ->
  Forall (fun g => g <> None) (groups m) /\ List.length (groups m) = ngroups r.
Proof.
  unfold search, numbered. intros Hn H.
  destruct (search_from ic r text) as [c|] eqn:E; [| discriminate].
  inversion H; subst; clear H. cbn [groups].
  split.
  - apply Forall_forall. intros g Hg. apply in_map_iff in Hg.
    destruct Hg as (i & <- & Hi).
    rewrite forallb_forall in Hn. specialize (Hn i Hi).
    apply existsb_exists in Hn. destruct Hn as (j & Hj & Hij).
    apply Nat.eqb_eq in Hij. subst j.
    exact (search_from_sets_groups _ _ _ E i Hj).
  - rewrite length_map, length_seq. reflexivity.
Qed.

(** ** Extraction never raises anything but [ValueError] *)

Lemma py_int_value_error s : only_value_error (py_int s).
Proof.
  unfold only_value_error, py_int. intros e.
  destruct (take_digits s) as [d r].
  destruct (is_empty r && negb (is_empty d)); [discriminate | congruence].
Qed.

Lemma mk_datetime_value_error y m d h mi : only_value_error (mk_datetime y m d h mi).
Proof.
  unfold only_value_error, mk_datetime. intros e.
  match goal with |- context [if ?b then _ else _] => destruct b end;
    [discriminate | congruence].
Qed.

Lemma bind_value_error {A B : Type} (m : result A) (f : A -> result B) :
  only_value_error m -> (forall a, only_value_error (f a)) -> only_value_error (bind m f).
Proof.
  unfold only_value_error. intros Hm Hf e. destruct m as [a | e']; cbn [bind].
  - apply Hf.
  - intro H. inversion H; subst. apply Hm. reflexivity.
Qed.

Lemma try_except_total {A : Type} (m : result A) (a : A) :
  only_value_error m -> exists r, try_except_value_index m (Ok a) = Ok r.
Proof.
  intro H. destruct m as [r | e]; cbn; [eauto|].
  rewrite (H e eq_refl). eauto.
Qed.

Lemma parse_timestamp_total now gs fields :
  Forall (fun g => g <> None) gs ->
  (forall i, find_index (contains "date") fields = Some i -> (i < List.length gs)%nat) ->
  (forall i, find_index (contains "time") fields = Some i -> (i < List.length gs)%nat) ->
  exists d, SMSParser._parse_timestamp now gs fields = Ok d.
Proof.
  intros Hs Hd Ht. unfold SMSParser._parse_timestamp.
  destruct (find_index (contains "date") fields) as [di|]; [| eauto].
  destruct (find_index (contains "time") fields) as [ti|]; [| eauto].
  specialize (Hd di eq_refl). specialize (Ht ti eq_refl).
  unfold index.
  destruct (nth_error gs di) as [gd|] eqn:Ed;
    [| apply nth_error_None in Ed; lia].
  destruct (nth_error gs ti) as [gt|] eqn:Et;
    [| apply nth_error_None in Et; lia].
  cbn [bind].
  rewrite Forall_forall in Hs.
  destruct gd as [ds|]; [| exfalso; exact (Hs None (nth_error_In _ _ Ed) eq_refl)].
  destruct gt as [ts|]; [| exfalso; exact (Hs None (nth_error_In _ _ Et) eq_refl)].
  apply try_except_total. cbn [attr_of bind subscript_of].
  destruct (split_on "-" ds) as [| dd [| mm [| yy [|]]]];
    try (intros e He; congruence).
  repeat (apply bind_value_error; [apply py_int_value_error | intro]).
  apply mk_datetime_value_error.
Qed.

Lemma py_float_value_error s : only_value_error (py_float s).
Proof.
  unfold only_value_error, py_float. intros e.
  destruct (take_digits s) as [ip r].
  destruct (match r with String "."%char r1 => take_digits r1 | _ => (EmptyString, r) end)
    as [fp r'].
  destruct (is_empty r' && negb (is_empty (ip ++ fp))); [discriminate | congruence].
Qed.

Lemma first_match_first ps s m p :
  SMSParser.first_match ps s = Some (m, p) ->
  exists pre post,
    ps = (pre ++ p :: post)%list /\
    Forall (fun q => search true (p_regex q) s = None) pre /\
    search true (p_regex p) s = Some m.
Proof.
  induction ps as [| q ps IH]; cbn [SMSParser.first_match]; [discriminate|].
  destruct (search true (p_regex q) s) as [m'|] eqn:E.
  - intro H. inversion H; subst. exists [], ps. repeat split; [constructor | exact E].
  - intro H. destruct (IH H) as (pre & post & -> & F & S).
    exists (q :: pre), post. repeat split; [constructor; assumption | exact S].
Qed.

Lemma sms_patterns_well_formed : forallb well_formed SMSParser.patterns = true.
Proof. vm_compute. reflexivity. Qed.

Lemma extract_cases now m p s :
  well_formed p = true ->
  search true (p_regex p) s = Some m ->
  exists g,
    nth_error (groups m) 0 = Some (Some g) /\
    match py_float (remove_char "," g) with
    | Ok a =>
        exists t,
          SMSParser._extract_transaction_data now m p s = Ok t /\
          amount t = a /\
          Parsers.confidence t = p_confidence p /\
          transaction_type t = p_type p /\
          raw_message t = s
    | Raise _ => SMSParser._extract_transaction_data now m p s = Raise ValueError
    end.
Proof.
  unfold well_formed. intros W S.
  apply andb_prop in W. destruct W as [W Wt].
  apply andb_prop in W. destruct W as [W Wd].
  apply andb_prop in W. destruct W as [Wn W1].
  destruct (@search_groups _ _ _ _ Wn S) as [Hs Hl].
  apply Nat.leb_le in W1.
  destruct (groups m) as [| g0 gs] eqn:Eg; [cbn in Hl; lia|].
  destruct g0 as [g|]; [| inversion Hs; congruence].
  exists g. split; [reflexivity|].
  unfold SMSParser._extract_transaction_data. rewrite Eg.
  cbn [index nth_error bind attr_of].
  destruct (py_float (remove_char "," g)) as [a | e] eqn:Ef; cbn [bind].
  - destruct (@parse_timestamp_total now (Some g :: gs) (p_fields p) Hs) as [d Hd].
    + rewrite Hl. intros i Hi. rewrite Hi in Wd. apply Nat.ltb_lt in Wd. exact Wd.
    + rewrite Hl. intros i Hi. rewrite Hi in Wt. apply Nat.ltb_lt in Wt. exact Wt.
    + rewrite Hd. cbn [bind]. eexists. split; [reflexivity|]. repeat split.
  - rewrite (@py_float_value_error _ e Ef). reflexivity.
Qed.

(** ** The matcher: what a group can hold *)

Lemma rep_consumes g p s : forall lo hi k res,
  rep g p lo hi s k = Some res ->
  exists w s',
    s = w ++ s' /\ all_chars p w = true /\ (lo <= length w)%nat /\
    match hi with Some h => (length w <= h)%nat | None => True end /\
    k s' = Some res.
Proof.
  induction s as [| x s IH]; intros lo hi k res H; cbn [rep] in H.
  - assert (Hstop : lo = O -> k EmptyString = Some res ->
                    exists w s', EmptyString = w ++ s' /\ all_chars p w = true /\
                      (lo <= length w)%nat /\
                      match hi with Some h => (length w <= h)%nat | None => True end /\
                      k s' = Some res).
    { intros -> Hk. exists EmptyString, EmptyString. cbn. repeat split; auto.
      destruct hi; [lia | exact I]. }
    destruct lo as [|lo].
    + destruct hi as [[|h]|], g; try discriminate; apply Hstop; auto;
        destruct (k EmptyString); congruence.
    + destruct hi as [[|h]|]; discriminate.
  - set (more := match hi with
                 | Some O => None
                 | _ => if p x then rep g p (Nat.pred lo) (option_map Nat.pred hi) s k
                        else None
                 end) in H.
    assert (Hmore : forall r, more = Some r ->
              exists w s', String x s = w ++ s' /\ all_chars p w = true /\
                (lo <= length w)%nat /\
                match hi with Some h => (length w <= h)%nat | None => True end /\
                k s' = Some r).
    { subst more. intros r Hr.
      assert (Hp : p x = true /\ rep g p (Nat.pred lo) (option_map Nat.pred hi) s k = Some r
                   /\ hi <> Some O).
      { destruct hi as [[|h]|]; try discriminate; destruct (p x); try discriminate;
          repeat split; auto; discriminate. }
      destruct Hp as (Hp & Hrep & Hhi).
      destruct (IH _ _ _ _ Hrep) as (w & s' & -> & Hw & Hlo & Hh & Hk).
      exists (String x w), s'. cbn [append all_chars length]. rewrite Hp, Hw.
      repeat split; auto; [lia|].
      destruct hi as [[|h]|]; cbn in Hh; [congruence | lia | exact I]. }
    clearbody more.
    assert (Hstop : lo = O -> k (String x s) = Some res ->
              exists w s', String x s = w ++ s' /\ all_chars p w = true /\
                (lo <= length w)%nat /\
                match hi with Some h => (length w <= h)%nat | None => True end /\
                k s' = Some res).
    { intros -> Hk. exists EmptyString, (String x s). cbn. repeat split; auto.
      destruct hi; [lia | exact I]. }
    destruct lo as [|lo]; [| exact (Hmore _ H)].
    destruct g.
    + destruct more as [r|]; [inversion H; subst; apply Hmore; reflexivity|].
      apply Hstop; auto.
    + destruct (k (String x s)) eqn:E.
      * inversion H; subst. apply Hstop; auto.
      * exact (Hmore _ H).
Qed.

Lemma lit_consumes ic l : forall s s',
  lit ic l s = Some s' -> exists w, s = w ++ s' /\ lit ic l w = Some EmptyString.
Proof.
  induction l as [| a l IH]; intros s s' H; cbn [lit] in H.
  - inversion H; subst. exists EmptyString. split; reflexivity.
  - destruct s as [| x s]; [discriminate|].
    destruct (cmatch ic (Lit a) x) eqn:E; [| discriminate].
    destruct (IH _ _ H) as (w & -> & Hw).
    exists (String x w). split; [reflexivity|]. cbn [lit]. rewrite E. exact Hw.
Qed.

Lemma length_app_string (w s : string) : length (w ++ s) = (length w + length s)%nat.
Proof. induction w as [| x w IH]; cbn; [reflexivity | rewrite IH; reflexivity]. Qed.

Lemma substring_prefix (w s : string) : substring 0 (length w) (w ++ s) = w.
Proof.
  induction w as [| x w IH]; cbn.
  - destruct s; reflexivity.
  - rewrite IH. reflexivity.
Qed.

Lemma captured_prefix (w s : string) :
  substring 0 (length (w ++ s) - length s) (w ++ s) = w.
Proof.
  rewrite length_app_string.
  replace (length w + length s - length s)%nat with (length w) by lia.
  apply substring_prefix.
Qed.

Lemma app_assoc_string (a b c : string) : (a ++ b) ++ c = a ++ (b ++ c).
Proof. induction a as [| x a IH]; cbn; [reflexivity | rewrite IH; reflexivity]. Qed.

Lemma run_group_content ic i P r : forall s c k res,
  content_ok ic i P r ->
  group_in i P c ->
  (forall w s' c',
      s = w ++ s' -> consumed ic r w -> group_in i P c' -> k s' c' = Some res ->
      group_in i P res) ->
  run ic r s c k = Some res ->
  group_in i P res.
Proof.
  induction r as [cs | l | g lo hi cs | r1 IH1 r2 IH2 | j r1 IH1];
    intros s c k res Hok Hc Hk H; cbn [run] in H.
  - destruct s as [| x s]; [discriminate|].
    destruct (cmatch ic cs x) eqn:E; [| discriminate].
    apply (Hk (String x EmptyString) s c); auto. cbn. eauto.
  - destruct (lit ic l s) as [s'|] eqn:E; [| discriminate].
    destruct (lit_consumes _ _ _ E) as (w & -> & Hw).
    apply (Hk w s' c); auto.
  - apply rep_consumes in H. destruct H as (w & s' & -> & Hw & Hlo & Hhi & H).
    apply (Hk w s' c); auto. cbn. auto.
  - destruct Hok as [Hok1 Hok2].
    apply (IH1 s c (fun s' c' => run ic r2 s' c' k)); auto.
    intros w1 s1 c1 -> Hw1 Hc1 H1.
    apply (IH2 s1 c1 k); auto.
    intros w2 s2 c2 -> Hw2 Hc2 H2.
    apply (Hk (w1 ++ w2) s2 c2); auto.
    + symmetry. apply app_assoc_string.
    + cbn. eauto.
  - destruct Hok as [Hj Hok1].
    apply (IH1 s c (fun s' c' => k s' ((j, substring 0 (length s - length s') s) :: c')));
      auto.
    intros w s' c' -> Hw Hc' H1.
    rewrite captured_prefix in H1.
    apply (Hk w s' ((j, w) :: c')); auto.
    intros w' Hg. cbn [get_group] in Hg.
    destruct (Nat.eqb i j) eqn:E.
    + apply Nat.eqb_eq in E. inversion Hg; subst. apply Hj; auto.
    + apply Hc'; auto.
Qed.

Lemma search_group_content ic i P r text m :
  content_ok ic i P r ->
  search ic r text = Some m ->
  forall w, nth_error (groups m) (i - 1) = Some (Some w) -> (1 <= i)%nat -> P w.
Proof.
  unfold search. intros Hok H.
  destruct (search_from ic r text) as [c|] eqn:E; [| discriminate].
  inversion H; subst; clear H. cbn [groups].
  assert (Hc : group_in i P c).
  { clear -E Hok. induction text as [| x s IH]; cbn [search_from] in E;
      destruct (run ic r _ [] _) eqn:R.
    - inversion E; subst.
      apply (@run_group_content ic i P r _ [] _ c Hok) in R; auto.
      + intros w Hw. discriminate.
      + intros w s' c' _ _ Hc' Hs. inversion Hs; subst. exact Hc'.
    - discriminate.
    - inversion E; subst.
      apply (@run_group_content ic i P r _ [] _ c Hok) in R; auto.
      + intros w Hw. discriminate.
      + intros w s' c' _ _ Hc' Hs. inversion Hs; subst. exact Hc'.
    - auto. }
  intros w Hn Hi.
  apply Hc.
  assert (Hlt : (i - 1 < List.length (map (fun j => get_group j c) (seq 1 (ngroups r))))%nat).
  { apply nth_error_Some. rewrite Hn. discriminate. }
  rewrite length_map, length_seq in Hlt.
  rewrite nth_error_map in Hn.
  rewrite (nth_error_nth' _ 0%nat) in Hn by (rewrite length_seq; exact Hlt).
  rewrite seq_nth in Hn by exact Hlt.
  cbn [option_map] in Hn.
  replace (1 + (i - 1))%nat with i in Hn by lia.
  inversion Hn. reflexivity.
Qed.

(** ** The amount group and [float] *)

Lemma lit_comma ic x : cmatch ic (Lit ",") x = true -> x = ","%char.
Proof.
  destruct ic, x as [[] [] [] [] [] [] [] []]; vm_compute; intro H;
    first [reflexivity | discriminate H].
Qed.

Lemma lit_dot ic x : cmatch ic (Lit ".") x = true -> x = "."%char.
Proof.
  destruct ic, x as [[] [] [] [] [] [] [] []]; vm_compute; intro H;
    first [reflexivity | discriminate H].
Qed.

Lemma digit_not_comma x : isdigit x = true -> Ascii.eqb x "," = false.
Proof.
  destruct x as [[] [] [] [] [] [] [] []]; vm_compute; intro H;
    first [reflexivity | discriminate H].
Qed.

Lemma has_digit_app a b : has_digit (a ++ b) = has_digit a || has_digit b.
Proof.
  induction a as [| x a IH]; cbn; [reflexivity|]. rewrite IH. apply orb_assoc.
Qed.

Lemma remove_char_app c a b : remove_char c (a ++ b) = remove_char c a ++ remove_char c b.
Proof.
  induction a as [| x a IH]; cbn; [reflexivity|].
  destruct (Ascii.eqb x c); cbn; rewrite IH; reflexivity.
Qed.

Lemma digits_keep w :
  all_chars isdigit w = true ->
  remove_char "," w = w /\ has_digit w = negb (is_empty w).
Proof.
  induction w as [| x w IH]; cbn; [auto|].
  intro H. apply andb_prop in H. destruct H as [Hx Hw].
  rewrite (@digit_not_comma x Hx), Hx. destruct (IH Hw) as [-> _]. auto.
Qed.

Lemma digits_and_commas ic w :
  all_chars (cmatch ic (Union Digit (Lit ","))) w = true ->
  all_chars isdigit (remove_char "," w) = true /\
  has_digit w = negb (is_empty (remove_char "," w)).
Proof.
  induction w as [| x w IH]; cbn [all_chars remove_char has_digit]; [auto|].
  intro H. apply andb_prop in H. destruct H as [Hx Hw].
  destruct (IH Hw) as [Hd Hh]. cbn [cmatch] in Hx.
  apply orb_prop in Hx. destruct Hx as [Hx | Hx].
  - change (Py.isdigit x = true) in Hx.
    rewrite (@digit_not_comma x Hx), Hx. cbn. rewrite Hx, Hd. auto.
  - apply lit_comma in Hx. subst x. cbn. auto.
Qed.

Lemma dots_at_most_one ic w :
  all_chars (cmatch ic (Lit ".")) w = true -> (length w <= 1)%nat ->
  w = EmptyString \/ w = ".".
Proof.
  destruct w as [| x [| y w]]; cbn; intros H L; [auto | | lia].
  right. apply andb_prop in H. destruct H as [H _].
  apply lit_dot in H. subst. reflexivity.
Qed.

Lemma take_digits_app d r :
  all_chars isdigit d = true ->
  take_digits (d ++ r) = (d ++ fst (take_digits r), snd (take_digits r)).
Proof.
  induction d as [| x d IH]; cbn; intro H.
  - destruct (take_digits r); reflexivity.
  - apply andb_prop in H. destruct H as [Hx Hd].
    rewrite Hx, (IH Hd). reflexivity.
Qed.

Lemma take_digits_all d :
  all_chars isdigit d = true -> take_digits d = (d, EmptyString).
Proof.
  induction d as [| x d IH]; cbn; intro H; [reflexivity|].
  apply andb_prop in H. destruct H as [Hx Hd]. rewrite Hx, (IH Hd). reflexivity.
Qed.

Lemma app_empty_r (a : string) : a ++ EmptyString = a.
Proof. induction a as [| x a IH]; cbn; [reflexivity | rewrite IH; reflexivity]. Qed.

Lemma is_empty_app a b : is_empty (a ++ b) = is_empty a && is_empty b.
Proof. destruct a; reflexivity. Qed.

Lemma all_chars_app p a b : all_chars p (a ++ b) = all_chars p a && all_chars p b.
Proof.
  induction a as [| x a IH]; cbn; [reflexivity|]. rewrite IH. apply andb_assoc.
Qed.

(** [float] on digits, an optional dot, digits. *)
Lemma py_float_plain d f :
  all_chars isdigit d = true -> all_chars isdigit f = true ->
  forall dot, dot = EmptyString \/ dot = "." ->
  (is_empty (d ++ f) = false -> exists a, py_float (d ++ dot ++ f) = Ok a) /\
  (is_empty (d ++ f) = true -> py_float (d ++ dot ++ f) = Raise ValueError).
Proof.
  intros Hd Hf dot [-> | ->]; unfold py_float.
  - cbn [append]. rewrite take_digits_all by (rewrite all_chars_app, Hd, Hf; reflexivity).
    cbn [is_empty andb]. rewrite app_empty_r.
    destruct (is_empty (d ++ f)); cbn; split; intro H; try discriminate; eauto.
  - cbn [append]. rewrite (@take_digits_app d (String "."%char f) Hd). cbn [take_digits].
    replace (isdigit ".") with false by reflexivity. cbn [fst snd].
    rewrite app_empty_r, (@take_digits_all f Hf). cbn [is_empty andb].
    destruct (is_empty (d ++ f)); cbn; split; intro H; try discriminate; eauto.
Qed.

Lemma amount_re_digits_decide ic w : consumed ic amount_re w -> digits_decide w.
Proof.
  cbn [consumed amount_re plus opt star].
  intros (w1 & w23 & -> & (H1 & _ & _) & (w2 & w3 & -> & (H2 & _ & L2) & (H3 & _ & _))).
  destruct (@digits_and_commas ic _ H1) as [Hd1 Hh1].
  change (all_chars isdigit w3 = true) in H3.
  destruct (@digits_keep w3 H3) as [Hr3 Hh3].
  destruct (@dots_at_most_one ic w2 H2 L2) as [-> | ->].
  - unfold digits_decide. rewrite !remove_char_app, Hr3, !has_digit_app, Hh1, Hh3.
    cbn [remove_char has_digit orb].
    destruct (@py_float_plain _ _ Hd1 H3 _ (or_introl eq_refl)) as [Hok Hbad].
    rewrite is_empty_app in Hok, Hbad.
    split; intro H; [apply Hok | apply Hbad];
      destruct (is_empty (remove_char "," w1)), (is_empty w3); cbn in *; congruence.
  - unfold digits_decide. rewrite !remove_char_app, Hr3, !has_digit_app, Hh1, Hh3.
    replace (remove_char "," ".") with "." by reflexivity.
    replace (has_digit ".") with false by reflexivity.
    destruct (@py_float_plain _ _ Hd1 H3 _ (or_intror eq_refl)) as [Hok Hbad].
    rewrite is_empty_app in Hok, Hbad.
    split; intro H; [apply Hok | apply Hbad];
      destruct (is_empty (remove_char "," w1)), (is_empty w3); cbn in *; congruence.
Qed.

Lemma reminder_amount_digits_decide ic w :
  consumed ic (plus (Union Digit (Lit ","))) w -> digits_decide w.
Proof.
  cbn [consumed plus]. intros (H1 & _ & _).
  destruct (@digits_and_commas ic _ H1) as [Hd1 Hh1].
  unfold digits_decide. rewrite Hh1.
  assert (Hf : all_chars isdigit EmptyString = true) by reflexivity.
  destruct (@py_float_plain _ _ Hd1 Hf _ (or_introl eq_refl)) as [Hok Hbad].
  cbn [append] in Hok, Hbad. rewrite app_empty_r in Hok, Hbad.
  split; intro H; [apply Hok | apply Hbad];
    destruct (is_empty (remove_char "," w)); cbn in *; congruence.
Qed.

Ltac amount_content :=
  cbn [content_ok p_regex SMSParser.hdfc_credit_card_spending SMSParser.neft_credit
       SMSParser.upi_payment SMSParser.bill_payment_reminder SMSParser.fallback_re
       amount_re date_re ref_re plus star opt lazy_star times];
  repeat match goal with
         | |- _ /\ _ => split
         | |- True => exact I
         | |- ?j = 1%nat -> _ => let H := fresh in intro H; try discriminate H; clear H
         end.

Lemma sms_patterns_amount_content p :
  In p SMSParser.patterns -> content_ok true 1 digits_decide (p_regex p).
Proof.
  intros [<- | [<- | [<- | [<- | []]]]]; amount_content; intro w.
  - apply (@amount_re_digits_decide true).
  - apply (@amount_re_digits_decide true).
  - apply (@amount_re_digits_decide true).
  - apply (@reminder_amount_digits_decide true).
Qed.

Lemma fallback_amount_content : content_ok false 1 digits_decide SMSParser.fallback_re.
Proof. amount_content. intro w. apply (@amount_re_digits_decide false). Qed.

(** The outcomes of [parse_message], pattern by pattern. *)
Lemma parse_message_outcomes now text :
  match SMSParser.first_match SMSParser.patterns (strip text) with
  | Some (m, p) =>
      (exists pre post,
          SMSParser.patterns = (pre ++ p :: post)%list /\
          Forall (fun q => search true (p_regex q) (strip text) = None) pre /\
          search true (p_regex p) (strip text) = Some m) /\
      exists g,
        nth_error (groups m) 0 = Some (Some g) /\
        match py_float (remove_char "," g) with
        | Ok a =>
            exists t,
              SMSParser.parse_message now text = Ok (Some t) /\
              amount t = a /\
              Parsers.confidence t = p_confidence p /\
              transaction_type t = p_type p /\
              raw_message t = strip text
        | Raise _ => SMSParser.parse_message now text = Raise ValueError
        end
  | None =>
      match search false SMSParser.fallback_re (strip text) with
      | Some m =>
          exists g,
            groups m = [Some g] /\
            match py_float (remove_char "," g) with
            | Ok a =>
                SMSParser.parse_message now text
                = Ok (Some (fallback_fact now a (strip text)))
            | Raise _ => SMSParser.parse_message now text = Raise ValueError
            end
      | None => SMSParser.parse_message now text = Ok None
      end
  end.
Proof.
  unfold SMSParser.parse_message.
  destruct (SMSParser.first_match SMSParser.patterns (strip text)) as [[m p]|] eqn:E.
  - pose proof (@first_match_first _ _ _ _ E) as F.
    split; [exact F|].
    destruct F as (pre & post & Hp & _ & S).
    assert (W : well_formed p = true).
    { pose proof sms_patterns_well_formed as A. rewrite forallb_forall in A.
      apply A. rewrite Hp. apply in_or_app. right. left. reflexivity. }
    destruct (@extract_cases now _ _ _ W S) as (g & Hg & H).
    exists g. split; [exact Hg|].
    destruct (py_float (remove_char "," g)) as [a|e].
    + destruct H as (t & Ht & H). exists t. rewrite Ht. cbn [bind]. split; [reflexivity | exact H].
    + rewrite H. reflexivity.
  - destruct (search false SMSParser.fallback_re (strip text)) as [m|] eqn:S; [| reflexivity].
    assert (Wn : numbered SMSParser.fallback_re = true) by reflexivity.
    destruct (@search_groups _ _ _ _ Wn S) as [Hs Hl].
    destruct (groups m) as [| g0 [| g1 gs]] eqn:Eg; try discriminate Hl.
    destruct g0 as [g|]; [| inversion Hs; congruence].
    exists g. split; [reflexivity|].
    cbn [index nth_error bind attr_of].
    destruct (py_float (remove_char "," g)) as [a | e] eqn:Ef; cbn [bind].
    + reflexivity.
    + rewrite (@py_float_value_error _ e Ef). reflexivity.
Qed.

(** ** Floats: order and sign *)

Lemma compare_cont_Eq m1 m2 : Pos.compare_cont Eq m1 m2 = Pos.compare m1 m2.
Proof. reflexivity. Qed.

Ltac cmp_step :=
  match goal with
  | H : context [Pos.compare_cont Eq ?a ?b] |- _ => rewrite (compare_cont_Eq a b) in H
  | |- context [Pos.compare_cont Eq ?a ?b] => rewrite (compare_cont_Eq a b)
  | H : context [Z.compare ?a ?b] |- _ =>
      let E := fresh in destruct (Z.compare_spec a b) as [E|E|E]
  | |- context [Z.compare ?a ?b] =>
      let E := fresh in destruct (Z.compare_spec a b) as [E|E|E]
  | H : context [Pos.compare ?a ?b] |- _ =>
      let E := fresh in destruct (Pos.compare_spec a b) as [E|E|E]
  | |- context [Pos.compare ?a ?b] =>
      let E := fresh in destruct (Pos.compare_spec a b) as [E|E|E]
  end.

Ltac cmp_cases :=
  repeat (cmp_step; cbn [CompOpp] in *); try congruence; try lia.


Lemma SFcompare_lt_trans x y z :
  sf_lt x y -> sf_le y z -> sf_lt x z.
Proof.
  unfold sf_lt, sf_le.
  destruct x as [sx|sx| |sx mx ex], y as [sy|sy| |sy my ey], z as [sz|sz| |sz mz ez]; cbn;
    try destruct sx; try destruct sy; try destruct sz; cbn; intros H [K|K];
    try discriminate; try reflexivity;
    inversion H; inversion K; clear H K; f_equal; cmp_cases.
Qed.

Lemma SFcompare_le_lt_trans x y z :
  sf_le x y -> sf_lt y z -> sf_lt x z.
Proof.
  unfold sf_lt, sf_le.
  destruct x as [sx|sx| |sx mx ex], y as [sy|sy| |sy my ey], z as [sz|sz| |sz mz ez]; cbn;
    try destruct sx; try destruct sy; try destruct sz; cbn; intros [H|H] K;
    try discriminate; try reflexivity;
    inversion H; inversion K; clear H K; f_equal; cmp_cases.
Qed.

Lemma SFcompare_opp x y : SFcompare (SFopp x) (SFopp y) = SFcompare y x.
Proof.
  destruct x as [sx|sx| |sx mx ex], y as [sy|sy| |sy my ey]; cbn;
    try destruct sx; try destruct sy; cbn; try reflexivity; f_equal; cmp_cases.
Qed.

Lemma ltb_lt x y : PrimFloat.ltb x y = true <-> sf_lt (Prim2SF x) (Prim2SF y).
Proof.
  rewrite FloatAxioms.ltb_spec. unfold SFltb, sf_lt.
  destruct (SFcompare (Prim2SF x) (Prim2SF y)) as [[]|]; split; congruence.
Qed.

Lemma leb_le x y : PrimFloat.leb x y = true <-> sf_le (Prim2SF x) (Prim2SF y).
Proof.
  rewrite FloatAxioms.leb_spec. unfold SFleb, sf_le.
  destruct (SFcompare (Prim2SF x) (Prim2SF y)) as [[]|]; split;
    try congruence; auto; intros [H|H]; congruence.
Qed.

Lemma ltb_leb x y : PrimFloat.ltb x y = true -> PrimFloat.leb x y = true.
Proof. rewrite ltb_lt, leb_le. unfold sf_lt, sf_le. auto. Qed.

Lemma ltb_leb_trans x y z :
  PrimFloat.ltb x y = true -> PrimFloat.leb y z = true -> PrimFloat.ltb x z = true.
Proof. rewrite !ltb_lt, leb_le. apply SFcompare_lt_trans. Qed.


(** Rounding keeps the sign: a quotient of non-negative floats, and the
    float nearest to a non-negative decimal, are not negative. *)
Lemma iter_shr_1_nonneg p : forall mrs,
  (0 <= shr_m mrs)%Z -> (0 <= shr_m (iter_pos shr_1 p mrs))%Z.
Proof.
  assert (H1 : forall mrs, (0 <= shr_m mrs)%Z -> (0 <= shr_m (shr_1 mrs))%Z).
  { intros [m r s]. cbn. destruct m as [|[p'|p'|]|p']; cbn; lia. }
  induction p as [p IH|p IH|]; intros mrs H; cbn; auto.
Qed.

Lemma shr_fexp_nonneg m e l :
  (0 <= m)%Z -> (0 <= shr_m (fst (shr_fexp prec emax m e l)))%Z.
Proof.
  intro H. unfold shr_fexp, shr.
  assert (H0 : (0 <= shr_m (shr_record_of_loc m l))%Z)
    by (destruct l as [|[]]; cbn; exact H).
  destruct (fexp prec emax (Zdigits2 m + e) - e)%Z; cbn [fst]; auto.
  apply iter_shr_1_nonneg. exact H0.
Qed.

Lemma round_nearest_even_nonneg m l : (0 <= m)%Z -> (0 <= round_nearest_even m l)%Z.
Proof.
  intro H. unfold round_nearest_even. destruct l as [|[]]; try lia.
  destruct (Z.even m); lia.
Qed.

Lemma binary_round_aux_nonneg mx ex lx :
  (0 <= mx)%Z -> sf_nonneg (binary_round_aux prec emax false mx ex lx).
Proof.
  intro H. unfold binary_round_aux.
  pose proof (shr_fexp_nonneg ex lx H) as H1.
  destruct (shr_fexp prec emax mx ex lx) as [mrs' e']. cbn [fst] in H1.
  pose proof (@shr_fexp_nonneg _ e' loc_Exact
                (round_nearest_even_nonneg (loc_of_shr_record mrs') H1)) as H2.
  destruct (shr_fexp prec emax (round_nearest_even (shr_m mrs') (loc_of_shr_record mrs'))
              e' loc_Exact) as [mrs'' e'']. cbn [fst] in H2.
  destruct (shr_m mrs'') as [|p|p];
    [exact I | destruct (e'' <=? emax - prec)%Z; reflexivity | lia].
Qed.

Lemma binary_round_nonneg m e : sf_nonneg (binary_round prec emax false m e).
Proof.
  unfold binary_round.
  destruct (shl_align m e (fexp prec emax (Z.pos (digits2_pos m) + e))) as [mz ez].
  apply binary_round_aux_nonneg. lia.
Qed.

Lemma SFdiv_nonneg x my ey :
  sf_nonneg x -> sf_nonneg (SFdiv prec emax x (S754_finite false my ey)).
Proof.
  destruct x as [sx|sx| |sx mx ex]; cbn [sf_nonneg SFdiv]; intro H; subst;
    try exact I; try reflexivity; try contradiction.
  cbn [xorb]. unfold SFdiv_core_binary.
  set (d1 := Zdigits2 (Z.pos mx)). set (d2 := Zdigits2 (Z.pos my)).
  set (e' := Z.min _ _). set (s := (ex - ey - e')%Z).
  set (m' := match s with Z.pos _ => Z.shiftl (Z.pos mx) s | Z0 => Z.pos mx | Z.neg _ => 0%Z end).
  assert (Hm : (0 <= m')%Z).
  { subst m'. destruct s; try lia. apply Z.shiftl_nonneg. lia. }
  pose proof (Z_div_mod m' (Z.pos my) ltac:(lia)) as Hd.
  destruct (Z.div_eucl m' (Z.pos my)) as [q r]. destruct Hd as [Hq Hr].
  apply binary_round_aux_nonneg. nia.
Qed.

Lemma nonneg_above_negative x sm m e :
  sf_nonneg x -> sm = true -> sf_lt (S754_finite sm m e) x.
Proof.
  intros H ->. unfold sf_lt. destruct x as [s|s| |s mx ex]; cbn in *; subst;
    try contradiction; reflexivity.
Qed.

Lemma nonneg_above_zero x : sf_nonneg x -> sf_le (S754_zero false) x.
Proof.
  unfold sf_le. destruct x as [s|s| |s mx ex]; cbn; intro H; subst;
    try contradiction; auto.
Qed.

Lemma le_zero_nonneg x : sf_le (S754_zero false) x -> sf_nonneg x.
Proof.
  unfold sf_le. destruct x as [s|s| |s mx ex]; cbn; intros [H|H];
    try discriminate; auto; destruct s; try discriminate; reflexivity.
Qed.

Lemma SF2Prim_nonneg x : sf_nonneg x -> sf_nonneg (Prim2SF (SF2Prim x)).
Proof.
  destruct x as [s|s| |s m e]; cbn [sf_nonneg SF2Prim]; intro H; subst; try contradiction.
  - destruct s; vm_compute; exact I.
  - vm_compute. reflexivity.
  - rewrite FloatLemmas.Z_ldexp_spec, FloatAxioms.of_uint63_spec.
    pose proof (Uint63.to_Z_bounded (Uint63.of_Z (Z.pos m))) as [Hb _].
    destruct (Uint63.to_Z (Uint63.of_Z (Z.pos m))) as [|p|p]; cbn [binary_normalize SFldexp];
      [exact I | | lia].
    pose proof (binary_round_nonneg p 0) as Hr.
    destruct (binary_round prec emax false p 0) as [s'|s'| |s' m' e']; cbn [SFldexp];
      try exact Hr.
    cbn in Hr. subst s'. apply binary_round_nonneg.
Qed.

Lemma nearest_ratio_nonneg n d : sf_nonneg (Prim2SF (nearest_ratio n d)).
Proof.
  assert (H0 : sf_nonneg (Prim2SF 0)) by (vm_compute; exact I).
  unfold nearest_ratio.
  destruct n as [|pn|pn]; try exact H0.
  destruct d as [|pd|pd]; try exact H0.
  apply SF2Prim_nonneg. apply SFdiv_nonneg. reflexivity.
Qed.

Lemma py_float_nonneg s a : py_float s = Ok a -> sf_nonneg (Prim2SF a).
Proof.
  unfold py_float.
  destruct (take_digits s) as [ip r].
  destruct (match r with String "."%char r1 => take_digits r1 | _ => (EmptyString, r) end)
    as [fp r'].
  destruct (is_empty r' && negb (is_empty (ip ++ fp))); [| discriminate].
  intro H. inversion H. apply nearest_ratio_nonneg.
Qed.

Lemma nonneg_leb_zero a : sf_nonneg (Prim2SF a) <-> PrimFloat.leb 0 a = true.
Proof.
  rewrite leb_le. replace (Prim2SF 0) with (S754_zero false) by reflexivity.
  split; [apply nonneg_above_zero | apply le_zero_nonneg].
Qed.

(** ** Scores and progress stay in range *)

Lemma clamp_in_unit r : within 0 1 (min 1 (max 0 r)).
Proof.
  unfold within, min, max.
  destruct (PrimFloat.ltb 0 r) eqn:E0.
  - destruct (PrimFloat.ltb r 1) eqn:E1.
    + split; apply ltb_leb; assumption.
    + split; reflexivity.
  - replace (PrimFloat.ltb 0 1) with true by reflexivity. split; reflexivity.
Qed.

Lemma min_one_le r : PrimFloat.leb (min 1 r) 1 = true.
Proof.
  unfold min. destruct (PrimFloat.ltb r 1) eqn:E; [apply ltb_leb; exact E | reflexivity].
Qed.

Lemma div_5000_nonneg a : sf_nonneg (Prim2SF a) -> sf_nonneg (Prim2SF (a / 5000)).
Proof.
  intro H. rewrite FloatAxioms.div_spec.
  assert (E : exists m e, Prim2SF 5000 = S754_finite false m e)
    by (vm_compute; eauto).
  destruct E as (m & e & ->). apply SFdiv_nonneg. exact H.
Qed.

Lemma nonneg_ge_minus_one q : sf_nonneg (Prim2SF q) -> PrimFloat.leb (-1) q = true.
Proof.
  intro H. apply ltb_leb. apply ltb_lt.
  assert (E : exists m e, Prim2SF (-1) = S754_finite true m e) by (vm_compute; eauto).
  destruct E as (m & e & ->). apply nonneg_above_negative; auto.
Qed.

Lemma neg_nonneg_le_one q : sf_nonneg (Prim2SF q) -> PrimFloat.leb (- q) 1 = true.
Proof.
  intro H. apply ltb_leb. apply ltb_lt. rewrite FloatAxioms.opp_spec.
  assert (E : exists m e, Prim2SF 1 = S754_finite false m e) by (vm_compute; eauto).
  destruct E as (m & e & ->). unfold sf_lt.
  destruct (Prim2SF q) as [s|s| |s mq eq]; cbn in *; subst; try contradiction; reflexivity.
Qed.

Lemma neg_below_one_ge_minus_one q :
  PrimFloat.ltb q 1 = true -> PrimFloat.leb (-1) (- q) = true.
Proof.
  intro H. apply ltb_leb. apply ltb_lt. apply ltb_lt in H.
  rewrite FloatAxioms.opp_spec.
  replace (Prim2SF (-1)) with (SFopp (Prim2SF 1)) by reflexivity.
  unfold sf_lt in *. rewrite SFcompare_opp. exact H.
Qed.

(** The savings scores: [min(0.8, a/5000)] and [-min(0.6, a/5000)]. *)
Lemma savings_scores_bounded a :
  PrimFloat.leb 0 a = true ->
  within (-1) 1 (min 0.8 (a / 5000)) /\ within (-1) 1 (- min 0.6 (a / 5000)).
Proof.
  intro Ha. apply nonneg_leb_zero in Ha. apply div_5000_nonneg in Ha.
  unfold within, min. split.
  - destruct (PrimFloat.ltb (a / 5000) 0.8) eqn:E; [| split; reflexivity].
    split; [apply nonneg_ge_minus_one; exact Ha|].
    apply ltb_leb. apply (ltb_leb_trans E). reflexivity.
  - destruct (PrimFloat.ltb (a / 5000) 0.6) eqn:E; [| split; reflexivity].
    split; [| apply neg_nonneg_le_one; exact Ha].
    apply neg_below_one_ge_minus_one. apply (ltb_leb_trans E). reflexivity.
Qed.

Lemma ok_some_inj (A : Type) (a b : A) : @Ok (option A) (Some a) = Ok (Some b) -> a = b.
Proof. congruence. Qed.

Lemma single_impact_bounds now t c g i :
  PrimFloat.leb 0 (amount t) = true ->
  _calculate_single_goal_impact now t c g = Ok (Some i) ->
  within (-1) 1 (impact_score i) /\
  (goal_type g = SAVINGS -> within 0 1 (new_progress i)) /\
  (goal_type g = SPENDING_LIMIT -> PrimFloat.leb (new_progress i) 1 = true).
Proof.
  intros Ha. unfold _calculate_single_goal_impact.
  destruct (_is_transaction_relevant t c g); cbn [negb]; [| discriminate].
  destruct (savings_scores_bounded Ha) as [Hc Hd].
  destruct (goal_type g).
  - unfold _calculate_savings_impact, truediv.
    destruct (String.eqb (transaction_type t) "credit");
      [| destruct (String.eqb (transaction_type t) "debit")];
      (destruct (PrimFloat.eqb (target_amount g) 0); cbn [bind]; [discriminate|]);
      intro H; apply ok_some_inj in H; subst i;
      cbn [impact_score new_progress];
      (split; [| split; [intros _; apply clamp_in_unit | discriminate]]);
      try assumption; split; reflexivity.
  - discriminate.
  - unfold _calculate_bill_impact, truediv.
    destruct (contains "reminder" (lower (raw_message t)));
      [| destruct (String.eqb (transaction_type t) "credit" && String.eqb (goal_id g) "cc-bill")];
      (destruct (PrimFloat.eqb (target_amount g) 0); cbn [bind]; [discriminate|]);
      intro H; apply ok_some_inj in H; subst i; cbn [impact_score];
      (split; [split; reflexivity | split; discriminate]).
  - unfold _calculate_budget_impact, truediv.
    destruct (negb (String.eqb (transaction_type t) "debit")); [discriminate|].
    destruct (PrimFloat.eqb (target_amount g) 0); cbn [bind]; [discriminate|].
    match goal with |- context [gt ?r 1.0] => destruct (gt r 1.0); [| destruct (gt r 0.8)] end;
      intro H; apply ok_some_inj in H; subst i; cbn [impact_score new_progress];
      (split; [split; reflexivity | split; [discriminate | intros _; apply min_one_le]]).
  - discriminate.
Qed.

(** ** The fields of an extracted fact *)

Lemma py_float_leb_zero s a : py_float s = Ok a -> PrimFloat.leb 0 a = true.
Proof. intro H. apply nonneg_leb_zero. exact (py_float_nonneg _ H). Qed.

Lemma in_split_mid (A : Type) (pre post : list A) (p : A) : In p (pre ++ p :: post)%list.
Proof. apply in_or_app. right. left. reflexivity. Qed.

Lemma sms_fact_fields now text t :
  SMSParser.parse_message now text = Ok (Some t) ->
  PrimFloat.leb 0 (amount t) = true /\
  currency t = "INR" /\ channel t = "sms" /\ raw_message t = strip text /\
  In (Parsers.confidence t) [0.95; 0.90; 0.85; 0.3]%float.
Proof.
  unfold SMSParser.parse_message.
  destruct (SMSParser.first_match SMSParser.patterns (strip text)) as [[m p]|] eqn:E.
  - apply first_match_first in E. destruct E as (pre & post & Hp & _ & _).
    assert (Hin : In p SMSParser.patterns) by (rewrite Hp; apply in_split_mid).
    unfold SMSParser._extract_transaction_data.
    destruct (index (groups m) 0) as [g0|]; cbn [bind]; [| discriminate].
    destruct (attr_of g0) as [g|]; cbn [bind]; [| discriminate].
    destruct (py_float (remove_char "," g)) as [a|] eqn:Ea; cbn [bind]; [| discriminate].
    destruct (SMSParser._parse_timestamp now (groups m) (p_fields p)) as [d|];
      cbn [bind]; [| discriminate].
    intro H. apply ok_some_inj in H. subst t.
    cbn [amount currency channel raw_message Parsers.confidence].
    repeat split; [exact (py_float_leb_zero _ Ea)|].
    destruct Hin as [<- | [<- | [<- | [<- | []]]]]; cbn; auto.
  - destruct (search false SMSParser.fallback_re (strip text)) as [m|]; [| discriminate].
    destruct (index (groups m) 0) as [g0|]; cbn [bind]; [| discriminate].
    destruct (attr_of g0) as [g|]; cbn [bind]; [| discriminate].
    destruct (py_float (remove_char "," g)) as [a|] eqn:Ea; cbn [bind]; [| discriminate].
    intro H. apply ok_some_inj in H. subst t.
    cbn [amount currency channel raw_message Parsers.confidence].
    repeat split; [exact (py_float_leb_zero _ Ea) | cbn; auto].
Qed.

Lemma email_fact_fields now text t :
  EmailParser.parse_message now text = Ok (Some t) ->
  PrimFloat.leb 0 (amount t) = true /\
  currency t = "INR" /\ channel t = "email" /\ raw_message t = strip text /\
  In (Parsers.confidence t) [0.90; 0.85]%float /\
  timestamp t = now /\ account_ref t = None.
Proof.
  unfold EmailParser.parse_message.
  destruct (SMSParser.first_match EmailParser.patterns (strip text)) as [[m p]|] eqn:E;
    [| discriminate].
  apply first_match_first in E. destruct E as (pre & post & Hp & _ & _).
  assert (Hin : In p EmailParser.patterns) by (rewrite Hp; apply in_split_mid).
  unfold EmailParser._extract_email_transaction.
  destruct (index (groups m) 0) as [g0|]; cbn [bind]; [| discriminate].
  destruct (attr_of g0) as [g|]; cbn [bind]; [| discriminate].
  destruct (py_float (remove_char "," g)) as [a|] eqn:Ea; cbn [bind]; [| discriminate].
  intro H. apply ok_some_inj in H. subst t.
  cbn [amount currency channel raw_message Parsers.confidence timestamp account_ref].
  repeat split; [exact (py_float_leb_zero _ Ea)|].
  destruct Hin as [<- | [<- | []]]; cbn; auto.
Qed.

(** ** The matcher consumes a word of the pattern *)

Lemma run_consumes ic r : forall s c k res,
  run ic r s c k = Some res ->
  exists w s' c', s = w ++ s' /\ consumed ic r w /\ k s' c' = Some res.
Proof.
  induction r as [cs | l | g lo hi cs | r1 IH1 r2 IH2 | j r1 IH1];
    intros s c k res H; cbn [run] in H.
  - destruct s as [| x s]; [discriminate|].
    destruct (cmatch ic cs x) eqn:E; [| discriminate].
    exists (String x EmptyString), s, c. cbn. eauto.
  - destruct (lit ic l s) as [s'|] eqn:E; [| discriminate].
    destruct (lit_consumes _ _ _ E) as (w & -> & Hw).
    exists w, s', c. cbn. auto.
  - apply rep_consumes in H. destruct H as (w & s' & -> & Hw & Hlo & Hhi & H).
    exists w, s', c. cbn. auto.
  - apply IH1 in H. destruct H as (w1 & s1 & c1 & -> & Hw1 & H).
    apply IH2 in H. destruct H as (w2 & s2 & c2 & -> & Hw2 & H).
    exists (w1 ++ w2), s2, c2. split; [symmetry; apply app_assoc_string|].
    split; [cbn; eauto | exact H].
  - apply IH1 in H. destruct H as (w & s' & c' & -> & Hw & H).
    exists w, s'. eexists. split; [reflexivity|]. split; [exact Hw | exact H].
Qed.

Lemma search_consumes ic r text m :
  search ic r text = Some m -> exists pre w post, text = pre ++ w ++ post /\ consumed ic r w.
Proof.
  unfold search. destruct (search_from ic r text) as [c|] eqn:E; [| discriminate].
  intros _. clear m. revert E.
  induction text as [| x s IH]; cbn [search_from];
    destruct (run ic r _ [] _) eqn:R; intro H; try discriminate.
  - apply run_consumes in R. destruct R as (w & s' & c' & Hs & Hw & _).
    exists EmptyString, w, s'. auto.
  - apply run_consumes in R. destruct R as (w & s' & c' & Hs & Hw & _).
    exists EmptyString, w, s'. auto.
  - destruct (IH H) as (pre & w & post & -> & Hw).
    exists (String x pre), w, post. auto.
Qed.

(** ** Occurrence *)

Lemma prefix_app (a b : string) : String.prefix a (a ++ b) = true.
Proof.
  induction a as [| x a IH]; cbn; [destruct b; reflexivity|].
  destruct (ascii_dec x x); [exact IH | congruence].
Qed.

Lemma prefix_occurs (a s : string) : String.prefix a s = true -> exists post, s = a ++ post.
Proof.
  revert s. induction a as [| x a IH]; intros s H.
  - exists s. reflexivity.
  - destruct s as [| y s]; cbn in H; [discriminate|].
    destruct (ascii_dec x y); [| discriminate]. subst y.
    destruct (IH _ H) as [post ->]. exists post. reflexivity.
Qed.

Lemma contains_occurs sub s : contains sub s = true <-> occurs sub s.
Proof.
  split.
  - induction s as [| x s IH]; cbn [contains]; intro H; apply orb_prop in H;
      destruct H as [H | H]; try discriminate.
    + apply prefix_occurs in H. destruct H as [post ->]. exists EmptyString, post. reflexivity.
    + apply prefix_occurs in H. destruct H as [post ->]. exists EmptyString, post. reflexivity.
    + destruct (IH H) as (pre & post & ->). exists (String x pre), post. reflexivity.
  - intros (pre & post & ->). induction pre as [| x pre IH].
    + cbn [append]. destruct (sub ++ post) eqn:E; cbn [contains];
        rewrite <- E, prefix_app; reflexivity.
    + cbn [append contains]. rewrite IH. apply orb_true_r.
Qed.

Lemma occurs_trans a b c : occurs a b -> occurs b c -> occurs a c.
Proof.
  intros (p1 & q1 & ->) (p2 & q2 & ->).
  exists (p2 ++ p1), (q1 ++ q2). rewrite !app_assoc_string. reflexivity.
Qed.

Lemma occurs_refl a : occurs a a.
Proof. exists EmptyString, EmptyString. cbn. rewrite app_empty_r. reflexivity. Qed.

Lemma occurs_app_l a b c : occurs a b -> occurs a (b ++ c).
Proof.
  intros (p & q & ->). exists p, (q ++ c). rewrite !app_assoc_string. reflexivity.
Qed.

Lemma occurs_app_r a b c : occurs a c -> occurs a (b ++ c).
Proof.
  intros (p & q & ->). exists (b ++ p), q. rewrite !app_assoc_string. reflexivity.
Qed.

Lemma lower_app a b : lower (a ++ b) = lower a ++ lower b.
Proof. induction a as [| x a IH]; cbn; [reflexivity | rewrite IH; reflexivity]. Qed.

(** Under IGNORECASE a literal consumes a word equal to it up to case (on
    the code points 0..255). *)
Lemma lit_lower l : forall w, lit true l w = Some EmptyString -> lower w = lower l.
Proof.
  induction l as [| a l IH]; intros w H; cbn [lit] in H.
  - inversion H. reflexivity.
  - destruct w as [| x w]; [discriminate|]. cbn [cmatch] in H.
    destruct (Ascii.eqb (lower_char x) (lower_char a)) eqn:E; [| discriminate].
    apply Ascii.eqb_eq in E. cbn [lower]. rewrite E, (IH _ H). reflexivity.
Qed.

Lemma consumed_literals r : forall w l,
  consumed true r w -> In l (literals r) -> occurs (lower l) (lower w).
Proof.
  induction r as [cs | l0 | g lo hi cs | r1 IH1 r2 IH2 | j r1 IH1];
    intros w l Hw Hl; cbn [literals] in Hl; cbn [consumed] in Hw; try contradiction.
  - destruct Hl as [<- | []]. rewrite (lit_lower _ _ Hw). apply occurs_refl.
  - destruct Hw as (w1 & w2 & -> & H1 & H2). rewrite lower_app.
    apply in_app_or in Hl. destruct Hl as [Hl | Hl].
    + apply occurs_app_l. eauto.
    + apply occurs_app_r. eauto.
  - eauto.
Qed.

(** On the code points 0..255, a text matched by a pattern under IGNORECASE
    contains, once lowered, every literal of the pattern, lowered. *)
Lemma search_literals r text m l :
  search true r text = Some m -> In l (literals r) ->
  contains (lower l) (lower text) = true.
Proof.
  intros S Hl. apply contains_occurs.
  destruct (search_consumes _ _ _ S) as (pre & w & post & -> & Hw).
  rewrite !lower_app. apply occurs_app_r, occurs_app_l.
  exact (@consumed_literals _ _ _ Hw Hl).
Qed.

Lemma contains_trans a b c :
  contains a b = true -> contains b c = true -> contains a c = true.
Proof. rewrite !contains_occurs. apply occurs_trans. Qed.

(** The same for a case-safe word inside a literal of the pattern: the form
    in which the statements on the patterns use it. *)
Lemma search_safe_literal r text m l w :
  search true r text = Some m -> In l (literals r) ->
  case_safe w = true -> contains (lower w) (lower l) = true ->
  contains (lower w) (lower text) = true.
Proof.
  intros S Hl _ Hw. apply (@contains_trans _ (lower l)); [exact Hw|].
  exact (@search_literals _ _ _ _ S Hl).
Qed.

(** ** [strip] *)

Lemma rev_string_app acc s : rev_string acc s = rev_string EmptyString s ++ acc.
Proof.
  revert acc. induction s as [| x s IH]; intro acc; cbn [rev_string]; [reflexivity|].
  rewrite IH, (IH (String x EmptyString)), app_assoc_string. reflexivity.
Qed.

Lemma rev_string_append a b :
  rev_string EmptyString (a ++ b) = rev_string EmptyString b ++ rev_string EmptyString a.
Proof.
  induction a as [| x a IH]; cbn [append rev_string].
  - rewrite app_empty_r. reflexivity.
  - rewrite (rev_string_app (String x EmptyString)), IH,
      (rev_string_app (String x EmptyString) a), app_assoc_string. reflexivity.
Qed.

Lemma rev_string_involutive s : rev_string EmptyString (rev_string EmptyString s) = s.
Proof.
  induction s as [| x s IH]; cbn [rev_string]; [reflexivity|].
  rewrite (rev_string_app (String x EmptyString) s), rev_string_append, IH. reflexivity.
Qed.

Lemma lstrip_first s : first_not_space (lstrip s).
Proof.
  induction s as [| x s IH]; cbn [lstrip]; [exact I|].
  destruct (isspace x) eqn:E; [exact IH | exact E].
Qed.

Lemma lstrip_fixed s : first_not_space s -> lstrip s = s.
Proof. destruct s as [| x s]; cbn; [reflexivity | intros ->; reflexivity]. Qed.

Lemma lstrip_suffix s : exists pre, s = pre ++ lstrip s /\ all_chars isspace pre = true.
Proof.
  induction s as [| x s IH]; cbn [lstrip].
  - exists EmptyString. auto.
  - destruct (isspace x) eqn:E.
    + destruct IH as (pre & Hs & Hp). exists (String x pre). cbn. rewrite E, Hp, <- Hs. auto.
    + exists EmptyString. auto.
Qed.

Lemma rstrip_prefix s :
  exists post, s = rstrip s ++ post /\ all_chars isspace post = true /\
               first_not_space (rev_string EmptyString (rstrip s)).
Proof.
  unfold rstrip.
  destruct (lstrip_suffix (rev_string EmptyString s)) as (pre & Hs & Hp).
  exists (rev_string EmptyString pre). split; [| split].
  - rewrite <- rev_string_append, <- Hs. symmetry. apply rev_string_involutive.
  - clear Hs. assert (G : forall acc, all_chars isspace acc = true ->
                          all_chars isspace (rev_string acc pre) = true).
    { induction pre as [| x pre IH]; intros acc Ha; cbn [rev_string]; [exact Ha|].
      cbn in Hp. apply andb_prop in Hp. destruct Hp as [Hx Hp].
      apply IH; [exact Hp|]. cbn. rewrite Hx, Ha. reflexivity. }
    apply G. reflexivity.
  - rewrite rev_string_involutive. apply lstrip_first.
Qed.

Lemma rstrip_first s : first_not_space s -> first_not_space (rstrip s).
Proof.
  intro H. destruct (rstrip_prefix s) as (post & Hs & Hp & _).
  destruct (rstrip s) as [| y r] eqn:E; [exact I|].
  rewrite Hs in H. exact H.
Qed.

Lemma rstrip_fixed s : first_not_space (rev_string EmptyString s) -> rstrip s = s.
Proof.
  intro H. unfold rstrip. rewrite (lstrip_fixed _ H). apply rev_string_involutive.
Qed.

(** [strip] is idempotent. *)
Lemma strip_idempotent s : strip (strip s) = strip s.
Proof.
  unfold strip.
  rewrite (lstrip_fixed (rstrip (lstrip s)) (rstrip_first _ (lstrip_first s))).
  destruct (rstrip_prefix (lstrip s)) as (post & _ & _ & H).
  apply rstrip_fixed. exact H.
Qed.

(** ** The deciding pattern and its fact *)

Lemma deciding_pattern_search text p :
  deciding_pattern text = Some p ->
  exists m, SMSParser.first_match SMSParser.patterns (strip text) = Some (m, p) /\
            search true (p_regex p) (strip text) = Some m.
Proof.
  unfold deciding_pattern.
  destruct (SMSParser.first_match SMSParser.patterns (strip text)) as [[m q]|] eqn:E;
    [| discriminate].
  cbn. intro H. inversion H; subst. exists m. split; [reflexivity|].
  apply first_match_first in E. destruct E as (pre & post & _ & _ & S). exact S.
Qed.

(** The fact a declared pattern yields. *)
Lemma sms_pattern_fact now text m p t :
  SMSParser.first_match SMSParser.patterns (strip text) = Some (m, p) ->
  SMSParser.parse_message now text = Ok (Some t) ->
  exists a d,
    PrimFloat.leb 0 a = true /\
    SMSParser._parse_timestamp now (groups m) (p_fields p) = Ok d /\
    t = {| amount := a;
           currency := "INR";
           transaction_type := p_type p;
           timestamp := d;
           account_ref := SMSParser._extract_field (groups m) (p_fields p) ["account_ref"];
           merchant := SMSParser._extract_field (groups m) (p_fields p) ["merchant"];
           reference := SMSParser._extract_field (groups m) (p_fields p) ["reference"];
           Parsers.confidence := p_confidence p;
           raw_message := strip text;
           channel := "sms";
           meta := [("parser", MetaStr "regex_pattern");
                    ("pattern_matched", MetaList (p_fields p))] |}.
Proof.
  intro E. unfold SMSParser.parse_message. rewrite E.
  unfold SMSParser._extract_transaction_data.
  destruct (index (groups m) 0) as [g0|]; cbn [bind]; [| discriminate].
  destruct (attr_of g0) as [g|]; cbn [bind]; [| discriminate].
  destruct (py_float (remove_char "," g)) as [a|] eqn:Ea; cbn [bind]; [| discriminate].
  destruct (SMSParser._parse_timestamp now (groups m) (p_fields p)) as [d|];
    cbn [bind]; [| discriminate].
  intro H. apply ok_some_inj in H. subst t.
  exists a, d. split; [exact (py_float_leb_zero _ Ea) | split; reflexivity].
Qed.

(** ** Classification from the attributes of a fact *)

Lemma rules_no_merchant t :
  merchant t = None ->
  first_match_wins decision_list t
  = first_match_wins (skipn 3 decision_list) t.
Proof.
  intro H. cbn [first_match_wins decision_list fires skipn].
  unfold merchant_lower. rewrite H. reflexivity.
Qed.

Lemma classify_init path t cat conf :
  first_match_wins decision_list t = (cat, conf) ->
  classify_transaction (TransactionClassifier_init path) t
  = Ok {| category := cat;
          Classifier.confidence := conf;
          subcategories := _generate_subcategories t cat;
          features_used := feature_names |}.
Proof. intro H. rewrite classify_is_decision_list, H. reflexivity. Qed.

Lemma impacts_demo now t c :
  calculate_transaction_impact GoalImpactCalculator_init now t c
  = (s <- _calculate_single_goal_impact now t c demo_savings ;;
     b <- _calculate_single_goal_impact now t c cc_bill ;;
     m <- _calculate_single_goal_impact now t c monthly_budget ;;
     Ok ((match s with Some i => [i] | None => [] end)
         ++ (match b with Some i => [i] | None => [] end)
         ++ (match m with Some i => [i] | None => [] end))%list).
Proof.
  unfold calculate_transaction_impact. cbn [demo_goals GoalImpactCalculator_init
    _initialize_demo_goals impacts_of is_active demo_savings cc_bill monthly_budget negb].
  fold demo_savings. fold cc_bill. fold monthly_budget.
  destruct (_calculate_single_goal_impact now t c demo_savings) as [[s|]|]; cbn [bind];
    try reflexivity;
    destruct (_calculate_single_goal_impact now t c cc_bill) as [[b|]|]; cbn [bind];
    try reflexivity;
    destruct (_calculate_single_goal_impact now t c monthly_budget) as [[m|]|]; cbn [bind];
    reflexivity.
Qed.

(** ** The demo goals, one by one *)

Lemma savings_relevance t c :
  _is_transaction_relevant t c demo_savings
  = str_in (transaction_type t) ["credit"; "cashback"; "investment"]
    || str_in (category c) ["credit"; "cashback"; "investment"].
Proof.
  unfold _is_transaction_relevant. cbn [categories goal_type demo_savings].
  destruct (str_in (transaction_type t) _), (str_in (category c) _); reflexivity.
Qed.

Lemma budget_relevance t c :
  _is_transaction_relevant t c monthly_budget
  = str_in (transaction_type t) ["shopping"; "utilities"; "entertainment"; "food_dining"]
    || str_in (category c) ["shopping"; "utilities"; "entertainment"; "food_dining"].
Proof.
  unfold _is_transaction_relevant. cbn [categories goal_type monthly_budget].
  destruct (str_in (transaction_type t) _), (str_in (category c) _); reflexivity.
Qed.

Lemma bill_relevance t c :
  _is_transaction_relevant t c cc_bill
  = str_in (transaction_type t) ["bill"; "credit"]
    || str_in (category c) ["bill"; "credit"]
    || contains "reminder" (lower (raw_message t))
    || contains "credit card" (lower (raw_message t)).
Proof.
  unfold _is_transaction_relevant. cbn [categories goal_type goal_id cc_bill].
  destruct (str_in (transaction_type t) _), (str_in (category c) _),
    (contains "reminder" _), (contains "credit card" _); reflexivity.
Qed.

Lemma not_relevant_none now t c g :
  _is_transaction_relevant t c g = false ->
  _calculate_single_goal_impact now t c g = Ok None.
Proof. intro H. unfold _calculate_single_goal_impact. rewrite H. reflexivity. Qed.

(** The three branches of the bill impact on the demo bill goal. *)
Lemma bill_record now t c :
  _is_transaction_relevant t c cc_bill = true ->
  exists i,
    _calculate_single_goal_impact now t c cc_bill = Ok (Some i) /\
    impact_goal_id i = "cc-bill" /\
    (contains "reminder" (lower (raw_message t)) = true ->
     impact_score i = (-0.9)%float /\ impact_amount i = amount t) /\
    (contains "reminder" (lower (raw_message t)) = false ->
     transaction_type t = "credit" ->
     impact_score i = 0.8%float /\ impact_amount i = (- amount t)%float) /\
    (contains "reminder" (lower (raw_message t)) = false ->
     transaction_type t <> "credit" ->
     impact_score i = 0%float /\ impact_amount i = 0%float /\
     new_progress i = 0%float /\
     (message i = EmptyString \/ message i = due_suffix)).
Proof.
  intro Hrel. unfold _calculate_single_goal_impact. rewrite Hrel.
  cbn [negb goal_type cc_bill]. unfold _calculate_bill_impact.
  cbn [goal_id target_amount deadline name cc_bill].
  destruct (contains "reminder" (lower (raw_message t))).
  - cbv beta iota zeta. unfold truediv.
    replace (PrimFloat.eqb 12450 0) with false by reflexivity. cbn [bind].
    eexists. split; [reflexivity|].
    cbn [impact_goal_id impact_score impact_amount].
    repeat split; intros; try discriminate; reflexivity.
  - destruct (String.eqb (transaction_type t) "credit") eqn:Ek.
    + cbn [andb String.eqb Ascii.eqb Bool.eqb]. cbv beta iota zeta. unfold truediv.
      replace (PrimFloat.eqb 12450 0) with false by reflexivity. cbn [bind].
      eexists. split; [reflexivity|].
      cbn [impact_goal_id impact_score impact_amount].
      apply String.eqb_eq in Ek.
      repeat split; intros; try discriminate; try reflexivity; congruence.
    + cbn [andb]. cbv beta iota zeta. unfold truediv.
      replace (PrimFloat.eqb 12450 0) with false by reflexivity. cbn [bind].
      eexists. split; [reflexivity|].
      cbn [impact_goal_id impact_score impact_amount new_progress message].
      repeat split; intros; try discriminate; try reflexivity;
        try (rewrite (proj2 (String.eqb_eq _ _)) in Ek by assumption; discriminate).
      destruct (days_between (dt 2025 9 30) now <=? 5)%Z; [right | left]; reflexivity.
Qed.

Ltac field_eval :=
  cbn [account_ref merchant reference transaction_type raw_message timestamp amount
       p_fields p_type SMSParser._extract_field find_index option_map
       String.eqb Ascii.eqb Bool.eqb
       SMSParser.hdfc_credit_card_spending SMSParser.neft_credit SMSParser.upi_payment
       SMSParser.bill_payment_reminder].

Lemma groups_present ic r text m k :
  search ic r text = Some m -> numbered r = true -> (k < ngroups r)%nat ->
  exists w, nth_error (groups m) k = Some (Some w).
Proof.
  intros S Hn Hk. destruct (@search_groups _ _ _ _ Hn S) as [Hs Hl].
  destruct (nth_error (groups m) k) as [g|] eqn:E.
  - destruct g as [w|]; [eauto|].
    rewrite Forall_forall in Hs. exfalso. exact (Hs None (nth_error_In _ _ E) eq_refl).
  - apply nth_error_None in E. lia.
Qed.

Lemma savings_credit_record now t c :
  transaction_type t = "credit" ->
  exists i,
    _calculate_single_goal_impact now t c demo_savings = Ok (Some i) /\
    impact_goal_id i = "demo-savings" /\
    impact_amount i = amount t /\
    impact_score i = min 0.8 (amount t / 5000)%float.
Proof.
  intro Hk. unfold _calculate_single_goal_impact.
  rewrite savings_relevance, Hk. cbn [str_in existsb String.eqb Ascii.eqb Bool.eqb orb negb].
  cbn [goal_type demo_savings]. unfold _calculate_savings_impact. rewrite Hk.
  cbn [String.eqb Ascii.eqb Bool.eqb]. cbv beta iota zeta.
  cbn [target_amount current_amount goal_id name deadline demo_savings]. unfold truediv.
  replace (PrimFloat.eqb 50000 0) with false by reflexivity. cbn [bind].
  eexists. split; [reflexivity|]. repeat split.
Qed.

Lemma budget_debit_record now t c :
  transaction_type t = "debit" ->
  _is_transaction_relevant t c monthly_budget = true ->
  exists i,
    _calculate_single_goal_impact now t c monthly_budget = Ok (Some i) /\
    impact_goal_id i = "monthly-budget" /\
    impact_amount i = amount t /\
    In (impact_score i) [-1; -0.7; -0.3]%float.
Proof.
  intros Hk Hrel. unfold _calculate_single_goal_impact. rewrite Hrel.
  cbn [negb goal_type monthly_budget]. unfold _calculate_budget_impact. rewrite Hk.
  cbn [String.eqb Ascii.eqb Bool.eqb negb].
  cbn [target_amount current_amount goal_id name monthly_budget]. unfold truediv.
  replace (PrimFloat.eqb 25000 0) with false by reflexivity. cbn [bind].
  match goal with |- context [gt ?r 1.0] => destruct (gt r 1.0); [| destruct (gt r 0.8)] end;
    (eexists; split; [reflexivity|]; cbn [impact_goal_id impact_amount impact_score];
     repeat split; cbn; auto).
Qed.

Lemma debit_categories t :
  transaction_type t = "debit" ->
  In (fst (first_match_wins decision_list t))
     ["shopping"; "utilities"; "entertainment"; "transfer"; "fee"; "other"].
Proof.
  intro Hk. cbn [first_match_wins decision_list fires label rule_confidence].
  unfold kind_lower. rewrite Hk. change (lower "debit") with "debit".
  cbn [String.eqb Ascii.eqb Bool.eqb andb].
  case_conditions; cbn; auto 10.
Qed.

Lemma other_categories t :
  merchant t = None -> transaction_type t = "other" ->
  In (fst (first_match_wins decision_list t)) ["transfer"; "fee"; "other"].
Proof.
  intros Hm Hk. rewrite (rules_no_merchant _ Hm).
  cbn [skipn first_match_wins decision_list fires label rule_confidence].
  unfold kind_lower. rewrite Hk. change (lower "other") with "other".
  cbn [String.eqb Ascii.eqb Bool.eqb andb].
  case_conditions; cbn; auto 10.
Qed.

Lemma transfer_marker_categories t :
  transaction_type t = "debit" ->
  contains "upi" (lower (raw_message t)) = true ->
  In (fst (first_match_wins decision_list t))
     ["shopping"; "utilities"; "entertainment"; "transfer"].
Proof.
  intros Hk Hu. cbn [first_match_wins decision_list fires label rule_confidence].
  unfold kind_lower, raw_lower. rewrite Hk, Hu. change (lower "debit") with "debit".
  cbn [String.eqb Ascii.eqb Bool.eqb andb orb].
  case_conditions; cbn; auto 10.
Qed.

(** The impacts of a fact that is neither a credit nor a bill and whose
    category no savings goal tracks: at most a record on the bill goal, then
    at most one on the budget. *)
Lemma spending_impacts now t c :
  str_in (transaction_type t) ["credit"; "cashback"; "investment"] = false ->
  str_in (category c) ["credit"; "cashback"; "investment"] = false ->
  str_in (transaction_type t) ["shopping"; "utilities"; "entertainment"; "food_dining"]
  = false ->
  exists bs js,
    calculate_transaction_impact GoalImpactCalculator_init now t c = Ok (bs ++ js)%list /\
    (if _is_transaction_relevant t c cc_bill
     then exists b, bs = [b] /\ impact_goal_id b = "cc-bill" /\
                    (contains "reminder" (lower (raw_message t)) = false ->
                     impact_score b = 0%float /\ impact_amount b = 0%float /\
                     new_progress b = 0%float /\
                     (message b = EmptyString \/ message b = due_suffix))
     else bs = []) /\
    (if String.eqb (transaction_type t) "debit"
        && str_in (category c) ["shopping"; "utilities"; "entertainment"; "food_dining"]
     then exists j, js = [j] /\ impact_goal_id j = "monthly-budget" /\
                    impact_amount j = amount t /\
                    In (impact_score j) [-1; -0.7; -0.3]%float
     else js = []).
Proof.
  intros Hk1 Hc1 Hk2.
  assert (Hsav : _is_transaction_relevant t c demo_savings = false)
    by (rewrite savings_relevance, Hk1, Hc1; reflexivity).
  assert (Hnc : transaction_type t <> "credit").
  { intro H. rewrite H in Hk1. discriminate. }
  rewrite impacts_demo, (@not_relevant_none now _ _ _ Hsav). cbn [bind].
  assert (Hbill : exists bs,
             _calculate_single_goal_impact now t c cc_bill
             = Ok (match bs with [b] => Some b | _ => None end) /\
             (if _is_transaction_relevant t c cc_bill
              then exists b, bs = [b] /\ impact_goal_id b = "cc-bill" /\
                    (contains "reminder" (lower (raw_message t)) = false ->
                     impact_score b = 0%float /\ impact_amount b = 0%float /\
                     new_progress b = 0%float /\
                     (message b = EmptyString \/ message b = due_suffix))
              else bs = [])).
  { destruct (_is_transaction_relevant t c cc_bill) eqn:Hrel.
    - destruct (@bill_record now _ _ Hrel) as (b & Hb & Hbid & _ & _ & Hzero).
      exists [b]. split; [exact Hb|].
      exists b. repeat split; try assumption; apply Hzero; assumption.
    - exists []. rewrite (@not_relevant_none now _ _ _ Hrel). cbn. auto. }
  destruct Hbill as (bs & Hb & Hbs). rewrite Hb. cbn [bind].
  assert (Hbs' : match match bs with [b] => Some b | _ => None end with
                 | Some i => [i] | None => [] end = bs).
  { destruct (_is_transaction_relevant t c cc_bill).
    - destruct Hbs as (b & -> & _). reflexivity.
    - subst bs. reflexivity. }
  rewrite Hbs'. exists bs.
  destruct (String.eqb (transaction_type t) "debit") eqn:Hd; cbn [andb].
  - apply String.eqb_eq in Hd.
    destruct (str_in (category c) ["shopping"; "utilities"; "entertainment"; "food_dining"])
      eqn:Hb4.
    + assert (Hbud : _is_transaction_relevant t c monthly_budget = true)
        by (rewrite budget_relevance, Hb4; apply orb_true_r).
      destruct (@budget_debit_record now _ _ Hd Hbud) as (j & Hj & Hjid & Hja & Hjs).
      rewrite Hj. cbn [bind]. exists [j]. split; [reflexivity|]. split; [exact Hbs|]. eauto 10.
    + assert (Hbud : _is_transaction_relevant t c monthly_budget = false)
        by (rewrite budget_relevance, Hk2, Hb4; reflexivity).
      rewrite (@not_relevant_none now _ _ _ Hbud). cbn [bind]. exists []. auto.
  - exists []. split; [| split; [exact Hbs | reflexivity]].
    unfold _calculate_single_goal_impact.
    destruct (_is_transaction_relevant t c monthly_budget); cbn [negb bind]; [| reflexivity].
    cbn [goal_type monthly_budget]. unfold _calculate_budget_impact. rewrite Hd.
    reflexivity.
Qed.

Lemma bill_relevance_markers t c :
  str_in (transaction_type t) ["bill"; "credit"] = false ->
  str_in (category c) ["bill"; "credit"] = false ->
  contains "reminder" (lower (raw_message t)) = false ->
  contains "credit card" (lower (raw_message t)) = false ->
  _is_transaction_relevant t c cc_bill = false.
Proof. intros H1 H2 H3 H4. rewrite bill_relevance, H1, H2, H3, H4. reflexivity. Qed.

(** ** The goal summary *)

Lemma summary_set_keys k v d k' :
  In k' (map fst (summary_set k v d)) <-> k' = k \/ In k' (map fst d).
Proof.
  induction d as [| [k0 v0] d IH]; cbn [summary_set map fst In].
  - intuition.
  - destruct (String.eqb k k0) eqn:E; cbn [map fst In].
    + apply String.eqb_eq in E. subst. intuition.
    + rewrite IH. intuition.
Qed.

Lemma summary_set_forall (P : string * GoalSummary -> Prop) k v d :
  (forall k0, P (k0, v)) -> Forall P d -> Forall P (summary_set k v d).
Proof.
  intros Hv Hd. induction Hd as [| [k0 v0] d H0 Hd IH]; cbn [summary_set].
  - constructor; [apply Hv | constructor].
  - destruct (String.eqb k k0); constructor; auto.
Qed.

Lemma summary_of_outcome now goals : forall n acc,
  if existsb zero_target goals
  then summary_of now n goals acc = Raise ZeroDivisionError
  else exists s,
      summary_of now n goals acc = Ok s /\
      (forall k, In k (map fst s) <->
                 In k (map fst acc) \/
                 exists g, In (k, g) goals /\ is_active g = true) /\
      (Forall summary_entry_ok acc -> Forall summary_entry_ok s).
Proof.
  induction goals as [| [k g] goals IH]; intros n acc; cbn [existsb summary_of].
  - exists acc. split; [reflexivity|]. split; [| auto].
    intro k. split; [auto | intros [H | (g & [] & _)]; exact H].
  - unfold zero_target at 1. cbn [snd].
    destruct (is_active g) eqn:Ha; cbn [andb orb].
    + unfold truediv. destruct (PrimFloat.eqb (target_amount g) 0) eqn:Hz; cbn [orb bind].
      * reflexivity.
      * match goal with |- context [summary_of now (S n) goals ?a] =>
          specialize (IH (S n) a) end.
        destruct (existsb zero_target goals); [exact IH|].
        destruct IH as (s & Hs & Hkeys & Hok). exists s. split; [exact Hs|]. split.
        -- intro k'. rewrite Hkeys, summary_set_keys. split.
           ++ intros [[-> | H] | (g' & Hin & Hact)].
              ** right. exists g. split; [left; reflexivity | exact Ha].
              ** left. exact H.
              ** right. exists g'. split; [right; exact Hin | exact Hact].
           ++ intros [H | (g' & [Heq | Hin] & Hact)].
              ** left. right. exact H.
              ** inversion Heq; subst. left. left. reflexivity.
              ** right. exists g'. split; assumption.
        -- intro Hacc. apply Hok. apply summary_set_forall; [| exact Hacc].
           intro k0. unfold summary_entry_ok. cbn [snd progress is_on_track days_remaining].
           split; [apply min_one_le|].
           intros b. destruct (deadline g) as [d|]; [| discriminate].
           destruct (negb (days_between d (now n) =? 0)%Z) ; cbn [andb]; [| discriminate].
           destruct (30 <? days_between d (now n))%Z eqn:E30; [| discriminate].
           intros _. eexists. split; [reflexivity|]. apply Z.ltb_lt. exact E30.
    + specialize (IH (S n) acc).
      destruct (existsb zero_target goals); [exact IH|].
      destruct IH as (s & Hs & Hkeys & Hok). exists s. split; [exact Hs|]. split; [| exact Hok].
      intro k'. rewrite Hkeys. split.
      * intros [H | (g' & Hin & Hact)].
        -- left. exact H.
        -- right. exists g'. split; [right; exact Hin | exact Hact].
      * intros [H | (g' & [Heq | Hin] & Hact)].
        -- left. exact H.
        -- inversion Heq; subst. congruence.
        -- right. exists g'. split; assumption.
Qed.

Lemma summary_outcome self now :
  if existsb zero_target (demo_goals self)
  then get_goal_summary self now = Raise ZeroDivisionError
  else exists s,
      get_goal_summary self now = Ok s /\
      (forall k, In k (map fst s) <->
                 exists g, In (k, g) (demo_goals self) /\ is_active g = true) /\
      Forall summary_entry_ok s.
Proof.
  unfold get_goal_summary.
  pose proof (summary_of_outcome now (demo_goals self) 0 []) as H.
  destruct (existsb zero_target (demo_goals self)); [exact H|].
  destruct H as (s & Hs & Hkeys & Hok). exists s. split; [exact Hs|]. split.
  - intro k. rewrite Hkeys. cbn. intuition.
  - apply Hok. constructor.
Qed.

Lemma summary_set_in k v d ke :
  In ke (summary_set k v d) -> ke = (k, v) \/ In ke d.
Proof.
  induction d as [| [k0 v0] d IH]; cbn [summary_set In].
  - intros [<- | []]. left. reflexivity.
  - destruct (String.eqb k k0) eqn:E; cbn [In].
    + apply String.eqb_eq in E. subst k0. intros [<- | H]; auto.
    + intros [<- | H]; [auto|]. destruct (IH H); auto.
Qed.

Lemma summary_set_nodup k v d :
  NoDup (map fst d) -> NoDup (map fst (summary_set k v d)).
Proof.
  induction d as [| [k0 v0] d IH]; cbn [summary_set map fst]; intro H.
  - constructor; [intros [] | constructor].
  - inversion H as [| x l Hn Hd]; subst.
    destruct (String.eqb k k0) eqn:E; cbn [map fst].
    + constructor; assumption.
    + constructor; [| apply IH; exact Hd].
      rewrite summary_set_keys. intros [-> | Hin]; [| contradiction].
      rewrite String.eqb_refl in E. discriminate E.
Qed.

Lemma summary_of_entries now goals : forall n acc s,
  summary_of now n goals acc = Ok s ->
  (NoDup (map fst acc) -> NoDup (map fst s)) /\
  Forall (fun ke => In ke acc \/
                    exists m g, nth_error goals m = Some (fst ke, g) /\
                                is_active g = true /\
                                summary_entry_of g (now (n + m)%nat) (snd ke)) s.
Proof.
  induction goals as [| [k g] goals IH]; intros n acc s; cbn [summary_of].
  - intro H. inversion H; subst s. split; [auto|].
    apply Forall_forall. auto.
  - destruct (is_active g) eqn:Ha.
    + unfold truediv. destruct (PrimFloat.eqb (target_amount g) 0); cbn [bind];
        [discriminate|].
      intro H. destruct (IH _ _ _ H) as [Hnd Hall]. split.
      * intro Hacc. apply Hnd, summary_set_nodup, Hacc.
      * eapply Forall_impl; [| exact Hall]. intros ke [Hin | (m & g' & Hm & Hact & He)].
        -- apply summary_set_in in Hin. destruct Hin as [-> | Hin]; [| left; exact Hin].
           right. exists 0%nat, g. cbn [fst snd nth_error]. rewrite Nat.add_0_r.
           split; [reflexivity|]. split; [exact Ha|].
           unfold summary_entry_of.
           cbn [summary_name summary_type summary_current_amount summary_target_amount
                progress days_remaining is_on_track].
           do 6 (split; [reflexivity|]).
           destruct (deadline g) as [d|]; [| reflexivity].
           destruct (30 <? days_between d (now n))%Z eqn:E30;
             [| rewrite andb_false_r; reflexivity].
           apply Z.ltb_lt in E30.
           replace (days_between d (now n) =? 0)%Z with false
             by (symmetry; apply Z.eqb_neq; lia).
           reflexivity.
        -- right. exists (S m), g'. cbn [nth_error].
           rewrite Nat.add_succ_r. auto.
    + intro H. destruct (IH _ _ _ H) as [Hnd Hall]. split; [exact Hnd|].
      eapply Forall_impl; [| exact Hall]. intros ke [Hin | (m & g' & Hm & Hact & He)].
      * left. exact Hin.
      * right. exists (S m), g'. cbn [nth_error]. rewrite Nat.add_succ_r. auto.
Qed.

Lemma summary_entries self now s :
  get_goal_summary self now = Ok s ->
  NoDup (map fst s) /\ Forall (from_registry (demo_goals self) now) s.
Proof.
  intro H. destruct (summary_of_entries _ _ _ _ H) as [Hnd Hall].
  split; [apply Hnd; constructor|].
  eapply Forall_impl; [| exact Hall].
  intros ke [[] | H']. exact H'.
Qed.

(** ** A digit in the amount group decides *)

Lemma extract_by_digit now text :
  match amount_group text with
  | Some g =>
      if has_digit g
      then exists t, SMSParser.parse_message now text = Ok (Some t)
      else SMSParser.parse_message now text = Raise ValueError
  | None => SMSParser.parse_message now text = Ok None
  end.
Proof.
  pose proof (parse_message_outcomes now text) as H. unfold amount_group.
  destruct (SMSParser.first_match SMSParser.patterns (strip text)) as [[m p]|].
  - destruct H as [(pre & post & Hp & _ & S) (g & Hg & H)]. rewrite Hg.
    assert (Hin : In p SMSParser.patterns)
      by (rewrite Hp; apply in_or_app; right; left; reflexivity).
    pose proof (@search_group_content true 1 digits_decide _ _ _
                  (@sms_patterns_amount_content p Hin) S g Hg (le_n 1)) as [Hyes Hno].
    destruct (has_digit g).
    + destruct (Hyes eq_refl) as [a Ha]. rewrite Ha in H.
      destruct H as (t & Ht & _). eauto.
    + rewrite (Hno eq_refl) in H. exact H.
  - destruct (search false SMSParser.fallback_re (strip text)) as [m|] eqn:S; [| exact H].
    destruct H as (g & Hg & H). rewrite Hg. cbn [nth_error].
    assert (Hn : nth_error (groups m) (1 - 1) = Some (Some g)) by (rewrite Hg; reflexivity).
    pose proof (@search_group_content false 1 digits_decide _ _ _
                  fallback_amount_content S g Hn (le_n 1)) as [Hyes Hno].
    destruct (has_digit g).
    + destruct (Hyes eq_refl) as [a Ha]. rewrite Ha in H. eauto.
    + rewrite (Hno eq_refl) in H. exact H.
Qed.

Lemma email_patterns_amount_content p :
  In p EmailParser.patterns -> content_ok true 1 digits_decide (p_regex p).
Proof.
  intros [<- | [<- | []]];
    cbn [content_ok p_regex EmailParser.interest_credit EmailParser.bill_payment
         amount_re ref_re plus star opt];
    repeat match goal with
           | |- _ /\ _ => split
           | |- True => exact I
           | |- ?j = 1%nat -> _ => let H := fresh in intro H; try discriminate H; clear H
           end; intro w; apply (@amount_re_digits_decide true).
Qed.

Lemma email_by_digit now text :
  match email_amount_group text with
  | Some g =>
      if has_digit g
      then exists t a,
          EmailParser.parse_message now text = Ok (Some t) /\
          py_float (remove_char "," g) = Ok a /\ amount t = a
      else EmailParser.parse_message now text = Raise ValueError
  | None => EmailParser.parse_message now text = Ok None
  end.
Proof.
  unfold email_amount_group, EmailParser.parse_message.
  destruct (SMSParser.first_match EmailParser.patterns (strip text)) as [[m p]|] eqn:E;
    [| reflexivity].
  destruct (@first_match_first _ _ _ _ E) as (pre & post & Hp & _ & S).
  assert (Hin : In p EmailParser.patterns) by (rewrite Hp; apply in_split_mid).
  assert (Hnum : numbered (p_regex p) = true)
    by (destruct Hin as [<- | [<- | []]]; reflexivity).
  destruct (@groups_present _ _ _ _ 0 S Hnum) as [g Hg].
  { destruct Hin as [<- | [<- | []]]; cbn; lia. }
  rewrite Hg.
  pose proof (@search_group_content true 1 digits_decide _ _ _
                (@email_patterns_amount_content p Hin) S g Hg (le_n 1)) as [Hyes Hno].
  unfold EmailParser._extract_email_transaction, index. rewrite Hg.
  cbn [bind attr_of].
  destruct (has_digit g).
  - destruct (Hyes eq_refl) as [a Ha]. rewrite Ha. cbn [bind].
    eexists. exists a. split; [reflexivity|]. split; reflexivity.
  - rewrite (Hno eq_refl). reflexivity.
Qed.

Lemma amount_group_strip text : amount_group (strip text) = amount_group text.
Proof. unfold amount_group. rewrite strip_idempotent. reflexivity. Qed.

Lemma email_amount_group_strip text :
  email_amount_group (strip text) = email_amount_group text.
Proof. unfold email_amount_group. rewrite strip_idempotent. reflexivity. Qed.

(** ** Files *)

Lemma sms_decided : decided_by amount_group SMSParser.parse_message.
Proof.
  split; [exact amount_group_strip|]. split; [| split; [reflexivity|]].
  - intros now text. unfold SMSParser.parse_message. rewrite strip_idempotent. reflexivity.
  - intros now text.
    pose proof (extract_by_digit now text) as H. unfold outcome_of.
    destruct (amount_group text) as [g|]; [| exact H].
    destruct (has_digit g); exact H.
Qed.

Lemma email_decided : decided_by email_amount_group EmailParser.parse_message.
Proof.
  split; [exact email_amount_group_strip|]. split; [| split; [reflexivity|]].
  - intros now text. unfold EmailParser.parse_message. rewrite strip_idempotent. reflexivity.
  - intros now text.
    pose proof (email_by_digit now text) as H. unfold outcome_of.
    destruct (email_amount_group text) as [g|]; [| exact H].
    destruct (has_digit g); [| exact H].
    destruct H as (t & a & H & _). eauto.
Qed.

Lemma from_line_later parse now n line rest ft :
  from_line parse now (S n) rest ft -> from_line parse now n (line :: rest) ft.
Proof.
  intros (l & Hn & Hle & Hp). exists l. split; [| split; [lia | exact Hp]].
  replace (line_number ft - n)%nat with (S (line_number ft - S n)) by lia. exact Hn.
Qed.

Lemma parse_lines_outcome group parse now :
  decided_by group parse ->
  forall lines n acc,
    if existsb (raising_line group) lines
    then parse_lines parse now n lines acc = Raise ValueError
    else exists l,
        parse_lines parse now n lines acc = Ok (acc ++ l)%list /\
        map line_number l = fact_lines group n lines /\
        Forall (from_line parse now n lines) l.
Proof.
  intros (Hg & Hp & H0 & Hd).
  induction lines as [| line rest IH]; intros n acc; cbn [existsb parse_lines fact_lines].
  - exists []. rewrite app_nil_r. auto.
  - assert (Hlater : forall pre,
              Forall (from_line parse now n (line :: rest)) pre ->
              if existsb (raising_line group) rest
              then parse_lines parse now (S n) rest (acc ++ pre) = Raise ValueError
              else exists l,
                  parse_lines parse now (S n) rest (acc ++ pre) = Ok (acc ++ l)%list /\
                  map line_number l
                  = (map line_number pre ++ fact_lines group (S n) rest)%list /\
                  Forall (from_line parse now n (line :: rest)) l).
    { intros pre Hpre. specialize (IH (S n) (acc ++ pre)%list).
      destruct (existsb (raising_line group) rest); [exact IH|].
      destruct IH as (l & Hl & Hm & Hf). exists (pre ++ l)%list.
      split; [rewrite Hl, app_assoc; reflexivity|].
      split; [rewrite map_app, Hm; reflexivity|].
      apply Forall_app. split; [exact Hpre|].
      eapply Forall_impl; [| exact Hf]. intro ft. apply from_line_later. }
    pose proof (Hlater [] (Forall_nil _)) as Hnone.
    rewrite app_nil_r in Hnone. cbn [map app] in Hnone.
    destruct (is_empty (strip line)) eqn:Hb.
    + assert (Ho : outcome_of group line = LineNothing).
      { unfold outcome_of. rewrite <- Hg. destruct (strip line); [| discriminate].
        rewrite H0. reflexivity. }
      unfold raising_line at 1. rewrite Ho. cbn [orb]. exact Hnone.
    + rewrite Hp. pose proof (Hd (now n) line) as Hline.
      unfold raising_line at 1.
      destruct (outcome_of group line) eqn:Ho; cbn [orb].
      * rewrite Hline. reflexivity.
      * destruct Hline as [t Ht]. rewrite Ht. cbn [bind].
        apply (Hlater [ {| parsed := t; line_number := n |} ]).
        constructor; [| constructor].
        exists line. cbn [line_number parsed]. rewrite Nat.sub_diag.
        split; [reflexivity | split; [lia | exact Ht]].
      * rewrite Hline. cbn [bind]. exact Hnone.
Qed.

(** Every credit, whatever its category, is booked on the savings goal and
    on the bill goal, and never on the budget. *)
(** ** Credits, and the email patterns *)

Lemma credit_impacts now t c :
  transaction_type t = "credit" ->
  exists s b,
    calculate_transaction_impact GoalImpactCalculator_init now t c = Ok [s; b] /\
    impact_goal_id s = "demo-savings" /\
    impact_amount s = amount t /\
    impact_score s = min 0.8 (amount t / 5000)%float /\
    impact_goal_id b = "cc-bill" /\
    (contains "reminder" (lower (raw_message t)) = true ->
     impact_score b = (-0.9)%float /\ impact_amount b = amount t) /\
    (contains "reminder" (lower (raw_message t)) = false ->
     impact_score b = 0.8%float /\ impact_amount b = (- amount t)%float).
Proof.
  intro Hk.
  destruct (@savings_credit_record now t c Hk) as (s & Hs & Hsid & Hsa & Hss).
  assert (Hrel : _is_transaction_relevant t c cc_bill = true)
    by (rewrite bill_relevance, Hk; reflexivity).
  destruct (@bill_record now _ _ Hrel) as (b & Hb & Hbid & Hrem & Hpay & _).
  exists s, b. rewrite impacts_demo, Hs, Hb. cbn [bind].
  assert (Hbud : _calculate_single_goal_impact now t c monthly_budget = Ok None).
  { unfold _calculate_single_goal_impact.
    destruct (_is_transaction_relevant t c monthly_budget); cbn [negb]; [| reflexivity].
    cbn [goal_type monthly_budget]. unfold _calculate_budget_impact. rewrite Hk. reflexivity. }
  rewrite Hbud. cbn [bind app].
  repeat split; try assumption; try (apply Hrem; assumption); apply Hpay; assumption.
Qed.

Lemma deciding_email_pattern_search text p :
  deciding_email_pattern text = Some p ->
  exists m, SMSParser.first_match EmailParser.patterns (strip text) = Some (m, p) /\
            search true (p_regex p) (strip text) = Some m.
Proof.
  unfold deciding_email_pattern.
  destruct (SMSParser.first_match EmailParser.patterns (strip text)) as [[m q]|] eqn:E;
    [| discriminate].
  cbn. intro H. inversion H; subst. exists m. split; [reflexivity|].
  apply first_match_first in E. destruct E as (pre & post & _ & _ & S). exact S.
Qed.

Lemma email_pattern_fact now text m p t :
  SMSParser.first_match EmailParser.patterns (strip text) = Some (m, p) ->
  EmailParser.parse_message now text = Ok (Some t) ->
  exists a,
    PrimFloat.leb 0 a = true /\
    t = {| amount := a;
           currency := "INR";
           transaction_type := p_type p;
           timestamp := now;
           account_ref := None;
           merchant := match nth_error (groups m) 1 with Some g => g | None => None end;
           reference := match nth_error (groups m) 2 with Some g => g | None => None end;
           Parsers.confidence := p_confidence p;
           raw_message := strip text;
           channel := "email";
           meta := [("parser", MetaStr "email_regex")] |}.
Proof.
  intro E. unfold EmailParser.parse_message. rewrite E.
  unfold EmailParser._extract_email_transaction.
  destruct (index (groups m) 0) as [g0|]; cbn [bind]; [| discriminate].
  destruct (attr_of g0) as [g|]; cbn [bind]; [| discriminate].
  destruct (py_float (remove_char "," g)) as [a|] eqn:Ea; cbn [bind]; [| discriminate].
  intro H. apply ok_some_inj in H. subst t.
  exists a. split; [exact (py_float_leb_zero _ Ea) | reflexivity].
Qed.

Lemma lit_space x : cmatch true (Lit " ") x = true -> x = " "%char.
Proof.
  destruct x as [[] [] [] [] [] [] [] []]; vm_compute; intro H;
    first [reflexivity | discriminate H].
Qed.

Lemma nonempty_length (w : string) : (1 <= length w)%nat -> w <> EmptyString.
Proof. destruct w; cbn; [lia | discriminate]. Qed.

Lemma interest_date_content :
  content_ok true 2 day_month (p_regex EmailParser.interest_credit).
Proof.
  cbn [content_ok p_regex EmailParser.interest_credit amount_re plus star opt].
  repeat match goal with
         | |- _ /\ _ => split
         | |- True => exact I
         | |- ?j = 2%nat -> _ => let H := fresh in intro H; try discriminate H; clear H
         end.
  intros w (d & w' & -> & (Hd & Ld & _) & (sp & mo & -> & Hsp & (Hmo & Lmo & _))).
  cbn [consumed lit] in Hsp.
  destruct sp as [| x sp]; [discriminate|].
  destruct (cmatch true (Lit " ") x) eqn:Ex; [| discriminate].
  destruct sp; [| discriminate]. apply lit_space in Ex. subst x.
  exists d, mo. repeat split; auto using nonempty_length.
Qed.

(** ** The order on floats is total away from NaN *)




(** ** Written dates and times *)

Lemma lit_dash ic x : cmatch ic (Lit "-") x = true -> x = "-"%char.
Proof.
  destruct ic, x as [[] [] [] [] [] [] [] []]; vm_compute; intro H;
    first [reflexivity | discriminate H].
Qed.

Lemma digit_not_dash x : isdigit x = true -> Ascii.eqb x "-" = false.
Proof.
  destruct x as [[] [] [] [] [] [] [] []]; vm_compute; intro H;
    first [reflexivity | discriminate H].
Qed.

Lemma consumed_dash ic w : consumed ic (Str "-") w -> w = "-".
Proof.
  cbn [consumed lit]. destruct w as [| x w]; [discriminate|].
  destruct (cmatch ic (Lit "-") x) eqn:E; [| discriminate].
  destruct w; [| discriminate]. intros _. apply lit_dash in E. subst. reflexivity.
Qed.

Lemma date_re_shape ic w : consumed ic date_re w -> date_shape w.
Proof.
  cbn [consumed date_re times].
  intros (dd & w1 & -> & (Hdd & L1 & L1') & (s1 & w2 & -> & Hs1 &
          (mm & w3 & -> & (Hmm & L2 & L2') & (s2 & yyyy & -> & Hs2 & (Hy & L3 & L3'))))).
  apply (@consumed_dash ic) in Hs1. apply (@consumed_dash ic) in Hs2. subst s1 s2.
  exists dd, mm, yyyy. repeat split; auto; lia.
Qed.

Lemma time_re_shape ic w : consumed ic (times 4 Digit) w -> time_shape w.
Proof. cbn [consumed times]. intros (H & L & L'). split; [exact H | lia]. Qed.

Lemma split_on_digits d rest :
  all_chars isdigit d = true ->
  split_on "-" (d ++ String "-" rest) = d :: split_on "-" rest.
Proof.
  induction d as [| x d IH]; cbn [append split_on all_chars]; intro H.
  - reflexivity.
  - apply andb_prop in H. destruct H as [Hx Hd].
    rewrite (@digit_not_dash _ Hx), (IH Hd). reflexivity.
Qed.

Lemma split_on_last d :
  all_chars isdigit d = true -> split_on "-" d = [d].
Proof.
  induction d as [| x d IH]; cbn [split_on all_chars]; intro H.
  - reflexivity.
  - apply andb_prop in H. destruct H as [Hx Hd].
    rewrite (@digit_not_dash _ Hx), (IH Hd). reflexivity.
Qed.

Lemma py_int_digits d :
  all_chars isdigit d = true -> d <> EmptyString -> py_int d = Ok (digits_value 0 d).
Proof.
  intros H Hne. unfold py_int. rewrite (@take_digits_all _ H).
  destruct d; [congruence | reflexivity].
Qed.

Lemma string_of_length_2 (w : string) :
  length w = 2%nat -> exists a b, w = String a (String b EmptyString).
Proof. destruct w as [| a [| b [| c w]]]; cbn; intro H; try discriminate; eauto. Qed.

Lemma string_of_length_4 (w : string) :
  length w = 4%nat ->
  exists a b c d, w = String a (String b (String c (String d EmptyString))).
Proof.
  destruct w as [| a [| b [| c [| d [| e w]]]]]; cbn; intro H; try discriminate; eauto 10.
Qed.

(** The timestamp read from a written date and time: the moment they denote,
    or the clock when they denote none. *)
Lemma parse_timestamp_written now gs fields di ti date time :
  find_index (contains "date") fields = Some di ->
  find_index (contains "time") fields = Some ti ->
  nth_error gs di = Some (Some date) ->
  nth_error gs ti = Some (Some time) ->
  date_shape date -> time_shape time ->
  SMSParser._parse_timestamp now gs fields
  = Ok (match written_moment date time with Ok d => d | Raise _ => now end).
Proof.
  intros Hdi Hti Hd Ht (dd & mm & yyyy & -> & Hdd & Hmm & Hyy & Ldd & Lmm & Lyy) [Htd Ltd].
  unfold SMSParser._parse_timestamp. rewrite Hdi, Hti. unfold index. rewrite Hd, Ht.
  cbn [bind attr_of subscript_of append].
  rewrite (@split_on_digits _ _ Hdd), (@split_on_digits _ _ Hmm), (@split_on_last _ Hyy).
  destruct (@string_of_length_2 _ Ldd) as (d1 & d2 & ->).
  destruct (@string_of_length_2 _ Lmm) as (m1 & m2 & ->).
  destruct (@string_of_length_4 _ Lyy) as (y1 & y2 & y3 & y4 & ->).
  destruct (@string_of_length_4 _ Ltd) as (h1 & h2 & n1 & n2 & ->).
  cbn [all_chars] in Hdd, Hmm, Hyy, Htd.
  repeat match goal with
         | H : _ && _ = true |- _ => apply andb_prop in H; destruct H
         end.
  unfold written_moment.
  change (slice_to 2 (String h1 (String h2 (String n1 (String n2 EmptyString)))))
    with (String h1 (String h2 EmptyString)).
  change (slice_from 2 (String h1 (String h2 (String n1 (String n2 EmptyString)))))
    with (String n1 (String n2 EmptyString)).
  cbn [append substring].
  rewrite !py_int_digits by (try discriminate; cbn [all_chars];
                             repeat match goal with H : isdigit _ = true |- _ =>
                                      rewrite H; clear H end; reflexivity).
  cbn [bind].
  destruct (mk_datetime _ _ _ _ _) as [d|e] eqn:E; cbn [try_except_value_index].
  - reflexivity.
  - rewrite (@mk_datetime_value_error _ _ _ _ _ _ E). reflexivity.
Qed.

Ltac group_content i :=
  cbn [content_ok p_regex SMSParser.hdfc_credit_card_spending SMSParser.neft_credit
       SMSParser.upi_payment SMSParser.bill_payment_reminder
       amount_re ref_re plus star opt lazy_star];
  repeat match goal with
         | |- _ /\ _ => split
         | |- True => exact I
         | |- ?j = i -> _ => let H := fresh in intro H; try discriminate H; clear H
         end.

Lemma dated_content p :
  In p dated_patterns ->
  content_ok true (S (date_position p)) date_shape (p_regex p) /\
  content_ok true (S (time_position p)) time_shape (p_regex p) /\
  numbered (p_regex p) = true /\
  (date_position p < ngroups (p_regex p))%nat /\
  (time_position p < ngroups (p_regex p))%nat /\
  find_index (contains "date") (p_fields p) = Some (date_position p) /\
  find_index (contains "time") (p_fields p) = Some (time_position p).
Proof.
  intros [<- | [<- | [<- | []]]].
  - split; [| split; [| repeat split; cbn; lia]].
    + change (S (date_position SMSParser.hdfc_credit_card_spending)) with 5%nat.
      group_content 5%nat; try solve [cbn; tauto]; intro w; apply date_re_shape.
    + change (S (time_position SMSParser.hdfc_credit_card_spending)) with 6%nat.
      group_content 6%nat; try solve [cbn; tauto]; intro w; apply time_re_shape.
  - split; [| split; [| repeat split; cbn; lia]].
    + change (S (date_position SMSParser.neft_credit)) with 4%nat.
      group_content 4%nat; try solve [cbn; tauto]; intro w; apply date_re_shape.
    + change (S (time_position SMSParser.neft_credit)) with 5%nat.
      group_content 5%nat; try solve [cbn; tauto]; intro w; apply time_re_shape.
  - split; [| split; [| repeat split; cbn; lia]].
    + change (S (date_position SMSParser.upi_payment)) with 4%nat.
      group_content 4%nat; try solve [cbn; tauto]; intro w; apply date_re_shape.
    + change (S (time_position SMSParser.upi_payment)) with 5%nat.
      group_content 5%nat; try solve [cbn; tauto]; intro w; apply time_re_shape.
Qed.

(** ** Lists of impacts *)

Lemma impacts_of_bounds now t c goals : forall l,
  PrimFloat.leb 0 (amount t) = true ->
  impacts_of now t c goals = Ok l ->
  Forall (fun i => within (-1) 1 (impact_score i)) l /\
  (List.length l <= List.length goals)%nat.
Proof.
  induction goals as [| [k g] goals IH]; intros l Ha H; cbn [impacts_of] in H.
  - inversion H. split; [constructor | cbn; lia].
  - destruct (negb (is_active g)).
    + destruct (IH l Ha H) as [F L]. split; [exact F | cbn; lia].
    + destruct (_calculate_single_goal_impact now t c g) as [o|] eqn:E; cbn [bind] in H;
        [| discriminate].
      destruct (impacts_of now t c goals) as [l'|]; cbn [bind] in H; [| discriminate].
      destruct (IH l' Ha eq_refl) as [F L].
      destruct o as [i|]; inversion H; subst; clear H.
      * split; [| cbn; lia]. constructor; [| exact F].
        exact (proj1 (@single_impact_bounds now t c g i Ha E)).
      * split; [exact F | cbn; lia].
Qed.

(** ** The vocabulary of the classifier *)

Lemma subcategories_vocabulary t cat :
  In (_generate_subcategories t cat) (subcategory_lists cat).
Proof.
  unfold _generate_subcategories, subcategory_lists.
  destruct (String.eqb cat "shopping");
    [| destruct (String.eqb cat "utilities"); [| destruct (String.eqb cat "bills")]];
    case_conditions; cbn; auto 10.
Qed.

Lemma predicted_category t : In (fst (first_match_wins decision_list t)) predicted_categories.
Proof.
  cbn [first_match_wins decision_list fires label rule_confidence].
  case_conditions; cbn; auto 10.
Qed.

Lemma classification_vocabulary_all path t :
  exists c,
    classify_transaction (TransactionClassifier_init path) t = Ok c /\
    In (category c) predicted_categories /\
    In (category c) (Classifier.categories (TFLiteInterface_init path)) /\
    In (subcategories c) (subcategory_lists (category c)).
Proof.
  rewrite classify_is_decision_list. eexists. split; [reflexivity|].
  cbn [category subcategories].
  pose proof (predicted_category t) as H.
  split; [exact H|]. split; [| apply subcategories_vocabulary].
  assert (Hc : Classifier.categories (TFLiteInterface_init path)
               = ["shopping"; "utilities"; "food_dining"; "transportation";
                  "entertainment"; "healthcare"; "education"; "bills";
                  "transfer"; "investment"; "fee"; "cashback"; "other"]).
  { destruct path as [[|]|]; reflexivity. }
  rewrite Hc.
  destruct (fst (first_match_wins decision_list t)); [cbn in H; intuition discriminate|].
  cbn in H. cbn.
  repeat match goal with H : _ \/ _ |- _ => destruct H as [H | H] end;
    try contradiction; rewrite <- H; auto 20.
Qed.

(** ** The endpoints *)

Lemma parse_by_channel now request :
  match (if String.eqb (request_channel request) "sms"
         then call (SMSParser.parse_message now (request_message request))
         else if String.eqb (request_channel request) "email"
         then call (EmailParser.parse_message now (request_message request))
         else Raised (HTTPError 400 "Invalid channel. Use 'sms' or 'email'")) with
  | Done (Some t) =>
      accepted request = true /\
      channel t = request_channel request /\
      PrimFloat.leb 0 (amount t) = true /\ currency t = "INR"
  | _ => accepted request = false
  end.
Proof.
  unfold accepted.
  destruct (String.eqb (request_channel request) "sms") eqn:Es.
  - apply String.eqb_eq in Es.
    pose proof (proj2 (proj2 (proj2 sms_decided)) now (request_message request)) as H.
    destruct (outcome_of amount_group (request_message request)).
    + rewrite H. reflexivity.
    + destruct H as [t Ht]. rewrite Ht. cbn [call].
      destruct (sms_fact_fields _ _ Ht) as (Ha & Hc & Hch & _).
      repeat split; congruence.
    + rewrite H. reflexivity.
  - destruct (String.eqb (request_channel request) "email") eqn:Ee; [| reflexivity].
    apply String.eqb_eq in Ee.
    pose proof (proj2 (proj2 (proj2 email_decided)) now (request_message request)) as H.
    destruct (outcome_of email_amount_group (request_message request)).
    + rewrite H. reflexivity.
    + destruct H as [t Ht]. rewrite Ht. cbn [call].
      destruct (email_fact_fields _ _ Ht) as (Ha & Hc & Hch & _).
      repeat split; congruence.
    + rewrite H. reflexivity.
Qed.

Section Stores.
Variable database : Type.
Variable upsert : database -> transaction_data -> database * option string.
Variable add : database -> string -> string -> float -> string -> database * option string.

Lemma store_goal_impacts_works id :
  (forall db id goal score text, snd (add db id goal score text) <> None) ->
  forall impacts db, exists db', store_goal_impacts add db id impacts = (db', Done tt).
Proof.
  intros Hadd. induction impacts as [| i rest IH]; intro db; cbn [store_goal_impacts].
  - eauto.
  - pose proof (Hadd db id (impact_goal_id i) (impact_score i) (message i)) as H.
    destruct (add db id (impact_goal_id i) (impact_score i) (message i)) as [db1 [r|]];
      [apply IH | contradiction H; reflexivity].
Qed.

Lemma services_answer later t :
  exists c impacts,
    classify_transaction transaction_classifier t = Ok c /\
    calculate_transaction_impact goal_calculator later t c = Ok impacts.
Proof.
  unfold transaction_classifier. rewrite classify_is_decision_list.
  eexists.
  destruct (@impacts_of_clock later later t
              {| category := fst (first_match_wins decision_list t);
                 Classifier.confidence := snd (first_match_wins decision_list t);
                 subcategories := _generate_subcategories t (fst (first_match_wins decision_list t));
                 features_used := feature_names |} _ demo_targets_nonzero)
    as (l & _ & Hl & _).
  exists l. split; [reflexivity | exact Hl].
Qed.

Lemma store_transaction_works later db user ft :
  never_fails upsert add ->
  exists db', store_transaction upsert add later db user ft = (db', Done tt).
Proof.
  intros [Hup Hadd]. unfold store_transaction.
  destruct (services_answer later (parsed ft)) as (c & impacts & Hc & Hi).
  rewrite Hc. cbn [call]. rewrite Hi. cbn [call].
  match goal with |- context [upsert db ?d] =>
    pose proof (Hup db d) as H; destruct (upsert db d) as [db1 [id|]] end;
    [| contradiction H; reflexivity].
  apply store_goal_impacts_works. exact Hadd.
Qed.

Lemma store_transactions_count later user : forall transactions db k n,
  exists db' m,
    store_transactions upsert add later db user k transactions n = (db', m) /\
    (n <= m <= n + List.length transactions)%nat /\
    (never_fails upsert add -> m = (n + List.length transactions)%nat).
Proof.
  induction transactions as [| ft rest IH]; intros db k n; cbn [store_transactions List.length].
  - exists db, n. split; [reflexivity|]. split; lia.
  - destruct (store_transaction upsert add (later k) db user ft) as [db1 [u|e]] eqn:E.
    + destruct (IH db1 (S k) (S n)) as (db' & m & Hs & Hb & Hw).
      exists db', m. split; [exact Hs|]. split; [lia|].
      intro W. rewrite (Hw W). lia.
    + destruct (IH db1 (S k) n) as (db' & m & Hs & Hb & Hw).
      exists db', m. split; [exact Hs|]. split; [lia|].
      intro W. destruct (@store_transaction_works (later k) db user ft W) as [db2 H2].
      rewrite H2 in E. discriminate E.
Qed.

Lemma bulk_outcome path_exists read_lines now later db request :
  match bulk_input path_exists read_lines request with
  | Some (group, lines) =>
      if existsb (raising_line group) lines
      then process_bulk_messages upsert add path_exists read_lines now later db request
           = (db, internal_error)
      else exists db' n,
          process_bulk_messages upsert add path_exists read_lines now later db request
          = (db', Returns {| status := "completed";
                             processed_count := n;
                             total_transactions := List.length (fact_lines group 1 lines);
                             file_processed := "data/" ++ file_type request ++ ".txt" |}) /\
          (n <= List.length (fact_lines group 1 lines))%nat /\
          (never_fails upsert add -> n = List.length (fact_lines group 1 lines))
  | None =>
      process_bulk_messages upsert add path_exists read_lines now later db request
      = (db, internal_error)
  end.
Proof.
  unfold bulk_input, process_bulk_messages, process_bulk_messages_body.
  destruct (path_exists ("data/" ++ file_type request ++ ".txt")); cbn [negb];
    [| reflexivity].
  assert (Hfile : forall group parse lines,
            decided_by group parse ->
            if existsb (raising_line group) lines
            then (let (db', r) :=
                    match call (parse_lines parse now 1 lines []) with
                    | Raised e => (db, Raised e)
                    | Done transactions =>
                        let (db', processed_count) :=
                          store_transactions upsert add later db (bulk_user_id request) 0
                                             transactions 0 in
                        (db',
                         Done {| status := "completed";
                                 processed_count := processed_count;
                                 total_transactions := List.length transactions;
                                 file_processed := "data/" ++ file_type request ++ ".txt" |})
                    end in (db', except_exception r))
                 = (db, internal_error)
            else exists db' n,
                (let (db', r) :=
                    match call (parse_lines parse now 1 lines []) with
                    | Raised e => (db, Raised e)
                    | Done transactions =>
                        let (db', processed_count) :=
                          store_transactions upsert add later db (bulk_user_id request) 0
                                             transactions 0 in
                        (db',
                         Done {| status := "completed";
                                 processed_count := processed_count;
                                 total_transactions := List.length transactions;
                                 file_processed := "data/" ++ file_type request ++ ".txt" |})
                    end in (db', except_exception r))
                = (db', Returns {| status := "completed";
                                   processed_count := n;
                                   total_transactions := List.length (fact_lines group 1 lines);
                                   file_processed := "data/" ++ file_type request ++ ".txt" |}) /\
                (n <= List.length (fact_lines group 1 lines))%nat /\
                (never_fails upsert add -> n = List.length (fact_lines group 1 lines))).
  { intros group parse lines Hd.
    pose proof (@parse_lines_outcome group parse now Hd lines 1%nat []) as H.
    destruct (existsb (raising_line group) lines).
    - rewrite H. reflexivity.
    - destruct H as (l & Hl & Hm & _). rewrite Hl. cbn [call app].
      destruct (store_transactions_count later (bulk_user_id request) l db 0 0)
        as (db' & m & Hs & Hb & Hw).
      rewrite Hs. exists db', m. cbn [except_exception].
      rewrite <- Hm, length_map. split; [reflexivity|]. split; [lia|].
      intro W. rewrite (Hw W). reflexivity. }
  destruct (String.eqb (file_type request) "sms").
  - destruct (read_lines ("data/" ++ file_type request ++ ".txt")) as [lines|];
      cbn [option_map]; [| reflexivity].
    exact (Hfile amount_group SMSParser.parse_message lines sms_decided).
  - destruct (String.eqb (file_type request) "email"); [| reflexivity].
    destruct (read_lines ("data/" ++ file_type request ++ ".txt")) as [lines|];
      cbn [option_map]; [| reflexivity].
    exact (Hfile email_amount_group EmailParser.parse_message lines email_decided).
Qed.

Lemma accepted_fact now request :
  accepted request = true ->
  exists t,
    (if String.eqb (request_channel request) "sms"
     then call (SMSParser.parse_message now (request_message request))
     else if String.eqb (request_channel request) "email"
     then call (EmailParser.parse_message now (request_message request))
     else Raised (HTTPError 400 "Invalid channel. Use 'sms' or 'email'")) = Done (Some t) /\
    raw_message t = strip (request_message request).
Proof.
  unfold accepted.
  destruct (String.eqb (request_channel request) "sms").
  - pose proof (proj2 (proj2 (proj2 sms_decided)) now (request_message request)) as H.
    destruct (outcome_of amount_group (request_message request)); try discriminate.
    destruct H as [t Ht]. intros _. exists t. rewrite Ht. split; [reflexivity|].
    apply (sms_fact_fields _ _ Ht).
  - destruct (String.eqb (request_channel request) "email"); [| discriminate].
    pose proof (proj2 (proj2 (proj2 email_decided)) now (request_message request)) as H.
    destruct (outcome_of email_amount_group (request_message request)); try discriminate.
    destruct H as [t Ht]. intros _. exists t. rewrite Ht. split; [reflexivity|].
    apply (email_fact_fields _ _ Ht).
Qed.

Lemma single_accepts now later db request :
  accepted request = true ->
  never_fails upsert add ->
  exists data db1 db' body,
    process_single_message upsert add now later db request = (db', Returns body) /\
    upsert db data = (db1, Some (transaction_id body)) /\
    data_userid data = user_id request /\
    data_raw_message data = strip (request_message request) /\
    data_amount data = processed_amount body /\
    data_category data = processed_category body.
Proof.
  intros Hacc [Hup Hadd]. unfold process_single_message, process_single_message_body.
  destruct (accepted_fact now request Hacc) as (t & Ht & Hraw). rewrite Ht.
  destruct (services_answer later t) as (c & impacts & Hc & Hi).
  rewrite Hc. cbn [call]. rewrite Hi. cbn [call].
  match goal with |- context [upsert db ?d] =>
    pose proof (Hup db d) as H; destruct (upsert db d) as [db1 [id|]] eqn:E;
      [| contradiction H; reflexivity]; exists d, db1 end.
  destruct (@store_goal_impacts_works id Hadd impacts db1) as [db2 H2].
  rewrite H2. cbn [except_exception]. eexists. eexists.
  split; [reflexivity|]. cbn [transaction_id data_userid data_raw_message data_amount
    data_category processed_amount processed_category].
  rewrite E. auto.
Qed.

End Stores.

(** ** Extraction *)

(** X1.  Extraction, case by case.  When a declared pattern matches (the first in
    declared order: those before it do not match), the amount group is
    present and the outcome is decided by [float] on it without its commas:
    a fact with that amount, the pattern's confidence and kind and the
    stripped text, or [ValueError].  When none matches and the fallback
    pattern does, likewise: the fallback fact (kind other, confidence 0.3,
    merchant, account and reference unset, fallback tag), or [ValueError].
    Otherwise nothing.  No other exception is ever raised. *)
Theorem parse_message_cases now text :
  match SMSParser.first_match SMSParser.patterns (strip text) with
  | Some (m, p) =>
      (exists pre post,
          SMSParser.patterns = (pre ++ p :: post)%list /\
          Forall (fun q => search true (p_regex q) (strip text) = None) pre /\
          search true (p_regex p) (strip text) = Some m) /\
      exists g,
        nth_error (groups m) 0 = Some (Some g) /\
        match py_float (remove_char "," g) with
        | Ok a =>
            exists t,
              SMSParser.parse_message now text = Ok (Some t) /\
              amount t = a /\
              Parsers.confidence t = p_confidence p /\
              transaction_type t = p_type p /\
              raw_message t = strip text
        | Raise _ => SMSParser.parse_message now text = Raise ValueError
        end
  | None =>
      match search false SMSParser.fallback_re (strip text) with
      | Some m =>
          exists g,
            groups m = [Some g] /\
            match py_float (remove_char "," g) with
            | Ok a =>
                SMSParser.parse_message now text
                = Ok (Some (fallback_fact now a (strip text)))
            | Raise _ => SMSParser.parse_message now text = Raise ValueError
            end
      | None => SMSParser.parse_message now text = Ok None
      end
  end.
Proof. exact (parse_message_outcomes now text). Qed.

(** X5.  Extraction raises exactly on amounts without a digit.  Take the
    amount group of the pattern that decides the text (the first declared
    pattern that matches, else the fallback pattern).  If it has a digit,
    extraction returns a fact; if it has none (commas only, possibly followed
    by a dot), extraction raises [ValueError]; if no pattern matches at all,
    extraction returns nothing. *)
Theorem extract_raises_iff_no_digit now text :
  match amount_group text with
  | Some g =>
      if has_digit g
      then exists t, SMSParser.parse_message now text = Ok (Some t)
      else SMSParser.parse_message now text = Raise ValueError
  | None => SMSParser.parse_message now text = Ok None
  end.
Proof. exact (extract_by_digit now text). Qed.

(** C3 (as amended).  From the Amazon card message the SMS parser extracts,
    whatever the clock reads, the fact with amount 1249.0, kind debit,
    merchant AMAZON and confidence 0.95; every constructed classifier puts it
    in category shopping with confidence 0.9, hence at least 0.8, and its
    subcategory list is exactly [online_marketplace].  The tag
    [high_value_purchase] is absent whenever the amount does not exceed 2000. *)
Theorem amazon_extract_and_classify :
  (forall now, SMSParser.parse_message now amazon_text = Ok (Some amazon_fact)) /\
  amount amazon_fact = 1249.0%float /\
  transaction_type amazon_fact = "debit" /\
  merchant amazon_fact = Some "AMAZON" /\
  Parsers.confidence amazon_fact = 0.95%float /\
  (forall path, exists r,
      classify_transaction (TransactionClassifier_init path) amazon_fact = Ok r /\
      category r = "shopping" /\
      Classifier.confidence r = 0.9%float /\
      PrimFloat.leb 0.8 (Classifier.confidence r) = true /\
      subcategories r = ["online_marketplace"]) /\
  (forall t cat,
      gt (amount t) 2000 = false ->
      ~ In "high_value_purchase" (_generate_subcategories t cat)).
Proof.
  split; [exact parse_amazon|].
  repeat (split; [reflexivity|]).
  split.
  - intro path. exists amazon_classification.
    split; [apply classify_amazon | repeat split].
  - exact no_high_value_tag.
Qed.

(** The Amazon fact itself: 1249.0 does not exceed 2000, so it carries no
    [high_value_purchase] tag. *)
Lemma amazon_extract_and_classify_witness :
  ~ In "high_value_purchase" (_generate_subcategories amazon_fact "shopping").
Proof.
  destruct amazon_extract_and_classify as (_ & _ & _ & _ & _ & _ & H).
  exact (H amazon_fact "shopping" eq_refl).
Defined.

(** C3, as stated, fails: the amount 1249.0 does not exceed 2000, yet the
    subcategory list of the Amazon fact is not empty. *)
Lemma amazon_subcategories_not_empty :
  exists t r,
    SMSParser.parse_message sept_26 amazon_text = Ok (Some t) /\
    classify_transaction (TransactionClassifier_init None) t = Ok r /\
    gt (amount t) 2000 = false /\
    subcategories r <> [].
Proof.
  exists amazon_fact, amazon_classification.
  split; [apply parse_amazon|].
  split; [apply classify_amazon|].
  split; [reflexivity | discriminate].
Qed.

(** C4 (the code departs from it).  On the text [INR ,] no declared pattern
    matches, the fallback pattern matches with the amount group [,], and
    [float] of the group without its comma raises: [parse_message] raises
    [ValueError] instead of returning nothing. *)
Theorem extract_raises_on_comma_amount :
  forall now,
    SMSParser.first_match SMSParser.patterns (strip bare_no_digits_text) = None /\
    Re.search false SMSParser.fallback_re (strip bare_no_digits_text)
    = Some {| Re.groups := [Some ","] |} /\
    py_float (remove_char "," ",") = Raise ValueError /\
    SMSParser.parse_message now bare_no_digits_text = Raise ValueError.
Proof. intro now. repeat split; vm_compute; reflexivity. Qed.

(** C5 (the code departs from it).  The reminder whose amount is a lone comma
    is matched by the fourth declared pattern, and yet no fact with that
    pattern's confidence comes back: [parse_message] raises [ValueError].
    Likewise the text [INR ,] matches no declared pattern and holds a
    currency-amount token (the fallback pattern matches it), and yet no
    fallback fact comes back. *)
Theorem matched_pattern_without_fact :
  forall now,
    (SMSParser.first_match SMSParser.patterns (strip reminder_no_digits_text)
     = Some ({| Re.groups := [Some ","; Some "30-09-2025"; Some "HDFC"; Some "XX1234"] |},
             SMSParser.bill_payment_reminder) /\
     SMSParser.parse_message now reminder_no_digits_text = Raise ValueError) /\
    (SMSParser.first_match SMSParser.patterns (strip bare_no_digits_text) = None /\
     Re.search false SMSParser.fallback_re (strip bare_no_digits_text) <> None /\
     SMSParser.parse_message now bare_no_digits_text = Raise ValueError).
Proof.
  intro now. split; [split; vm_compute; reflexivity|].
  split; [vm_compute; reflexivity|].
  split; [vm_compute; discriminate | vm_compute; reflexivity].
Qed.

(** ** Classification *)

(** C6.  The rule-based predictor is the ordered decision list with
    first-match-wins semantics: on the features of any fact it returns the
    first branch that fires; the branches are, in order, shopping 0.9,
    utilities 0.95, entertainment 0.9, bills 0.85, transfer 0.8, fee 0.75,
    cashback 0.9 and other 0.3.  On the fact extracted from the Netflix UPI
    message both the entertainment rule and the transfer rule fire, and the
    earlier one decides: category entertainment, confidence 0.9 >= 0.8. *)
Theorem rule_based_predict_decision_list :
  (forall path path' t,
      predict (TFLiteInterface_init path)
              (_extract_features (TransactionClassifier_init path') t)
      = Ok (first_match_wins decision_list t)) /\
  branches
  = [("shopping", 0.9); ("utilities", 0.95); ("entertainment", 0.9); ("bills", 0.85);
     ("transfer", 0.8); ("fee", 0.75); ("cashback", 0.9); ("other", 0.3)]%float /\
  (forall now, SMSParser.parse_message now netflix_text = Ok (Some netflix_fact)) /\
  map (fun r => fires r netflix_fact) decision_list
  = [false; false; true; false; true; false; false] /\
  (forall path, exists r,
      classify_transaction (TransactionClassifier_init path) netflix_fact = Ok r /\
      category r = "entertainment" /\
      Classifier.confidence r = 0.9%float /\
      PrimFloat.leb 0.8 (Classifier.confidence r) = true).
Proof.
  split.
  { intros path path' t. rewrite predict_init. apply rule_based_is_decision_list. }
  split; [reflexivity|].
  split; [exact parse_netflix|].
  split; [vm_compute; reflexivity|].
  intro path. exists netflix_classification.
  split; [apply classify_netflix | repeat split].
Qed.

(** C9.  [classify] is total and has no hidden state: for every model path
    and every fact, the constructed classifier returns a result and never
    raises; classifying the same fact twice yields the same result twice; the
    result is one of the eight branches, so its confidence is at least 0.3,
    and it is [other] with 0.3 when no rule fires; the features consulted are
    the fixed list; and a classifier built for any other model path returns
    the very same result. *)
Theorem classify_total_idempotent :
  forall path t, exists r,
    classify_transaction (TransactionClassifier_init path) t = Ok r /\
    classify_twice (TransactionClassifier_init path) t = Ok (r, r) /\
    In (category r, Classifier.confidence r) branches /\
    PrimFloat.leb 0.3 (Classifier.confidence r) = true /\
    (Forall (fun rl => fires rl t = false) decision_list ->
     category r = "other" /\ Classifier.confidence r = 0.3%float) /\
    subcategories r = _generate_subcategories t (category r) /\
    features_used r = feature_names /\
    (forall path', classify_transaction (TransactionClassifier_init path') t = Ok r).
Proof.
  intros path t. eexists.
  split; [apply classify_is_decision_list|].
  split; [unfold classify_twice; rewrite classify_is_decision_list; reflexivity|].
  cbn [category Classifier.confidence subcategories features_used].
  destruct (first_match_wins_branch t) as [Hin Hle].
  split; [rewrite <- surjective_pairing; exact Hin|].
  split; [exact Hle|].
  split; [intro H; rewrite (@first_match_wins_default decision_list t H); split; reflexivity|].
  repeat split. intro path'. apply classify_is_decision_list.
Qed.

(** A fallback fact on which no rule fires is classified other with 0.3. *)
Lemma classify_total_idempotent_witness :
  exists r,
    classify_transaction (TransactionClassifier_init None) (fund_fact sept_20) = Ok r /\
    category r = "other" /\ Classifier.confidence r = 0.3%float.
Proof.
  destruct (classify_total_idempotent None (fund_fact sept_20))
    as (r & H & _ & _ & _ & Hd & _).
  exists r. split; [exact H|]. apply Hd. repeat constructor.
Defined.

(** ** Goal impact *)




(** C2 (the code departs from it).  For the bill reminder of INR 12,450 the
    pipeline returns, whatever the clock reads, one impact, on the
    credit-card-bill goal, whose score is -0.9 and whose new progress is
    -1.0, below the documented range 0.0 to 1.0. *)
Theorem reminder_progress_below_zero :
  forall now, exists i,
    SMSParser.parse_message now reminder_text = Ok (Some (reminder_fact now)) /\
    classify_transaction (TransactionClassifier_init None) (reminder_fact now)
    = Ok reminder_classification /\
    calculate_transaction_impact GoalImpactCalculator_init now
                                 (reminder_fact now) reminder_classification
    = Ok [i] /\
    impact_goal_id i = "cc-bill" /\
    impact_score i = (-0.9)%float /\
    new_progress i = (-1.0)%float /\
    PrimFloat.ltb (new_progress i) 0 = true.
Proof.
  intro now. eexists.
  split; [apply parse_reminder|].
  split; [apply classify_reminder|].
  split.
  - unfold calculate_transaction_impact.
    cbn [demo_goals GoalImpactCalculator_init _initialize_demo_goals impacts_of].
    cbn [is_active demo_savings cc_bill monthly_budget negb].
    unfold _calculate_single_goal_impact.
    replace (_is_transaction_relevant (reminder_fact now) reminder_classification demo_savings)
      with false by reflexivity.
    replace (_is_transaction_relevant (reminder_fact now) reminder_classification cc_bill)
      with true by reflexivity.
    replace (_is_transaction_relevant (reminder_fact now) reminder_classification monthly_budget)
      with false by reflexivity.
    cbn [negb bind goal_type cc_bill].
    unfold _calculate_bill_impact.
    replace (contains "reminder" (lower (raw_message (reminder_fact now))))
      with true by reflexivity.
    cbn [bind truediv]. reflexivity.
  - cbn [impact_goal_id impact_score new_progress]. repeat split.
Qed.

(** X3.  Absence, not a zero-valued record.  A goal to which the transaction
    is not relevant, and a goal whose type is budget or investment, yields no
    impact, and the registry loop returns what it returns without that goal.
    An inactive goal, relevant or not, is skipped by the registry loop. *)
Theorem no_record_for_irrelevant_goal now t c g :
  (_is_transaction_relevant t c g = false \/
   goal_type g = BUDGET \/ goal_type g = INVESTMENT ->
   _calculate_single_goal_impact now t c g = Ok None /\
   forall k rest, impacts_of now t c ((k, g) :: rest) = impacts_of now t c rest) /\
  (is_active g = false ->
   forall k rest, impacts_of now t c ((k, g) :: rest) = impacts_of now t c rest).
Proof.
  split.
  - intro H.
    assert (Hnone : _calculate_single_goal_impact now t c g = Ok None).
    { unfold _calculate_single_goal_impact.
      destruct H as [H | [H | H]]; rewrite H; [reflexivity | |];
        destruct (_is_transaction_relevant t c g); reflexivity. }
    split; [exact Hnone|].
    intros k rest. cbn [impacts_of]. rewrite Hnone. cbn [bind].
    destruct (is_active g); cbn [negb]; [| reflexivity].
    destruct (impacts_of now t c rest); reflexivity.
  - intros Ha k rest. cbn [impacts_of]. rewrite Ha. reflexivity.
Qed.

(** The Netflix debit, classified entertainment, against the demo savings
    goal (which tracks credit, cashback and investment); and the bill
    reminder against a registry whose only goal is the credit-card bill
    goal, switched off. *)
Lemma no_record_for_irrelevant_goal_witness :
  _calculate_single_goal_impact sept_26 netflix_fact netflix_classification demo_savings
  = Ok None /\
  _is_transaction_relevant (reminder_fact sept_26) reminder_classification paused_bill
  = true /\
  impacts_of sept_26 (reminder_fact sept_26) reminder_classification
             [("cc-bill", paused_bill)] = Ok [].
Proof.
  split; [| split; [reflexivity|]].
  - exact (proj1 (proj1 (@no_record_for_irrelevant_goal
                           sept_26 netflix_fact netflix_classification demo_savings)
                        (or_introl eq_refl))).
  - exact (proj2 (@no_record_for_irrelevant_goal
                    sept_26 (reminder_fact sept_26) reminder_classification paused_bill)
                 eq_refl "cc-bill" []).
Defined.

(** X4.  Savings scoring.  For a savings goal with a non-zero target to which the
    transaction is relevant, a credit has impact amount +amount and score
    min(0.8, amount/5000); a debit has impact amount -amount and score
    -min(0.6, amount/5000); in both cases the new progress is
    (current + impact amount) / target clamped to [0, 1] by min and max, the
    goal is achieved exactly when that progress is >= 1.0, and it is at risk
    exactly when it has a deadline fewer than 30 whole days away and the
    progress is below 0.5. *)
Theorem savings_impact now t c g :
  goal_type g = SAVINGS ->
  _is_transaction_relevant t c g = true ->
  PrimFloat.eqb (target_amount g) 0 = false ->
  forall sign,
    (sign = true /\ transaction_type t = "credit") \/
    (sign = false /\ transaction_type t = "debit") ->
    exists i,
      _calculate_single_goal_impact now t c g = Ok (Some i) /\
      impact_amount i = (if sign then amount t else - amount t)%float /\
      impact_score i = (if sign then min 0.8 (amount t / 5000)
                        else - min 0.6 (amount t / 5000))%float /\
      new_progress i = clamped_progress g (if sign then amount t else - amount t)%float /\
      is_goal_achieved i
      = ge (clamped_progress g (if sign then amount t else - amount t)%float) 1.0 /\
      is_goal_at_risk i
      = match deadline g with
        | None => None
        | Some d =>
            Some ((days_between d now <? 30)%Z
                  && PrimFloat.ltb
                       (clamped_progress g (if sign then amount t else - amount t)%float)
                       0.5)
        end.
Proof.
  intros Hty Hrel Hz sign H.
  unfold _calculate_single_goal_impact, _calculate_savings_impact.
  rewrite Hrel, Hty. cbn [negb].
  destruct H as [[-> Hk] | [-> Hk]]; rewrite Hk;
    cbn [String.eqb Ascii.eqb Bool.eqb];
    rewrite (truediv_ok _ Hz); cbn [bind];
    eexists; (split; [reflexivity |]);
    cbn [impact_amount impact_score new_progress is_goal_achieved is_goal_at_risk];
    unfold clamped_progress; repeat split.
Qed.

(** The NEFT credit of 4999.0 against the demo savings goal (15000 of 50000),
    ten days before the end of September. *)
Lemma savings_impact_witness :
  exists i,
    _calculate_single_goal_impact sept_20 neft_fact neft_classification demo_savings
    = Ok (Some i) /\
    impact_amount i = 4999.0%float /\
    impact_score i = 0.8%float /\
    new_progress i = 0.39998%float /\
    is_goal_achieved i = false /\
    is_goal_at_risk i = Some false.
Proof.
  exact (@savings_impact sept_20 neft_fact neft_classification demo_savings
           eq_refl eq_refl eq_refl true (or_introl (conj eq_refl eq_refl))).
Defined.

(** C7.  For a spending-limit goal with a non-zero target to which the
    transaction is relevant: a transaction that is not a debit yields no
    impact; a debit yields an impact whose amount is the transaction amount,
    whose score is -1.0 when the spent ratio exceeds 1.0, else -0.7 when it
    exceeds 0.8, else -0.3, whose new progress is min(1, spent ratio), which
    is never marked achieved, and whose at-risk flag is exactly
    spent ratio > 0.9. *)
Theorem spending_limit_impact now t c g :
  goal_type g = SPENDING_LIMIT ->
  _is_transaction_relevant t c g = true ->
  PrimFloat.eqb (target_amount g) 0 = false ->
  (transaction_type t <> "debit" ->
   _calculate_single_goal_impact now t c g = Ok None) /\
  (transaction_type t = "debit" ->
   exists i,
     _calculate_single_goal_impact now t c g = Ok (Some i) /\
     impact_amount i = amount t /\
     impact_score i =
       (if gt (spent_ratio t g) 1.0 then (-1.0)%float
        else if gt (spent_ratio t g) 0.8 then (-0.7)%float else (-0.3)%float) /\
     new_progress i = min 1.0 (spent_ratio t g) /\
     is_goal_achieved i = false /\
     is_goal_at_risk i = Some (gt (spent_ratio t g) 0.9)).
Proof.
  intros Hty Hrel Hz.
  unfold _calculate_single_goal_impact, _calculate_budget_impact.
  rewrite Hrel, Hty. cbn [negb].
  split; intro Hk.
  - apply String.eqb_neq in Hk. rewrite Hk. reflexivity.
  - rewrite Hk. cbn [String.eqb Ascii.eqb Bool.eqb negb].
    rewrite (truediv_ok _ Hz). cbn [bind]. fold (spent_ratio t g).
    destruct (gt (spent_ratio t g) 1.0); [| destruct (gt (spent_ratio t g) 0.8)];
      eexists; (split; [reflexivity |]);
      cbn [impact_amount impact_score new_progress is_goal_achieved is_goal_at_risk];
      repeat split.
Qed.

(** The Amazon debit of 1249.0 against the demo monthly budget (8000 spent of
    25000): spent ratio 0.36996, so the score is -0.3 and the goal is not at
    risk. *)
Lemma spending_limit_impact_witness :
  exists i,
    _calculate_single_goal_impact sept_26 amazon_fact amazon_classification monthly_budget
    = Ok (Some i) /\
    impact_amount i = 1249.0%float /\
    impact_score i = (-0.3)%float /\
    new_progress i = 0.36996%float /\
    is_goal_achieved i = false /\
    is_goal_at_risk i = Some false.
Proof.
  exact (proj2 (@spending_limit_impact sept_26 amazon_fact amazon_classification
                  monthly_budget eq_refl eq_refl eq_refl) eq_refl).
Defined.

(** C8.  For a bill-payment goal with a non-zero target to which the
    transaction is relevant: when the raw text contains "reminder" (in any
    case) the impact has score -0.9 and impact amount +amount, whatever the
    amount and the kind; otherwise a credit against the goal [cc-bill] has
    score +0.8 and impact amount -amount. *)
Theorem bill_payment_impact now t c g :
  goal_type g = BILL_PAYMENT ->
  _is_transaction_relevant t c g = true ->
  PrimFloat.eqb (target_amount g) 0 = false ->
  (contains "reminder" (lower (raw_message t)) = true ->
   exists i,
     _calculate_single_goal_impact now t c g = Ok (Some i) /\
     impact_score i = (-0.9)%float /\ impact_amount i = amount t) /\
  (contains "reminder" (lower (raw_message t)) = false ->
   transaction_type t = "credit" -> goal_id g = "cc-bill" ->
   exists i,
     _calculate_single_goal_impact now t c g = Ok (Some i) /\
     impact_score i = 0.8%float /\ impact_amount i = (- amount t)%float).
Proof.
  intros Hty Hrel Hz.
  unfold _calculate_single_goal_impact, _calculate_bill_impact.
  rewrite Hrel, Hty. cbn [negb].
  split.
  - intro Hr. rewrite Hr. rewrite (truediv_ok _ Hz). cbn [bind].
    eexists. split; [reflexivity | cbn [impact_score impact_amount]; split; reflexivity].
  - intros Hr Hk Hid. rewrite Hr, Hk, Hid.
    cbn [String.eqb Ascii.eqb Bool.eqb andb].
    rewrite (truediv_ok _ Hz). cbn [bind].
    eexists. split; [reflexivity | cbn [impact_score impact_amount]; split; reflexivity].
Qed.

(** The reminder of INR 12,450 and the NEFT credit of INR 4,999, each against
    the demo credit-card-bill goal. *)
Lemma bill_payment_impact_witness :
  (exists i,
      _calculate_single_goal_impact sept_26 (reminder_fact sept_26)
                                    reminder_classification cc_bill = Ok (Some i) /\
      impact_score i = (-0.9)%float /\ impact_amount i = 12450.0%float) /\
  (exists i,
      _calculate_single_goal_impact sept_26 neft_fact neft_classification cc_bill
      = Ok (Some i) /\
      impact_score i = 0.8%float /\ impact_amount i = (-4999.0)%float).
Proof.
  split.
  - exact (proj1 (@bill_payment_impact sept_26 (reminder_fact sept_26)
                    reminder_classification cc_bill eq_refl eq_refl eq_refl) eq_refl).
  - exact (proj2 (@bill_payment_impact sept_26 neft_fact neft_classification
                    cc_bill eq_refl eq_refl eq_refl) eq_refl eq_refl eq_refl).
Defined.




(** ** What every extracted fact satisfies *)

(** X6.  Every fact the SMS parser returns has an amount that is a number and
    not negative (zero or more, possibly infinite, never NaN), currency INR,
    channel sms, one of the four declared confidences, and as raw message the
    stripped text, which stripping again leaves unchanged. *)
Theorem sms_fact_invariants now text t :
  SMSParser.parse_message now text = Ok (Some t) ->
  PrimFloat.leb 0 (amount t) = true /\
  currency t = "INR" /\
  channel t = "sms" /\
  raw_message t = strip text /\
  strip (raw_message t) = raw_message t /\
  In (Parsers.confidence t) [0.95; 0.90; 0.85; 0.3]%float.
Proof.
  intro H. destruct (@sms_fact_fields now text t H) as (Ha & Hc & Hch & Hraw & Hconf).
  repeat split; try assumption. rewrite Hraw. apply strip_idempotent.
Qed.

(** The Amazon card message. *)
Lemma sms_fact_invariants_witness :
  PrimFloat.leb 0 (amount amazon_fact) = true /\
  strip (raw_message amazon_fact) = raw_message amazon_fact.
Proof.
  destruct (@sms_fact_invariants sept_20 amazon_text amazon_fact (parse_amazon sept_20))
    as (Ha & _ & _ & _ & Hs & _).
  exact (conj Ha Hs).
Defined.

(** X20.  The email parser, case by case.  Take the amount group of the first
    email pattern that matches the stripped text.  If it has a digit, the
    parser returns a fact whose amount is [float] of the group without its
    commas, not negative, with the clock reading as timestamp, no account,
    channel email and the stripped text as raw message; if it has none, the
    parser raises [ValueError]; if no email pattern matches, the parser
    returns nothing: there is no generic fallback for emails. *)
Theorem email_parse_cases now text :
  match email_amount_group text with
  | Some g =>
      if has_digit g
      then exists t a,
          EmailParser.parse_message now text = Ok (Some t) /\
          py_float (remove_char "," g) = Ok a /\
          amount t = a /\
          PrimFloat.leb 0 a = true /\
          timestamp t = now /\
          account_ref t = None /\
          channel t = "email" /\
          raw_message t = strip text
      else EmailParser.parse_message now text = Raise ValueError
  | None => EmailParser.parse_message now text = Ok None
  end.
Proof.
  pose proof (email_by_digit now text) as H.
  destruct (email_amount_group text) as [g|]; [| exact H].
  destruct (has_digit g); [| exact H].
  destruct H as (t & a & Ht & Hf & Ha).
  destruct (@email_fact_fields now text t Ht) as (Hpos & _ & Hch & Hraw & _ & Hts & Hac).
  exists t, a. rewrite Ha in Hpos. repeat split; assumption.
Qed.

(** X21.  The timestamp of a dated SMS.  When the deciding pattern is the card,
    NEFT or UPI pattern, its date group has the form DD-MM-YYYY and its time
    group the form HHMM, all digits, so reading them never fails; the fact's
    timestamp is the moment they denote, with seconds zero, when that is a
    moment of the calendar, and the clock reading otherwise (month 13,
    31-02, hour 24, minute 60, year 0000). *)
Theorem dated_timestamp now text m p t :
  SMSParser.first_match SMSParser.patterns (strip text) = Some (m, p) ->
  In p dated_patterns ->
  SMSParser.parse_message now text = Ok (Some t) ->
  exists date time,
    nth_error (groups m) (date_position p) = Some (Some date) /\
    nth_error (groups m) (time_position p) = Some (Some time) /\
    date_shape date /\ time_shape time /\
    timestamp t = match written_moment date time with Ok d => d | Raise _ => now end.
Proof.
  intros E Hin Ht.
  destruct (sms_pattern_fact _ _ E Ht) as (a & d & Ha & Hd & Et).
  apply first_match_first in E. destruct E as (pre & post & _ & _ & S).
  destruct (dated_content Hin) as (Cd & Ct & Hnum & Ld & Lt & Fd & Ft).
  destruct (@groups_present _ _ _ _ _ S Hnum Ld) as [date Hdate].
  destruct (@groups_present _ _ _ _ _ S Hnum Lt) as [time Htime].
  assert (Sd : date_shape date).
  { apply (@search_group_content true _ date_shape _ _ _ Cd S); [| lia].
    cbn [Nat.sub]. rewrite Nat.sub_0_r. exact Hdate. }
  assert (St : time_shape time).
  { apply (@search_group_content true _ time_shape _ _ _ Ct S); [| lia].
    cbn [Nat.sub]. rewrite Nat.sub_0_r. exact Htime. }
  exists date, time. repeat (split; [assumption|]).
  rewrite (@parse_timestamp_written now _ _ _ _ _ _ Fd Ft Hdate Htime Sd St) in Hd.
  rewrite Et. cbn [timestamp]. congruence.
Qed.

(** The Amazon card message, dated 23-09-2025 1435. *)
Lemma dated_timestamp_witness :
  exists date time,
    date_shape date /\ time_shape time /\
    timestamp amazon_fact
    = match written_moment date time with Ok d => d | Raise _ => sept_20 end.
Proof.
  destruct (SMSParser.first_match SMSParser.patterns (strip amazon_text)) as [[m p]|] eqn:E;
    [| vm_compute in E; discriminate].
  assert (Hp : In p dated_patterns).
  { vm_compute in E. injection E as _ <-. left. reflexivity. }
  destruct (@dated_timestamp sept_20 amazon_text m p amazon_fact E Hp (parse_amazon sept_20))
    as (date & time & _ & _ & Hd & Ht & Hts).
  exists date, time. exact (conj Hd (conj Ht Hts)).
Defined.

(** ** Files *)

(** X18.  Parsing an SMS file.  If some line has an amount group without a
    digit, the whole file is lost: the call raises [ValueError] and returns
    no transaction, whatever the other lines hold.  Otherwise it returns one
    transaction per line that has an amount group, in file order; the line
    numbers recorded count every line from 1, blank and unparsed lines
    included; and each transaction is the fact the parser extracts from the
    line of that number at the clock reading of that line. *)
Theorem parse_sms_file_outcome now lines :
  if existsb (raising_line amount_group) lines
  then parse_sms_file now lines = Raise ValueError
  else exists l,
      parse_sms_file now lines = Ok l /\
      map line_number l = fact_lines amount_group 1 lines /\
      Forall (from_line SMSParser.parse_message now 1 lines) l.
Proof. exact (parse_lines_outcome now sms_decided lines 1 []). Qed.

(** X19.  Parsing an email file: as for SMS files, with the email parser and
    the amount group of the email patterns. *)
Theorem parse_email_file_outcome now lines :
  if existsb (raising_line email_amount_group) lines
  then parse_email_file now lines = Raise ValueError
  else exists l,
      parse_email_file now lines = Ok l /\
      map line_number l = fact_lines email_amount_group 1 lines /\
      Forall (from_line EmailParser.parse_message now 1 lines) l.
Proof. exact (parse_lines_outcome now email_decided lines 1 []). Qed.

(** ** The feature builder and the vocabulary of the classifier *)



(** X22.  The vocabulary of the classifier.  For every model path and every
    fact, the category returned is one of the eight the rules can produce,
    each of them one of the thirteen standard categories the interface
    declares (so food_dining, transportation, healthcare, education and
    investment are declared but never predicted); and the subcategory list is
    one of four lists for shopping, of two for utilities, of two for bills
    (both starting with recurring_payment), and empty for every other
    category. *)
Theorem classification_vocabulary path t :
  exists c,
    classify_transaction (TransactionClassifier_init path) t = Ok c /\
    In (category c) predicted_categories /\
    In (category c) (Classifier.categories (TFLiteInterface_init path)) /\
    In (subcategories c) (subcategory_lists (category c)).
Proof. exact (classification_vocabulary_all path t). Qed.

(** ** Goal impact: ranges *)

(** X7.  The documented ranges of an impact record.  For a fact whose amount is
    a number and not negative, every impact the engine computes for any goal
    has a score between -1 and 1; on a savings goal the new progress lies
    between 0 and 1, and on a spending-limit goal it is at most 1. *)
Theorem goal_impact_bounds now t c g i :
  PrimFloat.leb 0 (amount t) = true ->
  _calculate_single_goal_impact now t c g = Ok (Some i) ->
  within (-1) 1 (impact_score i) /\
  (goal_type g = SAVINGS -> within 0 1 (new_progress i)) /\
  (goal_type g = SPENDING_LIMIT -> PrimFloat.leb (new_progress i) 1 = true).
Proof. exact (@single_impact_bounds now t c g i). Qed.

(** The NEFT credit of 4999.0 against the demo savings goal. *)
Lemma goal_impact_bounds_witness :
  match _calculate_single_goal_impact sept_20 neft_fact neft_classification demo_savings with
  | Ok (Some i) => within (-1) 1 (impact_score i) /\ within 0 1 (new_progress i)
  | _ => False
  end.
Proof.
  destruct (_calculate_single_goal_impact sept_20 neft_fact neft_classification demo_savings)
    as [[i|]|e] eqn:E; [| vm_compute in E; discriminate E ..].
  destruct (@goal_impact_bounds sept_20 neft_fact neft_classification demo_savings i
              eq_refl E) as (Hs & Hp & _).
  exact (conj Hs (Hp eq_refl)).
Defined.

(** ** Goal impact: the demo registry as a whole *)

(** X15.  Every credit is booked twice.  On the demo registry a fact of kind
    credit, whatever its category, yields exactly two impacts, in this order:
    one on the savings goal, with impact amount +amount and score
    min(0.8, amount/5000); and one on the credit-card bill goal, which treats
    the credit as a payment towards the bill (impact amount -amount, score
    0.8) unless the text contains "reminder" (then +amount, score -0.9).  The
    spending budget is never touched. *)
Theorem credits_booked_twice now t c :
  transaction_type t = "credit" ->
  exists s b,
    calculate_transaction_impact GoalImpactCalculator_init now t c = Ok [s; b] /\
    impact_goal_id s = "demo-savings" /\
    impact_amount s = amount t /\
    impact_score s = min 0.8 (amount t / 5000)%float /\
    impact_goal_id b = "cc-bill" /\
    (contains "reminder" (lower (raw_message t)) = true ->
     impact_score b = (-0.9)%float /\ impact_amount b = amount t) /\
    (contains "reminder" (lower (raw_message t)) = false ->
     impact_score b = 0.8%float /\ impact_amount b = (- amount t)%float).
Proof. exact (@credit_impacts now t c). Qed.

(** The NEFT credit of 4999.0. *)
Lemma credits_booked_twice_witness :
  exists s b,
    calculate_transaction_impact GoalImpactCalculator_init sept_20 neft_fact
                                 neft_classification = Ok [s; b] /\
    impact_goal_id s = "demo-savings" /\ impact_goal_id b = "cc-bill" /\
    impact_score b = 0.8%float /\ impact_amount b = (-4999.0)%float.
Proof.
  destruct (@credits_booked_twice sept_20 neft_fact neft_classification eq_refl)
    as (s & b & H & Hs & _ & _ & Hb & _ & Hpay).
  exists s, b. destruct (Hpay eq_refl) as [H1 H2].
  exact (conj H (conj Hs (conj Hb (conj H1 H2)))).
Defined.

(** X16.  Debits on the demo registry.  A fact of kind debit whose category is
    none the savings goal tracks never touches the savings goal; it yields at
    most two impacts: first one on the bill goal, present exactly when the
    fact is relevant to it, and, unless the text contains "reminder",
    zero-valued (score 0, impact amount 0, progress 0, message empty or the
    bare due-date warning); then one on the spending budget, present exactly
    when the category is one the budget tracks, with the amount as impact
    amount and a score of -1, -0.7 or -0.3. *)
Theorem debit_impacts now t c :
  transaction_type t = "debit" ->
  str_in (category c) ["credit"; "cashback"; "investment"] = false ->
  exists bs js,
    calculate_transaction_impact GoalImpactCalculator_init now t c = Ok (bs ++ js)%list /\
    (if _is_transaction_relevant t c cc_bill
     then exists b, bs = [b] /\ impact_goal_id b = "cc-bill" /\
                    (contains "reminder" (lower (raw_message t)) = false ->
                     impact_score b = 0%float /\ impact_amount b = 0%float /\
                     new_progress b = 0%float /\
                     (message b = EmptyString \/ message b = due_suffix))
     else bs = []) /\
    (if str_in (category c) ["shopping"; "utilities"; "entertainment"; "food_dining"]
     then exists j, js = [j] /\ impact_goal_id j = "monthly-budget" /\
                    impact_amount j = amount t /\
                    In (impact_score j) [-1; -0.7; -0.3]%float
     else js = []).
Proof.
  intros Hk Hc.
  destruct (@spending_impacts now t c) as (bs & js & H & Hbs & Hjs);
    try (rewrite Hk; reflexivity); try exact Hc.
  rewrite Hk in Hjs. cbn [String.eqb Ascii.eqb Bool.eqb andb] in Hjs.
  exists bs, js. auto.
Qed.

(** The Amazon card purchase, classified shopping: a zero-valued record on the
    bill goal, then the budget record. *)
Lemma debit_impacts_witness :
  exists b j,
    calculate_transaction_impact GoalImpactCalculator_init sept_20 amazon_fact
                                 amazon_classification = Ok [b; j] /\
    impact_goal_id b = "cc-bill" /\ impact_score b = 0%float /\
    impact_goal_id j = "monthly-budget" /\ impact_amount j = 1249.0%float.
Proof.
  destruct (@debit_impacts sept_20 amazon_fact amazon_classification eq_refl eq_refl)
    as (bs & js & H & Hbs & Hjs).
  replace (_is_transaction_relevant amazon_fact amazon_classification cc_bill)
    with true in Hbs by reflexivity.
  destruct Hbs as (b & -> & Hb & Hz). destruct (Hz eq_refl) as (Hz1 & _).
  cbn [category amazon_classification str_in existsb String.eqb Ascii.eqb Bool.eqb orb] in Hjs.
  destruct Hjs as (j & -> & Hj & Hja & _).
  exists b, j. exact (conj H (conj Hb (conj Hz1 (conj Hj Hja)))).
Defined.

(** ** Goal summary *)

(** X17.  The goal summary.  If the registry holds an active goal whose target
    is zero, the summary raises [ZeroDivisionError] and reports no goal at
    all; the demo registry holds none.  Otherwise the summary has exactly the
    ids of the active goals as keys, each once.  The entry under a key is
    that of an active goal registered under it, for the clock reading taken
    at that goal's position: it repeats the goal's name, type and amounts,
    its progress is current/target capped at 1, its days remaining are the
    whole days from that reading to the goal's deadline (absent without a
    deadline), and its on-track flag is set exactly when the goal has a
    deadline more than 30 whole days after that reading, and then tells
    whether current/target is at least 0.5; without a deadline, or with 30
    days or fewer to go, the flag is absent. *)
Theorem goal_summary_outcome self now :
  (if existsb zero_target (demo_goals self)
   then get_goal_summary self now = Raise ZeroDivisionError
   else exists s,
       get_goal_summary self now = Ok s /\
       (forall k, In k (map fst s) <->
                  exists g, In (k, g) (demo_goals self) /\ is_active g = true) /\
       NoDup (map fst s) /\
       Forall (from_registry (demo_goals self) now) s /\
       Forall summary_entry_ok s) /\
  existsb zero_target (demo_goals GoalImpactCalculator_init) = false.
Proof.
  split; [| reflexivity].
  pose proof (summary_outcome self now) as H.
  destruct (existsb zero_target (demo_goals self)); [exact H|].
  destruct H as (s & Hs & Hk & Hok). exists s.
  destruct (summary_entries _ _ Hs) as [Hnd Hall]. auto.
Qed.

(** ** From text to impacts, pattern by pattern *)

(** X8.  Bill reminders, end to end.  When the reminder pattern decides an SMS
    and extraction returns a fact: the fact is of kind bill, has no merchant,
    and its timestamp is the clock reading (the due date in the text is not
    read, the pattern having no time field); every classifier files it under
    bills with confidence 0.85 and the subcategories recurring_payment and
    payment_reminder; and on the demo registry it yields exactly one impact,
    on the credit-card bill goal.  That impact is scored by the goal engine's
    own test on the text: with "reminder" in the lowered text the score is
    -0.9 and the impact amount the amount; without it the record is
    zero-valued. *)
Theorem reminder_pipeline now text t :
  deciding_pattern text = Some SMSParser.bill_payment_reminder ->
  SMSParser.parse_message now text = Ok (Some t) ->
  timestamp t = now /\ merchant t = None /\ transaction_type t = "bill" /\
  forall path now',
  exists c i,
    classify_transaction (TransactionClassifier_init path) t = Ok c /\
    category c = "bills" /\
    Classifier.confidence c = 0.85%float /\
    subcategories c = ["recurring_payment"; "payment_reminder"] /\
    calculate_transaction_impact GoalImpactCalculator_init now' t c = Ok [i] /\
    impact_goal_id i = "cc-bill" /\
    if contains "reminder" (lower (strip text))
    then impact_score i = (-0.9)%float /\ impact_amount i = amount t
    else impact_score i = 0%float /\ impact_amount i = 0%float /\
         new_progress i = 0%float /\
         (message i = EmptyString \/ message i = due_suffix).
Proof.
  intros Hp Ht.
  destruct (deciding_pattern_search _ Hp) as (m & E & S).
  destruct (sms_pattern_fact _ _ E Ht) as (a & d & Ha & Hd & Et).
  assert (Hdue : contains "due" (lower (raw_message t)) = true).
  { rewrite Et.
    apply (@search_safe_literal _ _ _ " due on " "due" S);
      [cbn; auto 10 | reflexivity | reflexivity]. }
  assert (Hm : merchant t = None) by (rewrite Et; reflexivity).
  assert (Hk : transaction_type t = "bill") by (rewrite Et; reflexivity).
  assert (Hraw : raw_message t = strip text) by (rewrite Et; reflexivity).
  assert (Hts : timestamp t = now) by (rewrite Et; cbn in Hd; cbn; congruence).
  clear Et. repeat split; try assumption.
  intros path now'.
  assert (Hw : first_match_wins decision_list t = ("bills", 0.85%float)).
  { rewrite (rules_no_merchant _ Hm).
    cbn [skipn decision_list first_match_wins fires label rule_confidence].
    unfold kind_lower. rewrite Hk. reflexivity. }
  rewrite (classify_init path _ Hw).
  set (c := {| category := "bills" |}).
  assert (Hrel : _is_transaction_relevant t c cc_bill = true)
    by (rewrite bill_relevance, Hk; reflexivity).
  destruct (bill_record now' _ _ Hrel) as (i & Hi & Hid & Hr & _ & Hzero).
  exists c, i. split; [reflexivity|].
  split; [reflexivity|]. split; [reflexivity|].
  split.
  { unfold c. cbn [subcategories]. unfold _generate_subcategories. rewrite Hdue. reflexivity. }
  rewrite impacts_demo, Hi.
  rewrite (@not_relevant_none now' t c demo_savings)
    by (rewrite savings_relevance, Hk; reflexivity).
  rewrite (@not_relevant_none now' t c monthly_budget)
    by (rewrite budget_relevance, Hk; reflexivity).
  cbn [bind app]. split; [reflexivity|]. split; [exact Hid|].
  rewrite <- Hraw.
  destruct (contains "reminder" (lower (raw_message t))).
  - exact (Hr eq_refl).
  - apply (Hzero eq_refl). rewrite Hk. discriminate.
Qed.

(** The reminder for INR 12,450. *)
Lemma reminder_pipeline_witness :
  timestamp (reminder_fact sept_20) = sept_20 /\
  merchant (reminder_fact sept_20) = None /\
  transaction_type (reminder_fact sept_20) = "bill".
Proof.
  destruct (@reminder_pipeline sept_20 reminder_text (reminder_fact sept_20)
              eq_refl (parse_reminder sept_20)) as (H1 & H2 & H3 & _).
  exact (conj H1 (conj H2 H3)).
Defined.

(** X9.  NEFT credits, end to end.  When the NEFT pattern decides an SMS and
    extraction returns a fact: the fact is of kind credit with an account and
    a reference and no merchant; every classifier files it under transfer
    with confidence 0.8 and no subcategory; and on the demo registry it
    yields exactly two impacts: the savings goal gains the amount (score
    min(0.8, amount/5000)), and the credit-card bill goal books the same
    credit as a payment towards the bill (score 0.8, impact amount -amount)
    unless the text contains "reminder". *)
Theorem neft_pipeline now text t :
  deciding_pattern text = Some SMSParser.neft_credit ->
  SMSParser.parse_message now text = Ok (Some t) ->
  transaction_type t = "credit" /\ merchant t = None /\
  (exists acct ref, account_ref t = Some acct /\ reference t = Some ref) /\
  forall path now',
  exists c s b,
    classify_transaction (TransactionClassifier_init path) t = Ok c /\
    category c = "transfer" /\
    Classifier.confidence c = 0.8%float /\
    subcategories c = [] /\
    calculate_transaction_impact GoalImpactCalculator_init now' t c = Ok [s; b] /\
    impact_goal_id s = "demo-savings" /\
    impact_amount s = amount t /\
    impact_score s = min 0.8 (amount t / 5000)%float /\
    impact_goal_id b = "cc-bill" /\
    (contains "reminder" (lower (strip text)) = false ->
     impact_score b = 0.8%float /\ impact_amount b = (- amount t)%float).
Proof.
  intros Hp Ht.
  destruct (deciding_pattern_search _ Hp) as (m & E & S).
  destruct (sms_pattern_fact _ _ E Ht) as (a & d & Ha & Hd & Et).
  assert (Hneft : contains "neft" (lower (raw_message t)) = true).
  { rewrite Et.
    apply (@search_safe_literal _ _ _ " via NEFT on " "NEFT" S);
      [cbn; auto 10 | reflexivity | reflexivity]. }
  assert (Hm : merchant t = None) by (rewrite Et; reflexivity).
  assert (Hk : transaction_type t = "credit") by (rewrite Et; reflexivity).
  assert (Hraw : raw_message t = strip text) by (rewrite Et; reflexivity).
  destruct (@groups_present _ _ _ _ 1 S eq_refl) as [acct Hacct]; [cbn; lia|].
  destruct (@groups_present _ _ _ _ 5 S eq_refl) as [ref Href]; [cbn; lia|].
  assert (Ha1 : account_ref t = Some acct).
  { rewrite Et. field_eval. rewrite Hacct. reflexivity. }
  assert (Hr1 : reference t = Some ref).
  { rewrite Et. field_eval. rewrite Href. reflexivity. }
  clear Et. split; [exact Hk|]. split; [exact Hm|]. split; [eauto|].
  intros path now'.
  assert (Hw : first_match_wins decision_list t = ("transfer", 0.8%float)).
  { rewrite (rules_no_merchant _ Hm).
    cbn [skipn decision_list first_match_wins fires label rule_confidence].
    unfold kind_lower, raw_lower. rewrite Hk, Hneft, orb_true_r. reflexivity. }
  rewrite (classify_init path _ Hw).
  set (c := {| category := "transfer" |}).
  destruct (@savings_credit_record now' t c Hk) as (s & Hs & Hsid & Hsa & Hss).
  assert (Hrel : _is_transaction_relevant t c cc_bill = true)
    by (rewrite bill_relevance, Hk; reflexivity).
  destruct (bill_record now' _ _ Hrel) as (b & Hb & Hbid & _ & Hpay & _).
  exists c, s, b. split; [reflexivity|].
  split; [reflexivity|]. split; [reflexivity|]. split; [reflexivity|].
  rewrite impacts_demo, Hs, Hb.
  rewrite (@not_relevant_none now' t c monthly_budget)
    by (rewrite budget_relevance, Hk; reflexivity).
  cbn [bind app]. repeat split; try assumption.
  - apply Hpay; [rewrite Hraw; assumption | exact Hk].
  - apply Hpay; [rewrite Hraw; assumption | exact Hk].
Qed.

(** The NEFT credit of INR 4,999.00. *)
Lemma neft_pipeline_witness :
  transaction_type neft_fact = "credit" /\ merchant neft_fact = None.
Proof.
  destruct (@neft_pipeline sept_20 neft_text neft_fact eq_refl (parse_neft sept_20))
    as (H1 & H2 & _).
  exact (conj H1 H2).
Defined.

(** X10.  Card spending, end to end.  When the card pattern decides an SMS and
    extraction returns a fact: the fact is a debit with a merchant and an
    account and no reference; its category is never bills nor cashback; the
    savings goal is never touched; the credit-card bill goal gets a record
    exactly when the lowered text contains "credit card" or "reminder" (the
    goal engine's own test on the text), and unless the text contains
    "reminder" that record is zero-valued: score 0, impact amount 0, progress
    0, message empty or the bare due-date warning; a budget record follows
    exactly when the category is shopping, utilities or entertainment. *)
Theorem card_pipeline now text t :
  deciding_pattern text = Some SMSParser.hdfc_credit_card_spending ->
  SMSParser.parse_message now text = Ok (Some t) ->
  transaction_type t = "debit" /\ reference t = None /\
  (exists shop acct, merchant t = Some shop /\ account_ref t = Some acct) /\
  forall path now',
  exists c bs js,
    classify_transaction (TransactionClassifier_init path) t = Ok c /\
    In (category c) ["shopping"; "utilities"; "entertainment"; "transfer"; "fee"; "other"] /\
    calculate_transaction_impact GoalImpactCalculator_init now' t c = Ok (bs ++ js)%list /\
    (if contains "reminder" (lower (strip text))
        || contains "credit card" (lower (strip text))
     then exists b, bs = [b] /\ impact_goal_id b = "cc-bill" /\
                    (contains "reminder" (lower (strip text)) = false ->
                     impact_score b = 0%float /\ impact_amount b = 0%float /\
                     new_progress b = 0%float /\
                     (message b = EmptyString \/ message b = due_suffix))
     else bs = []) /\
    if str_in (category c) ["shopping"; "utilities"; "entertainment"; "food_dining"]
    then exists j, js = [j] /\ impact_goal_id j = "monthly-budget" /\
                   impact_amount j = amount t /\
                   In (impact_score j) [-1; -0.7; -0.3]%float
    else js = [].
Proof.
  intros Hp Ht.
  destruct (deciding_pattern_search _ Hp) as (m & E & S).
  destruct (sms_pattern_fact _ _ E Ht) as (a & d & Ha & Hd & Et).
  assert (Hk : transaction_type t = "debit") by (rewrite Et; reflexivity).
  assert (Hraw : raw_message t = strip text) by (rewrite Et; reflexivity).
  assert (Href : reference t = None) by (rewrite Et; reflexivity).
  destruct (@groups_present _ _ _ _ 2 S eq_refl) as [acct Hacct]; [cbn; lia|].
  destruct (@groups_present _ _ _ _ 3 S eq_refl) as [shop Hshop]; [cbn; lia|].
  assert (Ha1 : account_ref t = Some acct).
  { rewrite Et. field_eval. rewrite Hacct. reflexivity. }
  assert (Hm1 : merchant t = Some shop).
  { rewrite Et. field_eval. rewrite Hshop. reflexivity. }
  clear Et. split; [exact Hk|]. split; [exact Href|]. split; [eauto|].
  intros path now'.
  pose proof (debit_categories _ Hk) as Hin.
  destruct (first_match_wins decision_list t) as [cat conf] eqn:Hw. cbn [fst] in Hin.
  rewrite (classify_init path _ Hw).
  set (c := {| category := cat |}).
  assert (Hc1 : str_in (category c) ["credit"; "cashback"; "investment"] = false).
  { change (category c) with cat.
    destruct Hin as [<- | [<- | [<- | [<- | [<- | [<- | []]]]]]]; reflexivity. }
  assert (Hc2 : str_in (category c) ["bill"; "credit"] = false).
  { change (category c) with cat.
    destruct Hin as [<- | [<- | [<- | [<- | [<- | [<- | []]]]]]]; reflexivity. }
  destruct (@spending_impacts now' t c) as (bs & js & Himp & Hbs & Hjs);
    try (rewrite Hk; reflexivity); try exact Hc1.
  rewrite bill_relevance, Hc2, Hk, Hraw in Hbs.
  cbn [str_in existsb String.eqb Ascii.eqb Bool.eqb orb] in Hbs.
  rewrite Hk in Hjs. cbn [String.eqb Ascii.eqb Bool.eqb andb] in Hjs.
  exists c, bs, js. split; [reflexivity|]. split; [exact Hin|]. split; [exact Himp|].
  split; [exact Hbs | exact Hjs].
Qed.

(** The Amazon card message. *)
Lemma card_pipeline_witness :
  transaction_type amazon_fact = "debit" /\ reference amazon_fact = None.
Proof.
  destruct (@card_pipeline sept_20 amazon_text amazon_fact eq_refl (parse_amazon sept_20))
    as (H1 & H2 & _).
  exact (conj H1 H2).
Defined.

(** X11.  UPI payments, end to end.  When the UPI pattern decides an SMS and
    extraction returns a fact: the fact is a debit with a merchant and a
    reference and no account; its category is never bills nor cashback, and
    when the lowered text contains "upi" (the classifier's own test on the
    text) it is shopping, utilities or entertainment if the payee carries
    such a keyword and transfer otherwise; the savings goal is never touched;
    the bill goal is touched only if the text contains "reminder" or "credit
    card"; and the budget gets a record exactly when the category is
    shopping, utilities or entertainment. *)
Theorem upi_pipeline now text t :
  deciding_pattern text = Some SMSParser.upi_payment ->
  SMSParser.parse_message now text = Ok (Some t) ->
  transaction_type t = "debit" /\ account_ref t = None /\
  (exists payee ref, merchant t = Some payee /\ reference t = Some ref) /\
  forall path now',
  exists c bs js,
    classify_transaction (TransactionClassifier_init path) t = Ok c /\
    In (category c) ["shopping"; "utilities"; "entertainment"; "transfer"; "fee"; "other"] /\
    (contains "upi" (lower (strip text)) = true ->
     In (category c) ["shopping"; "utilities"; "entertainment"; "transfer"]) /\
    calculate_transaction_impact GoalImpactCalculator_init now' t c = Ok (bs ++ js)%list /\
    (contains "reminder" (lower (strip text)) = false ->
     contains "credit card" (lower (strip text)) = false -> bs = []) /\
    (forall b, In b bs -> impact_goal_id b = "cc-bill") /\
    if str_in (category c) ["shopping"; "utilities"; "entertainment"; "food_dining"]
    then exists j, js = [j] /\ impact_goal_id j = "monthly-budget" /\
                   impact_amount j = amount t /\
                   In (impact_score j) [-1; -0.7; -0.3]%float
    else js = [].
Proof.
  intros Hp Ht.
  destruct (deciding_pattern_search _ Hp) as (m & E & S).
  destruct (sms_pattern_fact _ _ E Ht) as (a & d & Ha & Hd & Et).
  assert (Hk : transaction_type t = "debit") by (rewrite Et; reflexivity).
  assert (Hraw : raw_message t = strip text) by (rewrite Et; reflexivity).
  assert (Hacct : account_ref t = None) by (rewrite Et; reflexivity).
  destruct (@groups_present _ _ _ _ 1 S eq_refl) as [payee Hpayee]; [cbn; lia|].
  destruct (@groups_present _ _ _ _ 2 S eq_refl) as [ref Href]; [cbn; lia|].
  assert (Hm1 : merchant t = Some payee).
  { rewrite Et. field_eval. rewrite Hpayee. reflexivity. }
  assert (Hr1 : reference t = Some ref).
  { rewrite Et. field_eval. rewrite Href. reflexivity. }
  clear Et. split; [exact Hk|]. split; [exact Hacct|]. split; [eauto|].
  intros path now'.
  pose proof (debit_categories _ Hk) as Hin.
  assert (Hupi : contains "upi" (lower (strip text)) = true ->
                 In (fst (first_match_wins decision_list t))
                    ["shopping"; "utilities"; "entertainment"; "transfer"]).
  { intro Hu. apply (@transfer_marker_categories _ Hk). rewrite Hraw. exact Hu. }
  destruct (first_match_wins decision_list t) as [cat conf] eqn:Hw. cbn [fst] in Hin, Hupi.
  rewrite (classify_init path _ Hw).
  set (c := {| category := cat |}).
  assert (Hc1 : str_in (category c) ["credit"; "cashback"; "investment"] = false).
  { change (category c) with cat.
    destruct Hin as [<- | [<- | [<- | [<- | [<- | [<- | []]]]]]]; reflexivity. }
  assert (Hc2 : str_in (category c) ["bill"; "credit"] = false).
  { change (category c) with cat.
    destruct Hin as [<- | [<- | [<- | [<- | [<- | [<- | []]]]]]]; reflexivity. }
  destruct (@spending_impacts now' t c) as (bs & js & Himp & Hbs & Hjs);
    try (rewrite Hk; reflexivity); try exact Hc1.
  exists c, bs, js. split; [reflexivity|]. split; [exact Hin|]. split; [exact Hupi|].
  split; [exact Himp|]. split; [| split].
  - intros H1 H2.
    rewrite (@bill_relevance_markers t c) in Hbs;
      try assumption; try (rewrite Hk; reflexivity); rewrite Hraw; assumption.
  - intros b Hb. destruct (_is_transaction_relevant t c cc_bill).
    + destruct Hbs as (b' & -> & Hid & _). destruct Hb as [<- | []]. exact Hid.
    + subst bs. destruct Hb.
  - rewrite Hk in Hjs. cbn [String.eqb Ascii.eqb Bool.eqb andb] in Hjs. exact Hjs.
Qed.

(** The Netflix UPI message. *)
Lemma upi_pipeline_witness :
  transaction_type netflix_fact = "debit" /\ account_ref netflix_fact = None.
Proof.
  destruct (@upi_pipeline sept_20 netflix_text netflix_fact eq_refl (parse_netflix sept_20))
    as (H1 & H2 & _).
  exact (conj H1 H2).
Defined.

(** X12.  Fallback facts, end to end.  When no declared pattern matches and
    extraction still returns a fact: the fact is of kind other with
    confidence 0.3, the clock reading as timestamp and no merchant, account
    or reference; it is classified transfer 0.8, fee 0.75 or other 0.3, with
    no subcategory; and on the demo registry it touches neither savings nor
    budget: the only impact it can have is on the bill goal, and none at all
    unless the text contains "reminder" or "credit card". *)
Theorem fallback_pipeline now text t :
  deciding_pattern text = None ->
  SMSParser.parse_message now text = Ok (Some t) ->
  transaction_type t = "other" /\ Parsers.confidence t = 0.3%float /\ timestamp t = now /\
  merchant t = None /\ account_ref t = None /\ reference t = None /\
  forall path now',
  exists c bs,
    classify_transaction (TransactionClassifier_init path) t = Ok c /\
    In (category c, Classifier.confidence c)
       [("transfer", 0.8); ("fee", 0.75); ("other", 0.3)]%float /\
    subcategories c = [] /\
    calculate_transaction_impact GoalImpactCalculator_init now' t c = Ok bs /\
    (contains "reminder" (lower (strip text)) = false ->
     contains "credit card" (lower (strip text)) = false -> bs = []) /\
    (forall b, In b bs -> impact_goal_id b = "cc-bill").
Proof.
  unfold deciding_pattern. intros Hp Ht.
  destruct (SMSParser.first_match SMSParser.patterns (strip text)) as [[m p]|] eqn:E;
    [discriminate|]. clear Hp.
  pose proof (parse_message_outcomes now text) as H. rewrite E in H.
  destruct (search false SMSParser.fallback_re (strip text)) as [m|];
    [| rewrite H in Ht; discriminate].
  destruct H as (g & _ & H).
  destruct (py_float (remove_char "," g)) as [a|e]; [| rewrite H in Ht; discriminate].
  rewrite H in Ht. apply ok_some_inj in Ht. subst t.
  repeat (split; [reflexivity|]).
  intros path now'. set (t := fallback_fact now a (strip text)).
  assert (Hk : transaction_type t = "other") by reflexivity.
  assert (Hm : merchant t = None) by reflexivity.
  assert (Hin : In (first_match_wins decision_list t)
                   [("transfer", 0.8); ("fee", 0.75); ("other", 0.3)]%float).
  { rewrite (rules_no_merchant _ Hm).
    cbn [skipn first_match_wins decision_list fires label rule_confidence].
    unfold kind_lower. rewrite Hk. change (lower "other") with "other".
    cbn [String.eqb Ascii.eqb Bool.eqb andb].
    case_conditions; cbn; auto 10. }
  destruct (first_match_wins decision_list t) as [cat conf] eqn:Hw.
  rewrite (classify_init path _ Hw).
  set (c := {| category := cat |}).
  assert (Hcat : In cat ["transfer"; "fee"; "other"]).
  { destruct Hin as [H1 | [H1 | [H1 | []]]]; inversion H1; cbn; auto. }
  assert (Hc1 : str_in (category c) ["credit"; "cashback"; "investment"] = false).
  { change (category c) with cat. destruct Hcat as [<- | [<- | [<- | []]]]; reflexivity. }
  assert (Hc2 : str_in (category c) ["bill"; "credit"] = false).
  { change (category c) with cat. destruct Hcat as [<- | [<- | [<- | []]]]; reflexivity. }
  destruct (@spending_impacts now' t c) as (bs & js & Himp & Hbs & Hjs);
    try (rewrite Hk; reflexivity); try exact Hc1.
  rewrite Hk in Hjs. cbn [String.eqb Ascii.eqb Bool.eqb andb] in Hjs. subst js.
  rewrite app_nil_r in Himp.
  exists c, bs. split; [reflexivity|]. split; [exact Hin|].
  split.
  { change (subcategories c) with (_generate_subcategories t cat).
    destruct Hcat as [<- | [<- | [<- | []]]]; reflexivity. }
  split; [exact Himp|]. split.
  - intros H1 H2.
    rewrite (@bill_relevance_markers t c) in Hbs;
      try assumption; rewrite Hk; reflexivity.
  - intros b Hb. destruct (_is_transaction_relevant t c cc_bill).
    + destruct Hbs as (b' & -> & Hid & _). destruct Hb as [<- | []]. exact Hid.
    + subst bs. destruct Hb.
Qed.

(** A message only the generic fallback reads. *)
Lemma fallback_pipeline_witness :
  match SMSParser.parse_message sept_20 atm_text with
  | Ok (Some t) => transaction_type t = "other" /\ Parsers.confidence t = 0.3%float
  | _ => False
  end.
Proof.
  destruct (SMSParser.parse_message sept_20 atm_text) as [[t|]|e] eqn:E;
    [| vm_compute in E; discriminate E ..].
  destruct (@fallback_pipeline sept_20 atm_text t eq_refl E) as (H1 & H2 & _).
  exact (conj H1 H2).
Defined.

(** X13.  Interest credits by email, end to end.  When the interest pattern
    decides an email and extraction returns a fact: the fact is a credit
    stamped with the clock reading, without account or reference, and its
    merchant is the date text of the message (digits, a blank, a word: the
    second group is read as the merchant); its category is never bills, and
    never other when the lowered text contains "interest" (the classifier's
    own test on the text); and on the demo registry it yields exactly two
    impacts: the savings goal gains the amount, and the credit-card bill goal
    books the interest as a payment towards the bill (score 0.8, impact
    amount -amount) unless the text contains "reminder". *)
Theorem interest_pipeline now text t :
  deciding_email_pattern text = Some EmailParser.interest_credit ->
  EmailParser.parse_message now text = Ok (Some t) ->
  transaction_type t = "credit" /\ timestamp t = now /\
  account_ref t = None /\ reference t = None /\
  (exists w, merchant t = Some w /\ day_month w) /\
  forall path now',
  exists c s b,
    classify_transaction (TransactionClassifier_init path) t = Ok c /\
    In (category c)
       ["shopping"; "utilities"; "entertainment"; "transfer"; "fee"; "cashback"; "other"] /\
    (contains "interest" (lower (strip text)) = true ->
     In (category c)
        ["shopping"; "utilities"; "entertainment"; "transfer"; "fee"; "cashback"]) /\
    calculate_transaction_impact GoalImpactCalculator_init now' t c = Ok [s; b] /\
    impact_goal_id s = "demo-savings" /\
    impact_amount s = amount t /\
    impact_goal_id b = "cc-bill" /\
    (contains "reminder" (lower (strip text)) = false ->
     impact_score b = 0.8%float /\ impact_amount b = (- amount t)%float).
Proof.
  intros Hp Ht.
  destruct (deciding_email_pattern_search _ Hp) as (m & E & S).
  destruct (email_pattern_fact _ _ E Ht) as (a & Ha & Et).
  assert (Hk : transaction_type t = "credit") by (rewrite Et; reflexivity).
  assert (Hraw : raw_message t = strip text) by (rewrite Et; reflexivity).
  destruct (@groups_present _ _ _ _ 1 S eq_refl) as [w Hw]; [cbn; lia|].
  pose proof (@search_group_content true 2 day_month _ _ _ interest_date_content S w Hw
                (le_S _ _ (le_n 1))) as Hdm.
  destruct (@search_groups _ _ _ _ (eq_refl : numbered (p_regex EmailParser.interest_credit) = true) S)
    as [_ Hlen].
  assert (Hnone : nth_error (groups m) 2 = None).
  { apply nth_error_None. rewrite Hlen. cbn. lia. }
  assert (Hm1 : merchant t = Some w) by (rewrite Et; cbn [merchant]; rewrite Hw; reflexivity).
  assert (Hr1 : reference t = None)
    by (rewrite Et; cbn [reference]; rewrite Hnone; reflexivity).
  assert (Hts : timestamp t = now) by (rewrite Et; reflexivity).
  assert (Hac : account_ref t = None) by (rewrite Et; reflexivity).
  clear Et. repeat (split; [assumption|]). split; [eauto|].
  intros path now'.
  assert (Hin : In (fst (first_match_wins decision_list t))
                   ["shopping"; "utilities"; "entertainment"; "transfer"; "fee";
                    "cashback"; "other"]).
  { cbn [first_match_wins decision_list fires label rule_confidence].
    unfold kind_lower. rewrite Hk. change (lower "credit") with "credit".
    cbn [String.eqb Ascii.eqb Bool.eqb andb].
    case_conditions; cbn; auto 10. }
  assert (Hint : contains "interest" (lower (strip text)) = true ->
                 In (fst (first_match_wins decision_list t))
                    ["shopping"; "utilities"; "entertainment"; "transfer"; "fee";
                     "cashback"]).
  { rewrite <- Hraw. intro Hi.
    cbn [first_match_wins decision_list fires label rule_confidence].
    unfold kind_lower, raw_lower. rewrite Hk, Hi. change (lower "credit") with "credit".
    cbn [String.eqb Ascii.eqb Bool.eqb andb].
    case_conditions; cbn; auto 10. }
  destruct (first_match_wins decision_list t) as [cat conf] eqn:Hwin. cbn [fst] in Hin, Hint.
  rewrite (classify_init path _ Hwin).
  set (c := {| category := cat |}).
  destruct (@credit_impacts now' t c Hk) as (s & b & Himp & Hsid & Hsa & _ & Hbid & _ & Hpay).
  exists c, s, b. split; [reflexivity|]. split; [exact Hin|]. split; [exact Hint|].
  split; [exact Himp|].
  repeat (split; [assumption|]).
  intro Hno. apply Hpay. rewrite Hraw. exact Hno.
Qed.

(** The interest-credit email of the repository's tests. *)
Lemma interest_pipeline_witness :
  match EmailParser.parse_message sept_20 interest_email_text with
  | Ok (Some t) => transaction_type t = "credit" /\ merchant t = Some "30 Sep"
  | _ => False
  end.
Proof.
  destruct (EmailParser.parse_message sept_20 interest_email_text) as [[t|]|e] eqn:E;
    [| vm_compute in E; discriminate E ..].
  destruct (@interest_pipeline sept_20 interest_email_text t eq_refl E) as (H1 & _).
  split; [exact H1|].
  vm_compute in E. injection E as <-. reflexivity.
Defined.

(** X14.  Bill payments by email, end to end.  When the payment pattern decides
    an email and extraction returns a fact: the fact is a debit stamped with
    the clock reading, without account, with a payee made of word characters
    and a reference; its category is never bills nor cashback; the savings
    goal is never touched; the bill goal is touched only if the text contains
    "reminder" or "credit card"; and the budget gets a record exactly when
    the category is shopping, utilities or entertainment. *)
Theorem email_payment_pipeline now text t :
  deciding_email_pattern text = Some EmailParser.bill_payment ->
  EmailParser.parse_message now text = Ok (Some t) ->
  transaction_type t = "debit" /\ timestamp t = now /\ account_ref t = None /\
  (exists payee ref,
      merchant t = Some payee /\ reference t = Some ref /\
      all_chars isword payee = true) /\
  forall path now',
  exists c bs js,
    classify_transaction (TransactionClassifier_init path) t = Ok c /\
    In (category c) ["shopping"; "utilities"; "entertainment"; "transfer"; "fee"; "other"] /\
    calculate_transaction_impact GoalImpactCalculator_init now' t c = Ok (bs ++ js)%list /\
    (contains "reminder" (lower (strip text)) = false ->
     contains "credit card" (lower (strip text)) = false -> bs = []) /\
    (forall b, In b bs -> impact_goal_id b = "cc-bill") /\
    if str_in (category c) ["shopping"; "utilities"; "entertainment"]
    then exists j, js = [j] /\ impact_goal_id j = "monthly-budget" /\
                   impact_amount j = amount t /\
                   In (impact_score j) [-1; -0.7; -0.3]%float
    else js = [].
Proof.
  intros Hp Ht.
  destruct (deciding_email_pattern_search _ Hp) as (m & E & S).
  destruct (email_pattern_fact _ _ E Ht) as (a & Ha & Et).
  assert (Hk : transaction_type t = "debit") by (rewrite Et; reflexivity).
  assert (Hraw : raw_message t = strip text) by (rewrite Et; reflexivity).
  destruct (@groups_present _ _ _ _ 1 S eq_refl) as [payee Hpayee]; [cbn; lia|].
  destruct (@groups_present _ _ _ _ 2 S eq_refl) as [ref Href]; [cbn; lia|].
  assert (Hword : content_ok true 2 (fun w => all_chars isword w = true)
                    (p_regex EmailParser.bill_payment)).
  { cbn [content_ok p_regex EmailParser.bill_payment amount_re ref_re plus star opt].
    repeat match goal with
           | |- _ /\ _ => split
           | |- True => exact I
           | |- ?j = 2%nat -> _ => let H := fresh in intro H; try discriminate H; clear H
           end.
    intros w (Hw & _). exact Hw. }
  pose proof (@search_group_content true 2 _ _ _ _ Hword S payee Hpayee
                (le_S _ _ (le_n 1))) as Hpw.
  assert (Hm1 : merchant t = Some payee)
    by (rewrite Et; cbn [merchant]; rewrite Hpayee; reflexivity).
  assert (Hr1 : reference t = Some ref)
    by (rewrite Et; cbn [reference]; rewrite Href; reflexivity).
  assert (Hts : timestamp t = now) by (rewrite Et; reflexivity).
  assert (Hac : account_ref t = None) by (rewrite Et; reflexivity).
  clear Et. repeat (split; [assumption|]). split; [eauto 10|].
  intros path now'.
  pose proof (@debit_categories _ Hk) as Hin.
  destruct (first_match_wins decision_list t) as [cat conf] eqn:Hw. cbn [fst] in Hin.
  rewrite (classify_init path _ Hw).
  set (c := {| category := cat |}).
  assert (Hc1 : str_in (category c) ["credit"; "cashback"; "investment"] = false).
  { change (category c) with cat.
    destruct Hin as [<- | [<- | [<- | [<- | [<- | [<- | []]]]]]]; reflexivity. }
  assert (Hc2 : str_in (category c) ["bill"; "credit"] = false).
  { change (category c) with cat.
    destruct Hin as [<- | [<- | [<- | [<- | [<- | [<- | []]]]]]]; reflexivity. }
  destruct (@spending_impacts now' t c) as (bs & js & Himp & Hbs & Hjs);
    try (rewrite Hk; reflexivity); try exact Hc1.
  exists c, bs, js. split; [reflexivity|]. split; [exact Hin|]. split; [exact Himp|].
  split; [| split].
  - intros H1 H2.
    rewrite (@bill_relevance_markers t c) in Hbs;
      try assumption; try (rewrite Hk; reflexivity); rewrite Hraw; assumption.
  - intros b Hb. destruct (_is_transaction_relevant t c cc_bill).
    + destruct Hbs as (b' & -> & Hid & _). destruct Hb as [<- | []]. exact Hid.
    + subst bs. destruct Hb.
  - rewrite Hk in Hjs. cbn [String.eqb Ascii.eqb Bool.eqb andb] in Hjs.
    change (category c) with cat in *.
    destruct Hin as [<- | [<- | [<- | [<- | [<- | [<- | []]]]]]]; exact Hjs.
Qed.

(** A payment email in the shape the second email pattern reads. *)
Lemma email_payment_pipeline_witness :
  match EmailParser.parse_message sept_20 payment_email_text with
  | Ok (Some t) => transaction_type t = "debit" /\ timestamp t = sept_20
  | _ => False
  end.
Proof.
  destruct (EmailParser.parse_message sept_20 payment_email_text) as [[t|]|e] eqn:E;
    [| vm_compute in E; discriminate E ..].
  destruct (@email_payment_pipeline sept_20 payment_email_text t eq_refl E)
    as (H1 & H2 & _).
  exact (conj H1 H2).
Defined.

(** ** The endpoints *)

(** X23.  The message endpoint never answers 400 or 422.  Whatever the
    database does, a request whose channel is neither sms nor email, or whose
    message yields no fact (no pattern matches, or the amount group has no
    digit), is answered with status 500 and the detail "Internal server
    error", and the database is left as it was: the 400 and the 422 the
    handler raises for these cases are caught by its own [except Exception]. *)
Theorem process_single_message_rejects (database : Type)
      (upsert : database -> transaction_data -> database * option string)
      (add : database -> string -> string -> float -> string -> database * option string)
      now later db request :
  accepted request = false ->
  process_single_message upsert add now later db request = (db, internal_error).
Proof.
  intro Hacc. unfold process_single_message, process_single_message_body.
  pose proof (parse_by_channel now request) as H.
  match type of H with match ?p with _ => _ end => destruct p as [[t|]|e] end.
  - destruct H as [H _]. congruence.
  - reflexivity.
  - reflexivity.
Qed.

(** A request on an unknown channel, against a database that stores nothing. *)
Lemma process_single_message_rejects_witness :
  process_single_message
    (fun (db : unit) (_ : transaction_data) => (db, Some "id"))
    (fun (db : unit) (_ _ : string) (_ : float) (_ : string) => (db, Some "id"))
    sept_20 sept_20 tt
    {| request_message := amazon_text; request_channel := "fax"; user_id := "demo-user" |}
  = (tt, internal_error).
Proof.
  exact (@process_single_message_rejects unit _ _ sept_20 sept_20 tt
           {| request_message := amazon_text; request_channel := "fax";
              user_id := "demo-user" |} eq_refl).
Defined.

(** X24.  What the message endpoint returns.  Whatever the database does, a
    body the endpoint returns comes from a request on the channel sms or
    email whose message yields a fact; it repeats the request's channel, has
    currency INR, an amount that is a number and not negative, one of the
    eight categories the rules can produce, at most three goal impacts, and
    every impact score between -1 and 1. *)
Theorem process_single_message_response (database : Type)
      (upsert : database -> transaction_data -> database * option string)
      (add : database -> string -> string -> float -> string -> database * option string)
      now later db request db' body :
  process_single_message upsert add now later db request = (db', Returns body) ->
  accepted request = true /\
  processed_channel body = request_channel request /\
  processed_currency body = "INR" /\
  PrimFloat.leb 0 (processed_amount body) = true /\
  In (processed_category body) predicted_categories /\
  (List.length (goal_impacts body) <= 3)%nat /\
  Forall (fun v => within (-1) 1 (view_impact_score v)) (goal_impacts body).
Proof.
  unfold process_single_message, process_single_message_body.
  pose proof (parse_by_channel now request) as H.
  match type of H with match ?p with _ => _ end => destruct p as [[t|]|e] end;
    try (cbn; discriminate).
  destruct H as (Hacc & Hch & Ha & Hcur).
  destruct (classification_vocabulary_all None t) as (c & Hc & Hcat & _).
  change (TransactionClassifier_init None) with transaction_classifier in Hc.
  rewrite Hc. cbn [call].
  destruct (calculate_transaction_impact goal_calculator later t c) as [l|e] eqn:El;
    cbn [call]; [| cbn; discriminate].
  destruct (@impacts_of_bounds later t c _ l Ha El) as [Hb Hl].
  destruct (upsert db _) as [db1 [tid|]]; [| cbn; discriminate].
  destruct (store_goal_impacts add db1 tid l) as [db2 [u|e]]; [| cbn; discriminate].
  cbn [except_exception]. intro H. inversion H; subst; clear H.
  cbn [processed_channel processed_currency processed_amount processed_category goal_impacts].
  repeat (split; [assumption|]). split.
  - rewrite length_map. exact Hl.
  - apply Forall_map. exact Hb.
Qed.

(** The Amazon card message on the channel sms. *)
Lemma process_single_message_response_witness :
  match process_single_message
          (fun (db : unit) (_ : transaction_data) => (db, Some "id"))
          (fun (db : unit) (_ _ : string) (_ : float) (_ : string) => (db, Some "id"))
          sept_20 sept_20 tt
          {| request_message := amazon_text; request_channel := "sms";
             user_id := "demo-user" |} with
  | (_, Returns body) =>
      processed_channel body = "sms" /\ processed_currency body = "INR"
  | _ => False
  end.
Proof.
  destruct (process_single_message
              (fun (db : unit) (_ : transaction_data) => (db, Some "id"))
              (fun (db : unit) (_ _ : string) (_ : float) (_ : string) => (db, Some "id"))
              sept_20 sept_20 tt
              {| request_message := amazon_text; request_channel := "sms";
                 user_id := "demo-user" |}) as [db' [body | code detail]] eqn:E;
    [| vm_compute in E; discriminate E].
  destruct (@process_single_message_response unit _ _ _ _ _ _ _ _ E) as (_ & H1 & H2 & _).
  exact (conj H1 H2).
Defined.

(** X25.  The classification endpoint, case by case.  The channel sms selects
    the SMS parser and every other channel the email parser.  If the amount
    group of the message has no digit the answer is status 500; if the
    message has no amount group the endpoint returns the error body "Unable
    to parse message" with the message (it does not raise); otherwise it
    returns the message with the fact's amount, kind, merchant and
    confidence and with the category, confidence and subcategories of its
    classification, the category being one of the eight the rules produce. *)
Theorem classify_message_outcomes now message channel :
  match outcome_of (if String.eqb channel "sms" then amount_group else email_amount_group)
                   message with
  | LineRaises => classify_message now message channel = internal_error
  | LineNothing =>
      classify_message now message channel
      = Returns (Unparsed "Unable to parse message" message)
  | LineFact =>
      exists t c,
        (if String.eqb channel "sms" then SMSParser.parse_message now message
         else EmailParser.parse_message now message) = Ok (Some t) /\
        classify_transaction transaction_classifier t = Ok c /\
        In (category c) predicted_categories /\
        classify_message now message channel
        = Returns (Classified message
                     {| parsed_amount := amount t;
                        parsed_type := transaction_type t;
                        parsed_merchant := merchant t;
                        parsed_confidence := Parsers.confidence t |}
                     {| view_category := category c;
                        view_confidence := Classifier.confidence c;
                        view_subcategories := subcategories c |})
  end.
Proof.
  unfold classify_message.
  assert (G : forall t,
             exists c, classify_transaction transaction_classifier t = Ok c /\
                       In (category c) predicted_categories).
  { intro t. destruct (classification_vocabulary_all None t) as (c & Hc & Hcat & _). eauto. }
  destruct (String.eqb channel "sms").
  - pose proof (proj2 (proj2 (proj2 sms_decided)) now message) as H.
    destruct (outcome_of amount_group message).
    + rewrite H. reflexivity.
    + destruct H as [t Ht]. destruct (G t) as (c & Hc & Hcat).
      exists t, c. rewrite Ht. cbn [bind]. rewrite Hc. cbn [bind call except_exception].
      repeat split; auto.
    + rewrite H. reflexivity.
  - pose proof (proj2 (proj2 (proj2 email_decided)) now message) as H.
    destruct (outcome_of email_amount_group message).
    + rewrite H. reflexivity.
    + destruct H as [t Ht]. destruct (G t) as (c & Hc & Hcat).
      exists t, c. rewrite Ht. cbn [bind]. rewrite Hc. cbn [bind call except_exception].
      repeat split; auto.
    + rewrite H. reflexivity.
Qed.

(** X26.  The goals endpoint never fails: for every clock it returns the
    summary of the three demo goals, in registry order, with progress 0.3,
    0 and 0.32, the days remaining counted from the clock reading taken for
    each goal to its deadline (31 December 2025 for the savings goal, 30
    September 2025 for the other two), every entry as the goal summary
    guarantees, and the clock reading taken for the response as
    [last_updated]. *)
Theorem goals_summary_returns now updated :
  exists s,
    get_goals_summary now updated = Returns {| goals := s; last_updated := updated |} /\
    map fst s = ["demo-savings"; "cc-bill"; "monthly-budget"] /\
    map (fun ke => progress (snd ke)) s = [0.3; 0; 0.32]%float /\
    map (fun ke => days_remaining (snd ke)) s
    = [Some (days_between (dt 2025 12 31) (now 0%nat));
       Some (days_between (dt 2025 9 30) (now 1%nat));
       Some (days_between (dt 2025 9 30) (now 2%nat))] /\
    Forall summary_entry_ok s.
Proof.
  unfold get_goals_summary.
  pose proof (summary_outcome goal_calculator now) as H.
  replace (existsb zero_target (demo_goals goal_calculator)) with false in H
    by (vm_compute; reflexivity).
  destruct H as (s & Hs & _ & Hok).
  exists s. rewrite Hs. cbn [bind call except_exception].
  split; [reflexivity|].
  assert (E : exists e1 e2 e3,
             get_goal_summary goal_calculator now
             = Ok [("demo-savings", e1); ("cc-bill", e2); ("monthly-budget", e3)] /\
             progress e1 = 0.3%float /\ progress e2 = 0%float /\ progress e3 = 0.32%float /\
             days_remaining e1 = Some (days_between (dt 2025 12 31) (now 0%nat)) /\
             days_remaining e2 = Some (days_between (dt 2025 9 30) (now 1%nat)) /\
             days_remaining e3 = Some (days_between (dt 2025 9 30) (now 2%nat))).
  { do 3 eexists. split; [reflexivity|]. repeat split. }
  destruct E as (e1 & e2 & e3 & E & P1 & P2 & P3 & D1 & D2 & D3).
  rewrite E in Hs. inversion Hs; subst s.
  cbn [map fst snd]. rewrite P1, P2, P3, D1, D2, D3. auto.
Qed.

(** X27.  An accepted request is stored and answered.  Against a database
    neither of whose operations fails, a request on the channel sms or email
    whose message yields a fact is answered with a body (not with an error):
    its transaction id is the one the database returned for the record the
    handler stored, and that record carries the user id of the request, the
    stripped message, and the amount and category of the answer. *)
Theorem process_single_message_stores (database : Type)
      (upsert : database -> transaction_data -> database * option string)
      (add : database -> string -> string -> float -> string -> database * option string)
      now later db request :
  accepted request = true ->
  never_fails upsert add ->
  exists data db1 db' body,
    process_single_message upsert add now later db request = (db', Returns body) /\
    upsert db data = (db1, Some (transaction_id body)) /\
    data_userid data = user_id request /\
    data_raw_message data = strip (request_message request) /\
    data_amount data = processed_amount body /\
    data_category data = processed_category body.
Proof. exact (@single_accepts database upsert add now later db request). Qed.

(** The Amazon card message on the channel sms, against a database that
    stores nothing. *)
Lemma process_single_message_stores_witness :
  exists body,
    process_single_message null_upsert null_add sept_20 sept_20 tt
      {| request_message := amazon_text; request_channel := "sms";
         user_id := "demo-user" |} = (tt, Returns body) /\
    transaction_id body = "id".
Proof.
  assert (W : never_fails null_upsert null_add) by (split; intros; discriminate).
  destruct (@process_single_message_stores unit null_upsert null_add sept_20 sept_20 tt
              {| request_message := amazon_text; request_channel := "sms";
                 user_id := "demo-user" |} ltac:(vm_compute; reflexivity) W)
    as (data & db1 & db' & body & H & Hu & _).
  exists body. destruct db'. split; [exact H|].
  unfold null_upsert in Hu. congruence.
Defined.

(** X28.  The bulk endpoint, case by case.  Whatever the database does: if
    the data file data/<file_type>.txt does not exist, if the file type is
    neither sms nor email, if the file cannot be read, or if the amount group
    of one of its lines has no digit, the answer is status 500 with the
    detail "Internal server error" and the database is left as it was (the
    404 and the 400 the handler raises are caught by its own
    [except Exception], and so is the [ValueError] of a single line).
    Otherwise the endpoint returns status "completed" with the path of the
    file, [total_transactions] the number of lines that yield a fact, and a
    [processed_count] that is at most that number. *)
Theorem process_bulk_messages_outcome (database : Type)
      (upsert : database -> transaction_data -> database * option string)
      (add : database -> string -> string -> float -> string -> database * option string)
      path_exists read_lines now later db request :
  match bulk_input path_exists read_lines request with
  | Some (group, lines) =>
      if existsb (raising_line group) lines
      then process_bulk_messages upsert add path_exists read_lines now later db request
           = (db, internal_error)
      else exists db' n,
          process_bulk_messages upsert add path_exists read_lines now later db request
          = (db', Returns {| status := "completed";
                             processed_count := n;
                             total_transactions := List.length (fact_lines group 1 lines);
                             file_processed := "data/" ++ file_type request ++ ".txt" |}) /\
          (n <= List.length (fact_lines group 1 lines))%nat
  | None =>
      process_bulk_messages upsert add path_exists read_lines now later db request
      = (db, internal_error)
  end.
Proof.
  pose proof (@bulk_outcome database upsert add path_exists read_lines now later db request)
    as H.
  destruct (bulk_input path_exists read_lines request) as [[group lines]|]; [| exact H].
  destruct (existsb (raising_line group) lines); [exact H|].
  destruct H as (db' & n & H & Hn & _). exists db', n. split; assumption.
Qed.

(** X29.  With a database that never fails the bulk endpoint skips nothing.
    If the file exists, has the type sms or email, can be read, and no line
    has an amount group without a digit, the endpoint returns, and
    [processed_count] equals [total_transactions]: every fact of the file
    was classified, scored and stored. *)
Theorem bulk_counts_every_fact (database : Type)
      (upsert : database -> transaction_data -> database * option string)
      (add : database -> string -> string -> float -> string -> database * option string)
      path_exists read_lines now later db request group lines :
  never_fails upsert add ->
  bulk_input path_exists read_lines request = Some (group, lines) ->
  existsb (raising_line group) lines = false ->
  exists db',
    process_bulk_messages upsert add path_exists read_lines now later db request
    = (db', Returns {| status := "completed";
                       processed_count := List.length (fact_lines group 1 lines);
                       total_transactions := List.length (fact_lines group 1 lines);
                       file_processed := "data/" ++ file_type request ++ ".txt" |}).
Proof.
  intros W Hin Hr.
  pose proof (@bulk_outcome database upsert add path_exists read_lines now later db request)
    as H.
  rewrite Hin, Hr in H. destruct H as (db' & n & H & _ & Hn).
  exists db'. rewrite H, (Hn W). reflexivity.
Qed.

(** A file of three lines, of which the first and the last yield a fact. *)
Lemma bulk_counts_every_fact_witness :
  exists db',
    process_bulk_messages null_upsert null_add (fun _ => true)
      (fun _ => Some [amazon_text; "hello"; neft_text])
      (fun _ => sept_20) (fun _ => sept_20) tt
      {| file_type := "sms"; bulk_user_id := "demo-user" |}
    = (db', Returns {| status := "completed"; processed_count := 2;
                       total_transactions := 2; file_processed := "data/sms.txt" |}).
Proof.
  assert (W : never_fails null_upsert null_add) by (split; intros; discriminate).
  exact (@bulk_counts_every_fact unit null_upsert null_add (fun _ => true)
           (fun _ => Some [amazon_text; "hello"; neft_text])
           (fun _ => sept_20) (fun _ => sept_20) tt
           {| file_type := "sms"; bulk_user_id := "demo-user" |}
           amount_group [amazon_text; "hello"; neft_text] W eq_refl
           ltac:(vm_compute; reflexivity)).
Defined.

End Properties.
